(** * MySQL-compatible calendar values ([util/types/mytime.go])

    A shallow embedding of the [mysqlTime] record, its accessors, the bridge to
    the host calendar ([GoTime]) and the day-number / week-number / difference
    arithmetic, followed by the properties stated about them.

    Go's [int] and [int64] are taken as 64-bit two's-complement integers and
    are represented by [Z] values; every arithmetic operation writes its
    wrap-around out ([GoInt.wrap]).  The unsigned field types [uint8],
    [uint16], [uint32] and [uint64] are [Z] values reduced modulo their
    width ([GoInt.uwrap]). *)

From Stdlib Require Import ZArith Bool List Lia.
Import ListNotations.

Local Open Scope Z_scope.

(** ** Machine integers *)

Module GoInt.

(** Two's-complement reduction of an integer to the 64-bit signed range. *)
Definition wrap (x : Z) : Z := (x + 2 ^ 63) mod 2 ^ 64 - 2 ^ 63.

(** Reduction to an unsigned [w]-bit value: the conversions [uint8(x)],
    [uint16(x)], [uint32(x)] and [uint64(x)]. *)
Definition uwrap (w : Z) (x : Z) : Z := x mod 2 ^ w.

Definition min_int : Z := - 2 ^ 63.
Definition max_int : Z := 2 ^ 63 - 1.

Definition in_int (x : Z) : Prop := min_int <= x <= max_int.

Definition add (a b : Z) : Z := wrap (a + b).
Definition sub (a b : Z) : Z := wrap (a - b).
Definition mul (a b : Z) : Z := wrap (a * b).
Definition neg (a : Z) : Z := wrap (- a).
(** Go's [/] and [%] truncate toward zero; the divisors of this file are
    non-zero constants, so the run-time panic on a zero divisor is not
    modelled. *)
Definition quot (a b : Z) : Z := wrap (Z.quot a b).
Definition rem (a b : Z) : Z := wrap (Z.rem a b).
Definition land (a b : Z) : Z := wrap (Z.land a b).

(** Unsigned 64-bit arithmetic. *)
Definition uadd (a b : Z) : Z := uwrap 64 (a + b).
Definition umul (a b : Z) : Z := uwrap 64 (a * b).

End GoInt.

(** Equality modulo 2^64, which every wrap-around preserves. *)
Definition eqm64 (x y : Z) : Prop := Zdiv.eqm (2 ^ 64) x y.

Declare Scope goint_scope.
Delimit Scope goint_scope with goint.
Infix "+i" := GoInt.add (at level 50, left associativity) : goint_scope.
Infix "-i" := GoInt.sub (at level 50, left associativity) : goint_scope.
Infix "*i" := GoInt.mul (at level 40, left associativity) : goint_scope.
Infix "/i" := GoInt.quot (at level 40, left associativity) : goint_scope.
Infix "%i" := GoInt.rem (at level 40, left associativity) : goint_scope.
Infix "&i" := GoInt.land (at level 40, left associativity) : goint_scope.
Local Open Scope goint_scope.

(** ** Day numbers *)

(** [calcDaynr] calculates days since 0000-00-00. *)
Definition calcDaynr (year month day : Z) : Z :=
  if (year =? 0) && (month =? 0) then 0
  else
    let delsum := 365 *i year +i 31 *i (month -i 1) +i day in
    let '(year, delsum) :=
      if month <=? 2 then (year -i 1, delsum)
      else (year, delsum -i (month *i 4 +i 23) /i 10) in
    let temp := ((year /i 100 +i 1) *i 3) /i 4 in
    delsum +i year /i 4 -i temp.

(** The closed form in unbounded integers, every division truncating. *)
Definition DayNumber_closed_form (year month day : Z) : Z :=
  if (year =? 0) && (month =? 0) then 0
  else
    let start := 365 * year + 31 * (month - 1) + day in
    let leap_year := if month <=? 2 then year - 1 else year in
    let month_corr := if month <=? 2 then 0 else Z.quot (month * 4 + 23) 10 in
    start - month_corr
    + (Z.quot leap_year 4 - Z.quot ((Z.quot leap_year 100 + 1) * 3) 4).

(** [calcDaysInYear] calculates days in one year, it works with
    0 <= year <= 99. *)
Definition calcDaysInYear (year : Z) : Z :=
  if (year &i 3 =? 0)
     && (negb (year %i 100 =? 0)
         || ((year %i 400 =? 0) && negb (year =? 0)))
  then 366
  else 365.

(** [calcWeekday] calculates weekday from daynr, returns 0 for Monday,
    1 for Tuesday ... *)
Definition calcWeekday (daynr : Z) (sundayFirstDayOfWeek : bool) : Z :=
  let daynr := daynr +i 5 in
  let daynr := if sundayFirstDayOfWeek then daynr +i 1 else daynr in
  daynr %i 7.

(** ** Calendar values *)

(** The fields hold the values of Go's [uint16], [uint8] and [uint32]. *)
Record mysqlTime : Type := MkMysqlTime {
  year : Z;        (* uint16, year <= 9999 *)
  month : Z;       (* uint8, month <= 12 *)
  day : Z;         (* uint8, day <= 31 *)
  hour : Z;        (* uint8, hour <= 23 *)
  minute : Z;      (* uint8, minute <= 59 *)
  second : Z;      (* uint8, second <= 59 *)
  microsecond : Z  (* uint32 *)
}.

(** The values a [mysqlTime] can hold: every field within its bit width. *)
Definition mysqlTime_wf (t : mysqlTime) : Prop :=
  0 <= year t < 2 ^ 16 /\ 0 <= month t < 2 ^ 8 /\ 0 <= day t < 2 ^ 8 /\
  0 <= hour t < 2 ^ 8 /\ 0 <= minute t < 2 ^ 8 /\ 0 <= second t < 2 ^ 8 /\
  0 <= microsecond t < 2 ^ 32.

(** Modelled from the spec: the declaration of the interface [TimeInternal]
    is not part of the sources; it is "the read-only contract
    {Year, Month, Day, Hour, Minute, Second, Microsecond} -> int". *)
Class TimeInternal (T : Type) : Type := {
  Year : T -> Z;
  Month : T -> Z;
  Day : T -> Z;
  Hour : T -> Z;
  Minute : T -> Z;
  Second : T -> Z;
  Microsecond : T -> Z
}.

(** The accessors widen each field to [int], which changes no value. *)
#[export] Instance mysqlTime_TimeInternal : TimeInternal mysqlTime := {|
  Year t := year t;
  Month t := month t;
  Day t := day t;
  Hour t := hour t;
  Minute t := minute t;
  Second t := second t;
  Microsecond t := microsecond t
|}.

Definition newMysqlTime (year month day hour minute second microsecond : Z)
  : mysqlTime :=
  MkMysqlTime
    (GoInt.uwrap 16 year)
    (GoInt.uwrap 8 month)
    (GoInt.uwrap 8 day)
    (GoInt.uwrap 8 hour)
    (GoInt.uwrap 8 minute)
    (GoInt.uwrap 8 second)
    (GoInt.uwrap 32 microsecond).

(** The source updates [to] in place; here the updated record is returned. *)
Definition calcTimeFromSec (to : mysqlTime) (seconds microseconds : Z)
  : mysqlTime :=
  let hour' := GoInt.uwrap 8 (seconds /i 3600) in
  let seconds := seconds %i 3600 in
  MkMysqlTime (year to) (month to) (day to)
    hour'
    (GoInt.uwrap 8 (seconds /i 60))
    (GoInt.uwrap 8 (seconds %i 60))
    (GoInt.uwrap 32 microseconds).

(** The fields within the ranges their declarations document. *)
Definition in_declared_ranges {T : Type} `{TimeInternal T} (t : T) : Prop :=
  0 <= Year t <= 9999 /\ 0 <= Month t <= 12 /\ 0 <= Day t <= 31 /\
  0 <= Hour t <= 23 /\ 0 <= Minute t <= 59 /\ 0 <= Second t <= 59.

(** ** Week numbering *)

(** [weekBehaviour] is a [uint] used as a set of three flags. *)
Definition weekBehaviour : Type := Z.

(** If set, Sunday is first day of week, otherwise Monday is first day of
    week. *)
Definition weekBehaviourMondayFirst : weekBehaviour := Z.shiftl 1 0.
(** If set, Week is in range 1-53, otherwise Week is in range 0-53. *)
Definition weekBehaviourYear : weekBehaviour := Z.shiftl 1 1.
(** If not set, Weeks are numbered according to ISO 8601:1988.
    If set, the week that contains the first 'first-day-of-week' is week 1. *)
Definition weekBehaviourFirstWeekday : weekBehaviour := Z.shiftl 1 2.

Definition test (v flag : weekBehaviour) : bool :=
  negb (Z.land v flag =? 0).

Definition weekMode (mode : Z) : weekBehaviour :=
  let weekFormat := GoInt.uwrap 64 (mode &i 7) in
  if Z.land weekFormat weekBehaviourMondayFirst =? 0
  then Z.lxor weekFormat weekBehaviourFirstWeekday
  else weekFormat.

(** [calcWeek] calculates week and year for the time.  The early [return]
    of the source is the [inl] branch below; the assignments to [weekYear],
    [year], [firstDaynr] and [weekday] are the tuple of the [inr] branch. *)
Definition calcWeek (t : mysqlTime) (wb : weekBehaviour) : Z * Z :=
  let daynr := calcDaynr (year t) (month t) (day t) in
  let firstDaynr := calcDaynr (year t) 1 1 in
  let mondayFirst := test wb weekBehaviourMondayFirst in
  let weekYear := test wb weekBehaviourYear in
  let firstWeekday := test wb weekBehaviourFirstWeekday in
  let weekday := calcWeekday firstDaynr (negb mondayFirst) in
  let year_ := year t in
  let first_block :=
    if (month t =? 1) && (day t <=? 7 -i weekday) then
      if negb weekYear
         && ((firstWeekday && negb (weekday =? 0))
             || (negb firstWeekday && (weekday >=? 4)))
      then inl (year_, 0)
      else
        let year_ := year_ -i 1 in
        let days := calcDaysInYear year_ in
        inr (true, year_, firstDaynr -i days,
             (weekday +i (53 * 7)%Z -i days) %i 7)
    else inr (weekYear, year_, firstDaynr, weekday) in
  match first_block with
  | inl result => result
  | inr (weekYear, year_, firstDaynr, weekday) =>
      let days :=
        if (firstWeekday && negb (weekday =? 0))
           || (negb firstWeekday && (weekday >=? 4))
        then daynr -i (firstDaynr +i 7 -i weekday)
        else daynr -i (firstDaynr -i weekday) in
      let week := days /i 7 +i 1 in
      if weekYear && (days >=? (52 * 7)%Z) then
        let weekday := (weekday +i calcDaysInYear year_) %i 7 in
        if (negb firstWeekday && (weekday <? 4))
           || (firstWeekday && (weekday =? 0))
        then (year_ +i 1, 1)
        else (year_, week)
      else (year_, week)
  end.

Definition YearWeek (t : mysqlTime) (mode : Z) : Z * Z :=
  if (month t =? 0) || (day t =? 0) then (0, 0)
  else
    let behavior := Z.lor (weekMode mode) weekBehaviourYear in
    calcWeek t behavior.

Definition Week (t : mysqlTime) (mode : Z) : Z :=
  if (month t =? 0) || (day t =? 0) then 0
  else snd (calcWeek t (weekMode mode)).

(** The test of the week-0 return of [calcWeek] without its year-relative
    flag: the date lies in January before the first start of a week, and the
    partial week it lies in is not week 1. *)
Definition before_first_week (t : mysqlTime) (wb : weekBehaviour) : bool :=
  let firstDaynr := calcDaynr (year t) 1 1 in
  let mondayFirst := test wb weekBehaviourMondayFirst in
  let firstWeekday := test wb weekBehaviourFirstWeekday in
  let weekday := calcWeekday firstDaynr (negb mondayFirst) in
  (month t =? 1) && (day t <=? 7 -i weekday)
  && ((firstWeekday && negb (weekday =? 0))
      || (negb firstWeekday && (weekday >=? 4))).

(** ** The host calendar

    [GoTime] bridges to the host's [time] package, which is not part of this
    repository.  Its operations are an interface here; [HostUTC] below is a
    model of them for a zone without offset. *)

Class HostCalendar : Type := {
  (** [gotime.Time] *)
  Time : Type;
  (** [gotime.Date(year, month, day, hour, min, sec, nsec, gotime.Local)] *)
  Date : Z -> Z -> Z -> Z -> Z -> Z -> Z -> Time;
  (** [tm.Date()]: year, month, day *)
  Time_Date : Time -> Z * Z * Z;
  (** [tm.Clock()]: hour, minute, second *)
  Time_Clock : Time -> Z * Z * Z;
  (** [tm.Nanosecond()] *)
  Time_Nanosecond : Time -> Z;
  (** [tm.Weekday()], Sunday = 0 *)
  Time_Weekday : Time -> Z;
  (** [tm.YearDay()] *)
  Time_YearDay : Time -> Z
}.

Module Host.

(** The host's leap-year rule and month lengths ([isLeap], [daysBefore],
    [daysIn] of the [time] package). *)
Definition isLeap (year : Z) : bool :=
  (Z.rem year 4 =? 0)
  && (negb (Z.rem year 100 =? 0) || (Z.rem year 400 =? 0)).

Definition daysBefore : list Z :=
  [0; 31; 31 + 28; 31 + 28 + 31; 31 + 28 + 31 + 30;
   31 + 28 + 31 + 30 + 31; 31 + 28 + 31 + 30 + 31 + 30;
   31 + 28 + 31 + 30 + 31 + 30 + 31;
   31 + 28 + 31 + 30 + 31 + 30 + 31 + 31;
   31 + 28 + 31 + 30 + 31 + 30 + 31 + 31 + 30;
   31 + 28 + 31 + 30 + 31 + 30 + 31 + 31 + 30 + 31;
   31 + 28 + 31 + 30 + 31 + 30 + 31 + 31 + 30 + 31 + 30;
   31 + 28 + 31 + 30 + 31 + 30 + 31 + 31 + 30 + 31 + 30 + 31].

Definition daysBefore_at (i : Z) : Z := nth (Z.to_nat i) daysBefore 0.

Definition daysIn (m year : Z) : Z :=
  if (m =? 2) && isLeap year then 29
  else daysBefore_at m - daysBefore_at (m - 1).

(** What the host guarantees of every time it decomposes: a month between
    January and December and a day that exists in that month. *)
Definition real_date (ymd : Z * Z * Z) : Prop :=
  let '(y, m, d) := ymd in 1 <= m <= 12 /\ 1 <= d <= daysIn m y.

End Host.

Class HostCalendarLaws (H : HostCalendar) : Prop := {
  Time_Date_real : forall tm : Time, Host.real_date (Time_Date tm)
}.

Inductive error : Type :=
  | ErrInvalidTimeFormat.

Module errors.
(** [errors.Trace] annotates an error with the call site and keeps its
    cause. *)
Definition Trace (e : error) : error := e.
End errors.

Section Bridge.

Context {host : HostCalendar}.

(** [GoTime]: the pair of the returned time and the returned error, [None]
    standing for [nil]. *)
Definition GoTime (t : mysqlTime) : Time * option error :=
  let tm := Date (Year t) (Month t) (Day t) (Hour t) (Minute t) (Second t)
                 (Microsecond t *i 1000) in
  let '(year, month, day) := Time_Date tm in
  let '(hour, minute, second) := Time_Clock tm in
  let microsec := Time_Nanosecond tm /i 1000 in
  if negb (year =? Year t) || negb (month =? Month t)
     || negb (day =? Day t)
     || negb (hour =? Hour t) || negb (minute =? Minute t)
     || negb (second =? Second t)
     || negb (microsec =? Microsecond t)
  then (tm, Some (errors.Trace ErrInvalidTimeFormat))
  else (tm, None).

(** The time [GoTime] asks of the host. *)
Definition GoTime_normalized (t : mysqlTime) : Time :=
  Date (Year t) (Month t) (Day t) (Hour t) (Minute t) (Second t)
       (Microsecond t *i 1000).

(** Every decomposed field of the normalized time is the field of [t]. *)
Definition GoTime_fields_match (t : mysqlTime) : Prop :=
  let tm := GoTime_normalized t in
  Time_Date tm = (Year t, Month t, Day t)
  /\ Time_Clock tm = (Hour t, Minute t, Second t)
  /\ Time_Nanosecond tm /i 1000 = Microsecond t.

(** At least one decomposed field of the normalized time is not the field
    of [t]. *)
Definition GoTime_field_differs (t : mysqlTime) : Prop :=
  let tm := GoTime_normalized t in
  let '(year, month, day) := Time_Date tm in
  let '(hour, minute, second) := Time_Clock tm in
  year <> Year t \/ month <> Month t \/ day <> Day t
  \/ hour <> Hour t \/ minute <> Minute t \/ second <> Second t
  \/ Time_Nanosecond tm /i 1000 <> Microsecond t.

Definition Weekday (t : mysqlTime) : Z :=
  match GoTime t with
  | (_, Some _) => 0
  | (t1, None) => Time_Weekday t1
  end.

Definition YearDay (t : mysqlTime) : Z :=
  match GoTime t with
  | (_, Some _) => 0
  | (t1, None) => Time_YearDay t1
  end.

End Bridge.

(** *** A model of the host for a zone without offset

    [HostUTC] follows the [time] package: [Date] normalizes month, then
    nanoseconds, seconds, minutes and hours into the day, and counts the
    seconds since the absolute epoch (January 1 of the year -292277022399);
    the queries split that count again.  The package computes with unsigned
    64-bit counts that do not overflow for the years of a [mysqlTime]; the
    model computes in unbounded integers. *)

Module HostUTC.

Definition norm (hi lo base : Z) : Z * Z :=
  let '(hi, lo) :=
    if lo <? 0 then
      let n := Z.quot (- lo - 1) base + 1 in
      (hi - n, lo + n * base)
    else (hi, lo) in
  if lo >=? base then
    let n := Z.quot lo base in
    (hi + n, lo - n * base)
  else (hi, lo).

Definition absoluteZeroYear : Z := -292277022399.
Definition secondsPerDay : Z := 86400.
Definition daysPer400Years : Z := 365 * 400 + 97.
Definition daysPer100Years : Z := 365 * 100 + 24.
Definition daysPer4Years : Z := 365 * 4 + 1.

Definition daysSinceEpoch (year : Z) : Z :=
  let y := year - absoluteZeroYear in
  let n := y / 400 in
  let y := y - 400 * n in
  let d := daysPer400Years * n in
  let n := y / 100 in
  let y := y - 100 * n in
  let d := d + daysPer100Years * n in
  let n := y / 4 in
  let y := y - 4 * n in
  let d := d + daysPer4Years * n in
  let n := y in
  d + 365 * n.

(** A time: seconds since the absolute epoch, and nanoseconds. *)
Definition Time : Type := Z * Z.

Definition Date (year month day hour min sec nsec : Z) : Time :=
  let m := month - 1 in
  let '(year, m) := norm year m 12 in
  let month := m + 1 in
  let '(sec, nsec) := norm sec nsec 1000000000 in
  let '(min, sec) := norm min sec 60 in
  let '(hour, min) := norm hour min 60 in
  let '(day, hour) := norm day hour 24 in
  let d := daysSinceEpoch year in
  let d := d + Host.daysBefore_at (month - 1) in
  let d := if Host.isLeap year && (month >=? 3) then d + 1 else d in
  let d := d + (day - 1) in
  let abs := d * secondsPerDay in
  let abs := abs + (hour * 3600 + min * 60 + sec) in
  (abs, nsec).

(** Year and zero-based day of the year of a day count ([absDate]). *)
Definition absYear (d : Z) : Z * Z :=
  let n := d / daysPer400Years in
  let y := 400 * n in
  let d := d - daysPer400Years * n in
  let n := d / daysPer100Years in
  let n := n - Z.shiftr n 2 in
  let y := y + 100 * n in
  let d := d - daysPer100Years * n in
  let n := d / daysPer4Years in
  let y := y + 4 * n in
  let d := d - daysPer4Years * n in
  let n := d / 365 in
  let n := n - Z.shiftr n 2 in
  let y := y + n in
  let d := d - 365 * n in
  (y + absoluteZeroYear, d).

(** Month and day of the month of a zero-based day of the year. *)
Definition monthDay (leap : bool) (yday : Z) : Z * Z :=
  if leap && (yday =? 31 + 29 - 1) then (2, 29)
  else
    let day := if leap && (yday >? 31 + 29 - 1) then yday - 1 else yday in
    let month := day / 31 in
    let end_ := Host.daysBefore_at (month + 1) in
    let '(month, begin) :=
      if day >=? end_ then (month + 1, end_)
      else (month, Host.daysBefore_at month) in
    (month + 1, day - begin + 1).

(** The check that [monthDay] gives a month between 1 and 12 and a day of
    that month. *)
Definition monthDay_ok (leap : bool) (yday : Z) : bool :=
  let '(m, d) := monthDay leap yday in
  (1 <=? m) && (m <=? 12) && (1 <=? d)
  && (d <=? (if (m =? 2) && leap then 29
             else Host.daysBefore_at m - Host.daysBefore_at (m - 1))).

Definition Time_Date (tm : Time) : Z * Z * Z :=
  let '(year, yday) := absYear (fst tm / secondsPerDay) in
  let '(month, day) := monthDay (Host.isLeap year) yday in
  (year, month, day).

Definition Time_Clock (tm : Time) : Z * Z * Z :=
  let sec := fst tm mod secondsPerDay in
  let hour := sec / 3600 in
  let sec := sec - hour * 3600 in
  let min := sec / 60 in
  let sec := sec - min * 60 in
  (hour, min, sec).

Definition Time_Nanosecond (tm : Time) : Z := snd tm.

(** January 1 of the absolute year was a Monday. *)
Definition Time_Weekday (tm : Time) : Z :=
  let sec := (fst tm + 1 * secondsPerDay) mod (7 * secondsPerDay) in
  sec / secondsPerDay.

Definition Time_YearDay (tm : Time) : Z :=
  snd (absYear (fst tm / secondsPerDay)) + 1.

Definition host : HostCalendar :=
  Build_HostCalendar Time Date Time_Date Time_Clock Time_Nanosecond
                     Time_Weekday Time_YearDay.

End HostUTC.

(** ** Differences and integer encodings *)

Definition SECONDS_IN_24H : Z := 86400.

(** [calcTimeDiff] calculates difference between two datetime values as
    seconds + microseconds.  [int64] and [int] have the same width, so the
    conversions between them change no value. *)
Definition calcTimeDiff {T : Type} `{TimeInternal T} (t1 t2 : T) (sign : Z)
  : Z * Z * bool :=
  let days := calcDaynr (Year t1) (Month t1) (Day t1) in
  let days := days -i sign *i calcDaynr (Year t2) (Month t2) (Day t2) in
  let tmp :=
    (days *i SECONDS_IN_24H
     +i Hour t1 *i 3600 +i Minute t1 *i 60
     +i Second t1
     -i sign *i (Hour t2 *i 3600 +i Minute t2 *i 60 +i Second t2))
    *i 1000000
    +i Microsecond t1 -i sign *i Microsecond t2 in
  let '(tmp, neg) := if tmp <? 0 then (GoInt.neg tmp, true) else (tmp, false) in
  (tmp /i 1000000, tmp %i 1000000, neg).

(** The signed microsecond count [tmp] of [calcTimeDiff], before its sign is
    taken off. *)
Definition calcTimeDiff_tmp {T : Type} `{TimeInternal T} (t1 t2 : T)
  (sign : Z) : Z :=
  let days := calcDaynr (Year t1) (Month t1) (Day t1) in
  let days := days -i sign *i calcDaynr (Year t2) (Month t2) (Day t2) in
  (days *i SECONDS_IN_24H
   +i Hour t1 *i 3600 +i Minute t1 *i 60
   +i Second t1
   -i sign *i (Hour t2 *i 3600 +i Minute t2 *i 60 +i Second t2))
  *i 1000000
  +i Microsecond t1 -i sign *i Microsecond t2.

(** [datetimeToUint64] converts time value to integer in YYYYMMDDHHMMSS
    format. *)
Definition datetimeToUint64 {T : Type} `{TimeInternal T} (t : T) : Z :=
  GoInt.uadd
    (GoInt.umul
       (GoInt.uwrap 64 (Year t *i 10000 +i Month t *i 100 +i Day t))
       1000000)
    (GoInt.uwrap 64
       (GoInt.uadd
          (GoInt.uadd (GoInt.uwrap 64 (Hour t *i 10000))
                      (GoInt.umul (GoInt.uwrap 64 (Minute t)) 100))
          (GoInt.uwrap 64 (Second t)))).

(** [dateToUint64] converts time value to integer in YYYYMMDD format. *)
Definition dateToUint64 {T : Type} `{TimeInternal T} (t : T) : Z :=
  GoInt.uwrap 64
    (GoInt.uadd
       (GoInt.uadd (GoInt.umul (GoInt.uwrap 64 (Year t)) 10000)
                   (GoInt.umul (GoInt.uwrap 64 (Month t)) 100))
       (GoInt.uwrap 64 (Day t))).

(** [timeToUint64] converts time value to integer in HHMMSS format. *)
Definition timeToUint64 {T : Type} `{TimeInternal T} (t : T) : Z :=
  GoInt.uwrap 64
    (GoInt.uadd
       (GoInt.uadd (GoInt.umul (GoInt.uwrap 64 (Hour t)) 10000)
                   (GoInt.umul (GoInt.uwrap 64 (Minute t)) 100))
       (GoInt.uwrap 64 (Second t))).

(** Decoding of a YYYYMMDDHHMMSS integer by decimal place value: two digits
    each for second, minute, hour, day and month, the rest for the year. *)
Record decoded_datetime : Type := MkDecoded {
  dec_year : Z; dec_month : Z; dec_day : Z;
  dec_hour : Z; dec_minute : Z; dec_second : Z
}.

Definition decode_datetime (n : Z) : decoded_datetime :=
  MkDecoded
    (n / 10000000000)
    ((n / 100000000) mod 100)
    ((n / 1000000) mod 100)
    ((n / 10000) mod 100)
    ((n / 100) mod 100)
    (n mod 100).

(** ** Calendar dates

    The dates the day numbering is stated over: first with the leap years
    of [calcDaysInYear], then those of the proleptic Gregorian calendar. *)

Definition days_in_month (y m : Z) : Z :=
  if m =? 2 then (if calcDaysInYear y =? 366 then 29 else 28)
  else if (m =? 4) || (m =? 6) || (m =? 9) || (m =? 11) then 30
  else 31.

Definition valid_date (y m d : Z) : Prop :=
  0 <= y < 2 ^ 16 /\ 1 <= m <= 12 /\ 1 <= d <= days_in_month y m.

(** The date one calendar day later. *)
Definition next_day (y m d : Z) : Z * Z * Z :=
  if d <? days_in_month y m then (y, m, d + 1)
  else if m <? 12 then (y, m + 1, 1)
  else (y + 1, 1, 1).

(** The dates of the proleptic Gregorian calendar, which the day numbering
    is said to follow: a month from January to December and a day of that
    month, the leap years being the host's, year 0 among them. *)
Definition gregorian_date (y m d : Z) : Prop :=
  0 <= y < 2 ^ 16 /\ 1 <= m <= 12 /\ 1 <= d <= Host.daysIn m y.

(** The date one calendar day later in that calendar. *)
Definition gregorian_next_day (y m d : Z) : Z * Z * Z :=
  if d <? Host.daysIn m y then (y, m, d + 1)
  else if m <? 12 then (y, m + 1, 1)
  else (y + 1, 1, 1).

(** ** Orders and exact forms used by the further properties *)

(** The order of dates: by year, then month, then day. *)
Definition date_lt (y1 m1 d1 y2 m2 d2 : Z) : Prop :=
  y1 < y2 \/ (y1 = y2 /\ (m1 < m2 \/ (m1 = m2 /\ d1 < d2))).

(** The leap-day correction of [calcDaynr] for the year [c]. *)
Definition leap_term (c : Z) : Z :=
  Z.quot c 4 - Z.quot ((Z.quot c 100 + 1) * 3) 4.

(** The steps of [calcWeek] on unbounded integers, from the two day numbers
    [daynr] and [firstDaynr], the three flags, and the lengths [diy1] and
    [diy] of the previous and of the current year. *)
Definition calcWeek_steps (yr mo dy daynr firstDaynr diy1 diy : Z)
  (mondayFirst weekYear firstWeekday : bool) : Z * Z :=
  let weekday := Z.rem (firstDaynr + 5 + (if mondayFirst then 0 else 1)) 7 in
  let first_block :=
    if (mo =? 1) && (dy <=? 7 - weekday) then
      if negb weekYear
         && ((firstWeekday && negb (weekday =? 0))
             || (negb firstWeekday && (weekday >=? 4)))
      then inl (yr, 0)
      else inr (true, yr - 1, diy1, firstDaynr - diy1,
                Z.rem (weekday + 371 - diy1) 7)
    else inr (weekYear, yr, diy, firstDaynr, weekday) in
  match first_block with
  | inl result => result
  | inr (weekYear, yr, len, firstDaynr, weekday) =>
      let days :=
        if (firstWeekday && negb (weekday =? 0))
           || (negb firstWeekday && (weekday >=? 4))
        then daynr - (firstDaynr + 7 - weekday)
        else daynr - (firstDaynr - weekday) in
      let week := Z.quot days 7 + 1 in
      if weekYear && (days >=? 364) then
        let weekday := Z.rem (weekday + len) 7 in
        if (negb firstWeekday && (weekday <? 4))
           || (firstWeekday && (weekday =? 0))
        then (yr + 1, 1)
        else (yr, week)
      else (yr, week)
  end.

(** The microseconds from day number 0 to a value, in unbounded integers. *)
Definition instant_us {T : Type} `{TimeInternal T} (t : T) : Z :=
  (calcDaynr (Year t) (Month t) (Day t) * 86400
   + Hour t * 3600 + Minute t * 60 + Second t) * 1000000
  + Microsecond t.

(** A value that is a moment of the calendar of [valid_date]: such a date,
    a time of day and a fraction of a second. *)
Definition in_calendar (t : mysqlTime) : Prop :=
  valid_date (year t) (month t) (day t)
  /\ 0 <= hour t <= 23 /\ 0 <= minute t <= 59 /\ 0 <= second t <= 59
  /\ 0 <= microsecond t <= 999999.

(** A moment of the proleptic Gregorian calendar: a date of it, a time of
    day and a fraction of a second. *)
Definition in_gregorian_calendar (t : mysqlTime) : Prop :=
  gregorian_date (year t) (month t) (day t)
  /\ 0 <= hour t <= 23 /\ 0 <= minute t <= 59 /\ 0 <= second t <= 59
  /\ 0 <= microsecond t <= 999999.

(** The 29th of February of year 0. *)
Definition on_leap_day_of_year_zero (t : mysqlTime) : bool :=
  (year t =? 0) && (month t =? 2) && (day t =? 29).

(** A value with the 29th of February of year 0 read as the 1st of March,
    the date whose day number [calcDaynr] gives it. *)
Definition leap_day_of_year_zero_moved (t : mysqlTime) : mysqlTime :=
  if on_leap_day_of_year_zero t
  then MkMysqlTime 0 3 1 (hour t) (minute t) (second t) (microsecond t)
  else t.

(** The order of the six fields of a date and time, the year first. *)
Definition datetime_fields_lt {T : Type} `{TimeInternal T} (a b : T) : Prop :=
  Year a < Year b \/ (Year a = Year b /\
  (Month a < Month b \/ (Month a = Month b /\
  (Day a < Day b \/ (Day a = Day b /\
  (Hour a < Hour b \/ (Hour a = Hour b /\
  (Minute a < Minute b \/ (Minute a = Minute b /\
   Second a < Second b))))))))).

(** [ISOWeek] of the first version of the file.  The query [tm.ISOWeek()]
    of the host is the parameter [Time_ISOWeek]. *)
Definition ISOWeek {host : HostCalendar} (Time_ISOWeek : Time -> Z * Z)
  (t : mysqlTime) : Z * Z :=
  match GoTime t with
  | (_, Some _) => (0, 0)
  | (t1, None) => Time_ISOWeek t1
  end.

(** ** The host model, further *)

(** The length the host gives a year. *)
Definition host_year_length (y : Z) : Z := if Host.isLeap y then 366 else 365.

(** The zero-based day of the year of a date, as [Date] counts it. *)
Definition host_doy (leap : bool) (m d : Z) : Z :=
  Host.daysBefore_at (m - 1) + (if leap && (m >=? 3) then 1 else 0) + (d - 1).

(** The check that [monthDay] gives a date back from its day of the year. *)
Definition monthDay_inverse_ok (leap : bool) (m d : Z) : bool :=
  negb (d <=? (if (m =? 2) && leap then 29
              else Host.daysBefore_at m - Host.daysBefore_at (m - 1)))
  || (let '(m', d') := HostUTC.monthDay leap (host_doy leap m d) in
      (m' =? m) && (d' =? d)
      && (0 <=? host_doy leap m d)
      && (host_doy leap m d <? (if leap then 366 else 365))).

(** The check that the offsets of [calcDaynr] within a year are the host's
    days of the year. *)
Definition month_offset_ok (leap : bool) (m : Z) : bool :=
  31 * (m - 1) - (if m <=? 2 then 0 else Z.quot (m * 4 + 23) 10)
  + (if m <=? 2 then 0 else if leap then 1 else 0)
  =? host_doy leap m 1.

(** When the bridge succeeds on the host model. *)
Definition utc_acceptable (t : mysqlTime) : Prop :=
  Host.real_date (year t, month t, day t)
  /\ hour t <= 23 /\ minute t <= 59 /\ second t <= 59
  /\ microsecond t <= 999999.

(** ** Arithmetic helpers *)

Ltac Zify.zify_post_hook ::= Z.to_euclidean_division_equations.

Lemma wrap_small (x : Z) : GoInt.in_int x -> GoInt.wrap x = x.
Proof.
  unfold GoInt.in_int, GoInt.min_int, GoInt.max_int, GoInt.wrap.
  intros H. rewrite Z.mod_small; lia.
Qed.

Lemma in_int_bounds (x : Z) :
  -9223372036854775808 <= x <= 9223372036854775807 -> GoInt.in_int x.
Proof. unfold GoInt.in_int, GoInt.min_int, GoInt.max_int. lia. Qed.

(** Removes the wrap-around of every operation whose exact result is shown
    to fit, innermost operations first. *)
Ltac unwrap_step :=
  match goal with
  | |- context [GoInt.wrap ?x] =>
      lazymatch x with
      | context [GoInt.wrap _] => fail
      | _ => rewrite (wrap_small x) by (apply in_int_bounds; lia)
      end
  end.

(** Case analysis on every test of a conditional of the goal. *)
Ltac split_ifs :=
  repeat match goal with
         | |- context [if ?b then _ else _] => destruct b eqn:?
         end.

Ltac unwrap :=
  unfold GoInt.add, GoInt.sub, GoInt.mul, GoInt.quot, GoInt.rem, GoInt.neg;
  repeat unwrap_step.

Lemma calcDaynr_exact (year month day : Z) :
  -(2 ^ 40) <= year <= 2 ^ 40 -> -(2 ^ 40) <= month <= 2 ^ 40 ->
  -(2 ^ 40) <= day <= 2 ^ 40 ->
  calcDaynr year month day = DayNumber_closed_form year month day.
Proof.
  intros Hy Hm Hd.
  unfold calcDaynr, DayNumber_closed_form.
  destruct ((year =? 0) && (month =? 0)); [reflexivity|].
  destruct (month <=? 2); unwrap; lia.
Qed.

(** ** Day numbers: closed form and monotonicity *)

(** The same closed form computed with the program's integers. *)
Lemma calcDaynr_unfold (year month day : Z) :
  calcDaynr year month day =
  if (year =? 0) && (month =? 0) then 0
  else
    let start := 365 *i year +i 31 *i (month -i 1) +i day in
    let leap_year := if month <=? 2 then year -i 1 else year in
    let start :=
      if month <=? 2 then start else start -i (month *i 4 +i 23) /i 10 in
    start +i leap_year /i 4 -i ((leap_year /i 100 +i 1) *i 3) /i 4.
Proof.
  unfold calcDaynr.
  destruct ((year =? 0) && (month =? 0)); [reflexivity|].
  destruct (month <=? 2); reflexivity.
Qed.

(** C3. [calcDaynr] is the closed form: 0 when year and month are both 0;
    otherwise 365*year + 31*(month-1) + day, less (month*4+23)/10 when
    month > 2, plus y/4 - ((y/100+1)*3)/4 where y is year-1 when month <= 2
    and year otherwise, with truncating divisions.  This holds of the
    program's wrapping integers for every input, and of unbounded integers
    for every input of magnitude at most 2^40. *)
Theorem calcDaynr_closed_form (year month day : Z) :
  (calcDaynr year month day =
   if (year =? 0) && (month =? 0) then 0
   else
     let start := 365 *i year +i 31 *i (month -i 1) +i day in
     let leap_year := if month <=? 2 then year -i 1 else year in
     let start :=
       if month <=? 2 then start else start -i (month *i 4 +i 23) /i 10 in
     start +i leap_year /i 4 -i ((leap_year /i 100 +i 1) *i 3) /i 4)
  /\ (-(2 ^ 40) <= year <= 2 ^ 40 -> -(2 ^ 40) <= month <= 2 ^ 40 ->
      -(2 ^ 40) <= day <= 2 ^ 40 ->
      calcDaynr year month day = DayNumber_closed_form year month day).
Proof.
  split; [apply calcDaynr_unfold | apply calcDaynr_exact].
Qed.

Lemma calcDaynr_closed_form_witness :
  calcDaynr 2000 1 1 = 730485 /\ DayNumber_closed_form 2000 1 1 = 730485.
Proof.
  destruct (calcDaynr_closed_form 2000 1 1) as [_ H].
  rewrite <- H by (simpl; lia).
  split; reflexivity.
Defined.

Lemma land_3_mod (y : Z) : Z.land y 3 = y mod 4.
Proof. change 3 with (Z.ones 2). rewrite Z.land_ones by lia. reflexivity. Qed.

Lemma calcDaysInYear_exact (y : Z) :
  -(2 ^ 40) <= y <= 2 ^ 40 ->
  calcDaysInYear y =
  if (y mod 4 =? 0)
     && (negb (Z.rem y 100 =? 0) || ((Z.rem y 400 =? 0) && negb (y =? 0)))
  then 366 else 365.
Proof.
  intros Hy. unfold calcDaysInYear, GoInt.land.
  rewrite land_3_mod.
  unwrap. reflexivity.
Qed.

Lemma calcDaysInYear_cases (y : Z) :
  calcDaysInYear y = 365 \/ calcDaysInYear y = 366.
Proof.
  unfold calcDaysInYear.
  match goal with |- context [if ?b then _ else _] => destruct b end; auto.
Qed.

(** The day number in the range of the dates, without the zero-date case. *)
Lemma calcDaynr_date (y m d : Z) :
  0 <= y <= 2 ^ 16 -> 1 <= m <= 12 -> 0 <= d <= 2 ^ 16 ->
  calcDaynr y m d =
  365 * y + 31 * (m - 1) + d
  - (if m <=? 2 then 0 else Z.quot (m * 4 + 23) 10)
  + (Z.quot (if m <=? 2 then y - 1 else y) 4
     - Z.quot ((Z.quot (if m <=? 2 then y - 1 else y) 100 + 1) * 3) 4).
Proof.
  intros Hy Hm Hd.
  rewrite calcDaynr_exact by lia.
  unfold DayNumber_closed_form.
  replace (m =? 0) with false by lia.
  rewrite andb_false_r. reflexivity.
Qed.

Lemma days_in_month_bounds (y m : Z) : 28 <= days_in_month y m <= 31.
Proof.
  unfold days_in_month.
  repeat match goal with |- context [if ?b then _ else _] => destruct b end;
    lia.
Qed.

(** The leap day of [calcDaysInYear] is the day [calcDaynr] inserts between
    the last of February and the first of March. *)
Lemma calcDaynr_february (y : Z) :
  0 <= y < 2 ^ 16 ->
  calcDaynr y 3 1 = calcDaynr y 2 (days_in_month y 2) + 1.
Proof.
  intros Hy.
  pose proof (days_in_month_bounds y 2) as Hb.
  rewrite !calcDaynr_date by lia.
  unfold days_in_month in *.
  rewrite calcDaysInYear_exact by lia.
  change (2 =? 2) with true; change (3 <=? 2) with false;
    change (2 <=? 2) with true; cbv iota.
  change (Z.quot (3 * 4 + 23) 10) with 3.
  destruct (Z.eq_dec y 0) as [->|Hy0]; [reflexivity|].
  destruct ((y mod 4 =? 0) &&
            (negb (Z.rem y 100 =? 0) || (Z.rem y 400 =? 0) && negb (y =? 0)))
    eqn:E; cbv iota; change (366 =? 366) with true;
    change (365 =? 366) with false; cbv iota.
  - apply andb_true_iff in E as [E1 E2].
    apply orb_true_iff in E2 as [E2|E2].
    + lia.
    + apply andb_true_iff in E2 as [E2 _]. lia.
  - apply andb_false_iff in E as [E|E].
    + lia.
    + apply orb_false_iff in E as [E1 E2].
      apply andb_false_iff in E2 as [E2|E2]; lia.
Qed.

Lemma calcDaynr_next_day (y m d : Z) :
  valid_date y m d ->
  let '(y', m', d') := next_day y m d in
  calcDaynr y' m' d' = calcDaynr y m d + 1.
Proof.
  intros (Hy & Hm & Hd).
  pose proof (days_in_month_bounds y m) as Hb.
  unfold next_day.
  destruct (d <? days_in_month y m) eqn:Ed.
  - rewrite !calcDaynr_date by lia. lia.
  - assert (d = days_in_month y m) as -> by lia.
    destruct (m <? 12) eqn:Em.
    + destruct (Z.eq_dec m 2) as [->|Hm2].
      * apply calcDaynr_february; lia.
      * rewrite !calcDaynr_date by lia.
        unfold days_in_month.
        unfold days_in_month.
        assert (m = 1 \/ m = 3 \/ m = 4 \/ m = 5 \/ m = 6 \/ m = 7 \/ m = 8
                \/ m = 9 \/ m = 10 \/ m = 11) as Hcases by lia.
        repeat (destruct Hcases as [->|Hcases]; [split_ifs; lia|]).
        subst m. split_ifs; lia.
    + assert (m = 12) as -> by lia.
      rewrite !calcDaynr_date by lia.
      unfold days_in_month. split_ifs; lia.
Qed.

(** From year 1 on, the leap years of [calcDaysInYear] are those of the
    host's Gregorian rule, so that [valid_date] is validity in the Gregorian
    calendar. *)
Lemma calcDaysInYear_gregorian (y : Z) :
  1 <= y < 2 ^ 16 -> (calcDaysInYear y =? 366) = Host.isLeap y.
Proof.
  intros Hy. rewrite calcDaysInYear_exact by lia.
  unfold Host.isLeap.
  rewrite (Z.rem_mod_nonneg y 4) by lia.
  replace (y =? 0) with false by lia.
  rewrite andb_true_r.
  destruct ((y mod 4 =? 0)
            && (negb (Z.rem y 100 =? 0) || (Z.rem y 400 =? 0)));
    reflexivity.
Qed.

(** Year 0 is no leap year for [calcDaysInYear], and [calcDaynr] agrees: a
    29th of February of year 0 would share the day number of the 1st of
    March. *)
Lemma calcDaynr_year_zero :
  calcDaysInYear 0 = 365 /\ calcDaynr 0 2 28 + 1 = calcDaynr 0 3 1
  /\ calcDaynr 0 2 29 = calcDaynr 0 3 1.
Proof. repeat split. Qed.

(** The host's month lengths are those of [days_in_month], but for the
    February of year 0. *)
Lemma daysIn_days_in_month (y m : Z) :
  0 <= y < 2 ^ 16 -> 1 <= m <= 12 ->
  Host.daysIn m y = if (y =? 0) && (m =? 2) then 29 else days_in_month y m.
Proof.
  intros Hy Hm.
  assert (forall leap : bool,
    forallb (fun n =>
      let m := Z.of_nat n in
      (if (m =? 2) && leap then 29
       else Host.daysBefore_at m - Host.daysBefore_at (m - 1))
      =? (if m =? 2 then (if leap then 29 else 28)
          else if (m =? 4) || (m =? 6) || (m =? 9) || (m =? 11) then 30
               else 31)) (seq 1 12) = true) as Hall
    by (intros [|]; vm_compute; reflexivity).
  specialize (Hall (Host.isLeap y)).
  rewrite forallb_forall in Hall.
  specialize (Hall (Z.to_nat m) ltac:(apply in_seq; lia)).
  cbv zeta in Hall. rewrite Z2Nat.id in Hall by lia.
  apply Z.eqb_eq in Hall.
  unfold Host.daysIn. rewrite Hall. unfold days_in_month.
  destruct (Z.eq_dec y 0) as [->|Hy0].
  - destruct (m =? 2); reflexivity.
  - replace (y =? 0) with false by lia. cbn [andb].
    rewrite (calcDaysInYear_gregorian y) by lia. reflexivity.
Qed.

(** The Gregorian dates are those of [valid_date] and the 29th of February
    of year 0. *)
Lemma gregorian_date_cases (y m d : Z) :
  gregorian_date y m d <->
  valid_date y m d \/ (y = 0 /\ m = 2 /\ d = 29).
Proof.
  unfold gregorian_date, valid_date. split.
  - intros (Hy & Hm & Hd).
    rewrite daysIn_days_in_month in Hd by assumption.
    destruct ((y =? 0) && (m =? 2)) eqn:E.
    + apply andb_true_iff in E as [E1 E2].
      apply Z.eqb_eq in E1, E2. subst y m.
      change (days_in_month 0 2) with 28. lia.
    + left. auto.
  - intros [(Hy & Hm & Hd)|(-> & -> & ->)].
    + rewrite daysIn_days_in_month by assumption.
      split; [assumption|]. split; [assumption|].
      destruct ((y =? 0) && (m =? 2)) eqn:E; [|assumption].
      apply andb_true_iff in E as [E1 E2].
      apply Z.eqb_eq in E1, E2. subst y m.
      change (days_in_month 0 2) with 28 in Hd. lia.
    + vm_compute. intuition discriminate.
Qed.

(** The step of [calcDaynr_next_day] over the Gregorian dates. *)
Lemma calcDaynr_gregorian_next_day (y m d : Z) :
  gregorian_date y m d -> (y, m, d) <> (0, 2, 29) ->
  let '(y', m', d') := gregorian_next_day y m d in
  calcDaynr y' m' d' = calcDaynr y m d + 1.
Proof.
  intros G Hne.
  apply gregorian_date_cases in G as [V|(-> & -> & ->)]; [|congruence].
  pose proof V as (Hy & Hm & Hd).
  unfold gregorian_next_day.
  rewrite daysIn_days_in_month by assumption.
  destruct ((y =? 0) && (m =? 2)) eqn:E.
  - apply andb_true_iff in E as [E1 E2].
    apply Z.eqb_eq in E1, E2. subst y m.
    change (days_in_month 0 2) with 28 in Hd.
    replace (d <? 29) with true by lia.
    rewrite !calcDaynr_date by lia. lia.
  - exact (calcDaynr_next_day y m d V).
Qed.

(** C4, as the program has it.  Over the dates of the proleptic Gregorian
    calendar (month in 1..12, day in 1..days of that month and year, year 0
    a leap year) other than the 29th of February of year 0, [calcDaynr] is
    strictly increasing as the date advances by one calendar day - it grows
    by exactly one; and over all of them, the 29th of February of year 0
    included, [calcDaynr y m d - calcDaynr y m (d-1) = 1] whenever [d-1] is
    still a valid day of month [m]. *)
Theorem calcDaynr_increasing_but_year_zero (y m d : Z) :
  gregorian_date y m d ->
  ((y, m, d) <> (0, 2, 29) ->
   let '(y', m', d') := gregorian_next_day y m d in
   calcDaynr y m d < calcDaynr y' m' d'
   /\ calcDaynr y' m' d' - calcDaynr y m d = 1)
  /\ (gregorian_date y m (d - 1) ->
      calcDaynr y m d - calcDaynr y m (d - 1) = 1).
Proof.
  intros G. split.
  - intros Hne.
    pose proof (calcDaynr_gregorian_next_day y m d G Hne) as H.
    destruct (gregorian_next_day y m d) as [[y' m'] d']. lia.
  - intros (_ & _ & Hd1).
    destruct G as (Hy & Hm & Hd).
    rewrite daysIn_days_in_month in Hd by assumption.
    pose proof (days_in_month_bounds y m) as Hb.
    assert (d <= 31) by (destruct ((y =? 0) && (m =? 2)); lia).
    rewrite !calcDaynr_date by lia. lia.
Qed.

Lemma calcDaynr_increasing_but_year_zero_witness :
  (calcDaynr 0 2 28 < calcDaynr 0 2 29
   /\ calcDaynr 0 2 29 - calcDaynr 0 2 28 = 1)
  /\ calcDaynr 0 2 29 - calcDaynr 0 2 (29 - 1) = 1
  /\ (calcDaynr 2016 2 29 < calcDaynr 2016 3 1
      /\ calcDaynr 2016 3 1 - calcDaynr 2016 2 29 = 1).
Proof.
  assert (gregorian_date 0 2 28) as G28
    by (unfold gregorian_date; vm_compute; intuition discriminate).
  assert (gregorian_date 0 2 29) as G29
    by (unfold gregorian_date; vm_compute; intuition discriminate).
  assert (gregorian_date 2016 2 29) as G
    by (unfold gregorian_date; vm_compute; intuition discriminate).
  split; [|split].
  - apply (proj1 (calcDaynr_increasing_but_year_zero 0 2 28 G28)).
    intros E. discriminate E.
  - apply (proj2 (calcDaynr_increasing_but_year_zero 0 2 29 G29)).
    exact G28.
  - apply (proj1 (calcDaynr_increasing_but_year_zero 2016 2 29 G)).
    intros E. discriminate E.
Defined.

(** C4, as stated, fails on the 29th of February of year 0, a date of the
    proleptic Gregorian calendar that [GoTime] accepts on the host model: the
    next calendar day, the 1st of March, has the same day number.
    [calcDaynr] gives year 0 no leap day, as [calcDaysInYear] does. *)
Lemma calcDaynr_stalls_on_leap_day_of_year_zero :
  gregorian_date 0 2 29
  /\ snd (GoTime (host := HostUTC.host) (newMysqlTime 0 2 29 0 0 0 0)) = None
  /\ gregorian_next_day 0 2 29 = (0, 3, 1)
  /\ calcDaynr 0 2 29 = 60 /\ calcDaynr 0 3 1 = 60
  /\ ~ calcDaynr 0 2 29 < calcDaynr 0 3 1.
Proof.
  split; [unfold gregorian_date; vm_compute; intuition discriminate|].
  split; [vm_compute; reflexivity|].
  split; [vm_compute; reflexivity|].
  split; [vm_compute; reflexivity|].
  split; [vm_compute; reflexivity|].
  vm_compute. discriminate.
Qed.

(** ** Week numbers *)

(** C5. 2000-01-01 is a Saturday (index 5 counting from Monday); the week
    computation over the decoded mode gives week 0 of 2000 for mode 0 and,
    through the roll-back into the previous year, week 52 of 1999 for mode 3:
    the two years differ. *)
Theorem calcWeek_2000_01_01_modes :
  let t := newMysqlTime 2000 1 1 0 0 0 0 in
  calcWeekday (calcDaynr 2000 1 1) false = 5
  /\ calcWeek t (weekMode 0) = (2000, 0)
  /\ calcWeek t (weekMode 3) = (1999, 52)
  /\ fst (calcWeek t (weekMode 0)) <> fst (calcWeek t (weekMode 3)).
Proof.
  cbv zeta. repeat split; try (vm_compute; reflexivity).
  vm_compute. discriminate.
Qed.

(** ** Construction *)

(** C9. [newMysqlTime] is total and checks nothing: the accessors of the
    constructed value return each input reduced modulo its field's width
    (2^16 for the year, 2^8 for month, day, hour, minute and second, 2^32
    for the microsecond), hence unchanged when the input fits the field. *)
Theorem newMysqlTime_truncates (y m d h mi s us : Z) :
  let t := newMysqlTime y m d h mi s us in
  (Year t = y mod 2 ^ 16 /\ Month t = m mod 2 ^ 8 /\ Day t = d mod 2 ^ 8
   /\ Hour t = h mod 2 ^ 8 /\ Minute t = mi mod 2 ^ 8
   /\ Second t = s mod 2 ^ 8 /\ Microsecond t = us mod 2 ^ 32)
  /\ (0 <= y < 2 ^ 16 -> Year t = y)
  /\ (0 <= m < 2 ^ 8 -> Month t = m)
  /\ (0 <= d < 2 ^ 8 -> Day t = d)
  /\ (0 <= h < 2 ^ 8 -> Hour t = h)
  /\ (0 <= mi < 2 ^ 8 -> Minute t = mi)
  /\ (0 <= s < 2 ^ 8 -> Second t = s)
  /\ (0 <= us < 2 ^ 32 -> Microsecond t = us).
Proof.
  cbv zeta. unfold newMysqlTime, GoInt.uwrap. cbn [Year Month Day Hour Minute
    Second Microsecond mysqlTime_TimeInternal year month day hour minute
    second microsecond].
  repeat split; try reflexivity; intros; apply Z.mod_small; assumption.
Qed.

Lemma newMysqlTime_truncates_witness :
  let t := newMysqlTime 75535 13 256 (-1) 59 300 4294967297 in
  (Year t = 9999 /\ Month t = 13 /\ Day t = 0 /\ Hour t = 255
   /\ Minute t = 59 /\ Second t = 44 /\ Microsecond t = 1)
  /\ Month t = 13 /\ Minute t = 59.
Proof.
  pose proof (newMysqlTime_truncates 75535 13 256 (-1) 59 300 4294967297)
    as (Hall & _ & Hm & _ & _ & Hmi & _).
  cbv zeta in *.
  split; [exact Hall|].
  split; [apply Hm | apply Hmi]; lia.
Defined.

Lemma newMysqlTime_wf (y m d h mi s us : Z) :
  mysqlTime_wf (newMysqlTime y m d h mi s us).
Proof.
  unfold mysqlTime_wf, newMysqlTime, GoInt.uwrap; cbn [year month day hour
    minute second microsecond].
  repeat split; apply Z.mod_pos_bound; reflexivity.
Qed.

(** ** Integer encodings *)

Lemma uwrap_small (w x : Z) : 0 <= x < 2 ^ w -> GoInt.uwrap w x = x.
Proof. intros H. unfold GoInt.uwrap. apply Z.mod_small. exact H. Qed.

Section Encodings.

Context {T : Type} `{TimeInternal T}.

Lemma datetimeToUint64_exact (t : T) :
  in_declared_ranges t ->
  datetimeToUint64 t =
  (Year t * 10000 + Month t * 100 + Day t) * 1000000
  + (Hour t * 10000 + Minute t * 100 + Second t).
Proof.
  intros (Hy & Hm & Hd & Hh & Hmi & Hs).
  unfold datetimeToUint64, GoInt.uadd, GoInt.umul.
  unwrap.
  repeat match goal with
         | |- context [GoInt.uwrap 64 ?x] =>
             lazymatch x with
             | context [GoInt.uwrap _ _] => fail
             | _ => rewrite (uwrap_small 64 x)
                 by (change (2 ^ 64) with 18446744073709551616; lia)
             end
         end.
  reflexivity.
Qed.

(** C7. For fields within their declared ranges, the place-value decoding
    of [datetimeToUint64 t] gives back year, month, day, hour, minute and
    second of [t]; the encoding is the exact 14-digit number, below 10^14
    and so not truncated by the 64-bit result type. *)
Theorem datetimeToUint64_round_trip (t : T) :
  in_declared_ranges t ->
  decode_datetime (datetimeToUint64 t)
  = MkDecoded (Year t) (Month t) (Day t) (Hour t) (Minute t) (Second t)
  /\ datetimeToUint64 t
     = Year t * 10000000000 + Month t * 100000000 + Day t * 1000000
       + Hour t * 10000 + Minute t * 100 + Second t
  /\ 0 <= datetimeToUint64 t < 10 ^ 14.
Proof.
  intros Hr. rewrite (datetimeToUint64_exact t Hr).
  destruct Hr as (Hy & Hm & Hd & Hh & Hmi & Hs).
  split; [|split; [lia | change (10 ^ 14) with 100000000000000; lia]].
  unfold decode_datetime. f_equal; lia.
Qed.

End Encodings.

Lemma datetimeToUint64_round_trip_witness :
  decode_datetime (datetimeToUint64 (newMysqlTime 9999 12 31 23 59 59 0))
  = MkDecoded 9999 12 31 23 59 59
  /\ datetimeToUint64 (newMysqlTime 9999 12 31 23 59 59 0) = 99991231235959.
Proof.
  pose proof (datetimeToUint64_round_trip (newMysqlTime 9999 12 31 23 59 59 0))
    as H.
  destruct H as (Hdec & Hval & _).
  - unfold in_declared_ranges. vm_compute. intuition discriminate.
  - split; [exact Hdec | exact Hval].
Defined.

(** ** The host model decomposes every time into a real date *)

Module HostUTCFacts.

Import HostUTC.

(** Divisibility of a number given as a multiple of [b] plus a remainder
    between 1 and [b]. *)
Lemma rem_zero_shift (a k b r : Z) :
  0 < b /\ a = r + k * b /\ 0 < r <= b -> (Z.rem a b = 0 <-> r = b).
Proof.
  intros (Hb & -> & Hr).
  rewrite Z.rem_mod_eq_0 by lia.
  rewrite Z.mod_add by lia.
  destruct (Z.eq_dec r b) as [->|Hne].
  - rewrite Z.mod_same by lia. tauto.
  - rewrite Z.mod_small by lia. lia.
Qed.

(** Which years of a 400-year cycle, counted from a year after a multiple
    of 400, are multiples of 4, 100 and 400. *)
Lemma leap_of_offsets (n400 c n4 e : Z) :
  0 <= c <= 3 /\ 0 <= n4 <= 24 /\ 0 <= e <= 3 ->
  let yr := 400 * n400 + 100 * c + 4 * n4 + e + -292277022399 in
  (Z.rem yr 4 = 0 <-> e = 3)
  /\ (Z.rem yr 100 = 0 <-> e = 3 /\ n4 = 24)
  /\ (Z.rem yr 400 = 0 <-> e = 3 /\ n4 = 24 /\ c = 3).
Proof.
  intros (Hc & Hn4 & He) yr.
  assert (yr = e + 1 + (100 * (n400 - 730692556) + 25 * c + n4) * 4) as E4
    by (subst yr; ring).
  assert (yr = 4 * n4 + e + 1 + (4 * (n400 - 730692556) + c) * 100) as E100
    by (subst yr; ring).
  assert (yr = 100 * c + 4 * n4 + e + 1 + (n400 - 730692556) * 400) as E400
    by (subst yr; ring).
  clearbody yr.
  split; [|split].
  - rewrite (rem_zero_shift yr _ 4 (e + 1)) by (split; [lia|split; [exact E4|lia]]).
    clear E4 E100 E400. lia.
  - rewrite (rem_zero_shift yr _ 100 (4 * n4 + e + 1))
      by (split; [lia|split; [exact E100|lia]]).
    clear E4 E100 E400. lia.
  - rewrite (rem_zero_shift yr _ 400 (100 * c + 4 * n4 + e + 1))
      by (split; [lia|split; [exact E400|lia]]).
    clear E4 E100 E400. lia.
Qed.

Lemma absYear_range (d : Z) :
  0 <= snd (absYear d)
       < (if Host.isLeap (fst (absYear d)) then 366 else 365).
Proof.
  unfold absYear, daysPer400Years, daysPer100Years, daysPer4Years,
    absoluteZeroYear, Host.isLeap.
  cbn [fst snd].
  rewrite !Z.shiftr_div_pow2 by lia.
  change (2 ^ 2) with 4.
  change (365 * 400 + 97) with 146097.
  change (365 * 100 + 24) with 36524.
  change (365 * 4 + 1) with 1461.
  set (n400 := d / 146097).
  set (d1 := d - 146097 * n400).
  assert (0 <= d1 < 146097) as Hd1 by (subst d1 n400; lia).
  clearbody d1 n400.
  set (n100 := d1 / 36524).
  assert (0 <= n100 <= 4 /\ 36524 * n100 <= d1 < 36524 * n100 + 36524)
    as Hn100 by (subst n100; lia).
  clearbody n100.
  set (c := n100 - n100 / 4).
  assert (c = n100 /\ n100 <= 3 \/ c = 3 /\ n100 = 4) as Hc
    by (subst c; lia).
  clearbody c.
  set (d2 := d1 - 36524 * c).
  assert (0 <= d2 <= 36524 /\ (d2 = 36524 -> c = 3)) as Hd2
    by (subst d2; lia).
  assert (d2 = d1 - 36524 * c) as Ed2 by reflexivity.
  clearbody d2.
  set (n4 := d2 / 1461).
  assert (0 <= n4 <= 24 /\ 1461 * n4 <= d2 < 1461 * n4 + 1461) as Hn4
    by (subst n4; lia).
  clearbody n4.
  set (d3 := d2 - 1461 * n4).
  assert (0 <= d3 < 1461) as Hd3 by (subst d3; lia).
  assert (d3 = d2 - 1461 * n4) as Ed3 by reflexivity.
  clearbody d3.
  set (n1 := d3 / 365).
  assert (0 <= n1 <= 4 /\ 365 * n1 <= d3 < 365 * n1 + 365) as Hn1
    by (subst n1; lia).
  clearbody n1.
  set (e := n1 - n1 / 4).
  assert (e = n1 /\ n1 <= 3 \/ e = 3 /\ n1 = 4) as He by (subst e; lia).
  clearbody e.
  set (yr := 400 * n400 + 100 * c + 4 * n4 + e + -292277022399).
  assert (0 <= c <= 3 /\ 0 <= n4 <= 24 /\ 0 <= e <= 3) as Hsmall by lia.
  destruct (leap_of_offsets n400 c n4 e Hsmall) as (H4 & H100 & H400).
  fold yr in H4, H100, H400.
  clear Hsmall.
  clearbody yr.
  destruct (Z.eqb_spec (Z.rem yr 4) 0) as [E4|E4];
    destruct (Z.eqb_spec (Z.rem yr 100) 0) as [E100|E100];
    destruct (Z.eqb_spec (Z.rem yr 400) 0) as [E400|E400];
    cbn [andb orb negb];
    rewrite H4 in E4; rewrite H100 in E100; rewrite H400 in E400;
    clear H4 H100 H400; clear yr; lia.
Qed.

Lemma monthDay_ok_all (leap : bool) :
  forallb (fun n => monthDay_ok leap (Z.of_nat n))
          (seq 0 (if leap then 366 else 365)) = true.
Proof. destruct leap; vm_compute; reflexivity. Qed.

Lemma monthDay_real (leap : bool) (yday : Z) :
  0 <= yday < (if leap then 366 else 365) ->
  monthDay_ok leap yday = true.
Proof.
  intros Hy.
  pose proof (monthDay_ok_all leap) as Hall.
  rewrite forallb_forall in Hall.
  specialize (Hall (Z.to_nat yday)).
  rewrite Z2Nat.id in Hall by lia.
  apply Hall. apply in_seq. destruct leap; lia.
Qed.

Lemma Time_Date_real (tm : HostUTC.Time) :
  Host.real_date (HostUTC.Time_Date tm).
Proof.
  unfold HostUTC.Time_Date, Host.real_date.
  pose proof (absYear_range (fst tm / secondsPerDay)) as Hr.
  destruct (absYear (fst tm / secondsPerDay)) as [yr yday].
  cbn [fst snd] in Hr.
  pose proof (monthDay_real (Host.isLeap yr) yday Hr) as Hok.
  unfold monthDay_ok in Hok.
  destruct (monthDay (Host.isLeap yr) yday) as [m d].
  unfold Host.daysIn.
  repeat (apply andb_true_iff in Hok as [Hok ?]).
  lia.
Qed.

#[export] Instance laws : HostCalendarLaws HostUTC.host.
Proof. constructor. exact Time_Date_real. Qed.

End HostUTCFacts.

(** ** The bridge to the host calendar *)

Section BridgeFacts.

Context {host : HostCalendar}.

Lemma GoTime_value (t : mysqlTime) : fst (GoTime t) = GoTime_normalized t.
Proof.
  unfold GoTime, GoTime_normalized.
  destruct (Time_Date _) as [[y m] d].
  destruct (Time_Clock _) as [[h mi] s].
  match goal with |- context [if ?b then _ else _] => destruct b end;
    reflexivity.
Qed.

Lemma GoTime_error_cases (t : mysqlTime) :
  snd (GoTime t) = None \/ snd (GoTime t) = Some ErrInvalidTimeFormat.
Proof.
  unfold GoTime.
  destruct (Time_Date _) as [[y m] d].
  destruct (Time_Clock _) as [[h mi] s].
  match goal with |- context [if ?b then _ else _] => destruct b end;
    [right | left]; reflexivity.
Qed.

Lemma GoTime_nil_iff (t : mysqlTime) :
  snd (GoTime t) = None <-> GoTime_fields_match t.
Proof.
  unfold GoTime, GoTime_fields_match, GoTime_normalized.
  destruct (Time_Date _) as [[y m] d].
  destruct (Time_Clock _) as [[h mi] s].
  match goal with |- context [if ?b then _ else _] => destruct b eqn:E end;
    cbn [snd].
  - split; [discriminate|].
    intros (Hd & Hc & Hn).
    injection Hd as -> -> ->. injection Hc as -> -> ->.
    rewrite Hn, !Z.eqb_refl in E. discriminate.
  - split; [intros _|reflexivity].
    repeat (apply orb_false_iff in E as [E ?]).
    repeat match goal with
           | H : negb _ = false |- _ =>
               apply negb_false_iff, Z.eqb_eq in H
           end.
    repeat split; congruence.
Qed.

Lemma GoTime_error_iff (t : mysqlTime) :
  snd (GoTime t) = Some ErrInvalidTimeFormat <-> ~ GoTime_fields_match t.
Proof.
  pose proof (GoTime_nil_iff t) as Hnil.
  pose proof (GoTime_error_cases t) as Hcases.
  split.
  - intros He Hm. apply Hnil in Hm. congruence.
  - intros Hm. destruct Hcases as [Hc|Hc]; [|exact Hc].
    exfalso. apply Hm, Hnil, Hc.
Qed.

Lemma GoTime_differs_iff (t : mysqlTime) :
  GoTime_field_differs t <-> ~ GoTime_fields_match t.
Proof.
  unfold GoTime_field_differs, GoTime_fields_match.
  destruct (Time_Date _) as [[y m] d].
  destruct (Time_Clock _) as [[h mi] s].
  split.
  - intros Hd (E1 & E2 & E3).
    injection E1 as -> -> ->. injection E2 as -> -> ->.
    intuition congruence.
  - intros Hn.
    destruct (Z.eq_dec y (Year t)) as [->|]; [|auto].
    destruct (Z.eq_dec m (Month t)) as [->|]; [|auto].
    destruct (Z.eq_dec d (Day t)) as [->|]; [|auto].
    destruct (Z.eq_dec h (Hour t)) as [->|]; [|auto 7].
    destruct (Z.eq_dec mi (Minute t)) as [->|]; [|auto 7].
    destruct (Z.eq_dec s (Second t)) as [->|]; [|auto 7].
    repeat right. intros E. apply Hn. auto.
Qed.

(** C1. [GoTime] validates by round trip: it builds the host's normalized
    time from the seven fields, decomposes it into year, month, day, hour,
    minute, second and microsecond, and returns it with no error when every
    decomposed field equals the field of [t]; when at least one differs it
    returns the normalized time together with [ErrInvalidTimeFormat]. *)
Theorem GoTime_round_trip (t : mysqlTime) :
  fst (GoTime t) = GoTime_normalized t
  /\ (snd (GoTime t) = Some ErrInvalidTimeFormat <-> GoTime_field_differs t)
  /\ (snd (GoTime t) = None <-> GoTime_fields_match t)
  /\ (snd (GoTime t) <> None <-> snd (GoTime t) = Some ErrInvalidTimeFormat).
Proof.
  split; [apply GoTime_value|].
  split; [rewrite GoTime_differs_iff; apply GoTime_error_iff|].
  split; [apply GoTime_nil_iff|].
  destruct (GoTime_error_cases t) as [Hc|Hc]; rewrite Hc;
    split; congruence.
Qed.

Context {laws : HostCalendarLaws host}.

(** A zero month or a zero day never survives the round trip. *)
Lemma GoTime_zero_date (t : mysqlTime) :
  month t = 0 \/ day t = 0 -> snd (GoTime t) = Some ErrInvalidTimeFormat.
Proof.
  intros Hz.
  apply GoTime_error_iff.
  intros (Hd & _).
  pose proof (Time_Date_real (GoTime_normalized t)) as Hreal.
  rewrite Hd in Hreal. cbn in Hreal.
  lia.
Qed.

(** C2. A value whose month is 0 or whose day is 0 gets the zero results,
    whatever its other fields and whatever the week mode: [YearWeek] returns
    (0, 0) and [Week] returns 0 - neither consults the host calendar, and
    neither has an error result - and [Weekday] and [YearDay] return 0. *)
Theorem zero_date_sentinels (t : mysqlTime) (mode : Z) :
  month t = 0 \/ day t = 0 ->
  YearWeek t mode = (0, 0) /\ Week t mode = 0
  /\ Weekday t = 0 /\ YearDay t = 0.
Proof.
  intros Hz.
  pose proof (GoTime_zero_date t Hz) as He.
  unfold YearWeek, Week, Weekday, YearDay.
  destruct (GoTime t) as [tm err]. cbn [snd] in He. subst err.
  assert ((month t =? 0) || (day t =? 0) = true) as ->.
  { apply orb_true_iff. destruct Hz as [Hz|Hz]; [left|right];
      apply Z.eqb_eq; exact Hz. }
  repeat split.
Qed.

(** C8. The value constructed from (2016, 2, 30, 0, 0, 0, 0) - February
    30 - makes [GoTime] fail with [ErrInvalidTimeFormat], while
    [dateToUint64] of the same value is 20160230. *)
Theorem february_30 :
  let t := newMysqlTime 2016 2 30 0 0 0 0 in
  snd (GoTime t) = Some ErrInvalidTimeFormat /\ dateToUint64 t = 20160230.
Proof.
  cbv zeta. split; [|vm_compute; reflexivity].
  apply GoTime_error_iff.
  intros (Hd & _).
  pose proof (Time_Date_real (GoTime_normalized (newMysqlTime 2016 2 30 0 0 0 0)))
    as Hreal.
  rewrite Hd in Hreal. vm_compute in Hreal.
  destruct Hreal as (_ & _ & Hreal). apply Hreal. reflexivity.
Qed.

End BridgeFacts.

Lemma GoTime_round_trip_witness :
  fst (GoTime (host := HostUTC.host) (newMysqlTime 2016 2 29 13 14 15 123456))
  = HostUTC.Date 2016 2 29 13 14 15 123456000
  /\ snd (GoTime (host := HostUTC.host)
            (newMysqlTime 2016 2 29 13 14 15 123456)) = None.
Proof.
  pose proof (GoTime_round_trip (host := HostUTC.host)
                (newMysqlTime 2016 2 29 13 14 15 123456))
    as (Hv & _ & Hnil & _).
  split; [exact Hv|].
  apply Hnil. vm_compute. repeat split.
Defined.

Lemma zero_date_sentinels_witness :
  let t := newMysqlTime 2006 12 0 23 59 59 0 in
  YearWeek t 3 = (0, 0) /\ Week t 3 = 0
  /\ Weekday (host := HostUTC.host) t = 0
  /\ YearDay (host := HostUTC.host) t = 0.
Proof.
  apply (zero_date_sentinels (host := HostUTC.host)
           (laws := HostUTCFacts.laws)).
  right. reflexivity.
Defined.

(** In the model without zone offset the host normalizes February 30 of
    2016 to March 1. *)
Lemma february_30_normalized_utc :
  Time_Date (fst (GoTime (host := HostUTC.host)
                    (newMysqlTime 2016 2 30 0 0 0 0))) = (2016, 3, 1).
Proof. vm_compute. reflexivity. Qed.

Lemma february_30_witness :
  snd (GoTime (host := HostUTC.host) (newMysqlTime 2016 2 30 0 0 0 0))
  = Some ErrInvalidTimeFormat
  /\ dateToUint64 (newMysqlTime 2016 2 30 0 0 0 0) = 20160230.
Proof.
  exact (february_30 (host := HostUTC.host) (laws := HostUTCFacts.laws)).
Defined.

(** ** Differences *)

Lemma eqm64_refl (x : Z) : eqm64 x x.
Proof. reflexivity. Qed.

Lemma eqm64_trans (x y z : Z) : eqm64 x y -> eqm64 y z -> eqm64 x z.
Proof. unfold eqm64, Zdiv.eqm. congruence. Qed.

Lemma wrap_eqm64 (x : Z) : eqm64 (GoInt.wrap x) x.
Proof.
  unfold eqm64, Zdiv.eqm, GoInt.wrap.
  rewrite Zminus_mod_idemp_l.
  f_equal. lia.
Qed.

Lemma add_eqm64 (a b a' b' : Z) :
  eqm64 a a' -> eqm64 b b' -> eqm64 (a +i b) (a' + b').
Proof.
  intros Ha Hb. eapply eqm64_trans; [apply wrap_eqm64|].
  apply Zdiv.Zplus_eqm; assumption.
Qed.

Lemma sub_eqm64 (a b a' b' : Z) :
  eqm64 a a' -> eqm64 b b' -> eqm64 (a -i b) (a' - b').
Proof.
  intros Ha Hb. eapply eqm64_trans; [apply wrap_eqm64|].
  apply Zdiv.Zminus_eqm; assumption.
Qed.

Lemma mul_eqm64 (a b a' b' : Z) :
  eqm64 a a' -> eqm64 b b' -> eqm64 (a *i b) (a' * b').
Proof.
  intros Ha Hb. eapply eqm64_trans; [apply wrap_eqm64|].
  apply Zdiv.Zmult_eqm; assumption.
Qed.

Lemma neg_eqm64 (a a' : Z) : eqm64 a a' -> eqm64 (GoInt.neg a) (- a').
Proof.
  intros Ha. eapply eqm64_trans; [apply wrap_eqm64|].
  apply Zdiv.Zopp_eqm; assumption.
Qed.

(** Two values of the 64-bit range that agree modulo 2^64 are equal. *)
Lemma eqm64_in_int (x y : Z) :
  GoInt.in_int x -> GoInt.in_int y -> eqm64 x y -> x = y.
Proof.
  unfold GoInt.in_int, GoInt.min_int, GoInt.max_int, eqm64, Zdiv.eqm.
  change (2 ^ 63) with 9223372036854775808.
  change (2 ^ 64) with 18446744073709551616.
  intros Hx Hy E. lia.
Qed.

Lemma wrap_in_int (x : Z) : GoInt.in_int (GoInt.wrap x).
Proof.
  unfold GoInt.in_int, GoInt.min_int, GoInt.max_int, GoInt.wrap. lia.
Qed.

(** Relates an expression of the program's integers to the same expression
    of unbounded integers, modulo 2^64. *)
Ltac eqm64_ops :=
  repeat lazymatch goal with
         | |- eqm64 (GoInt.add _ _) _ => apply add_eqm64
         | |- eqm64 (GoInt.sub _ _) _ => apply sub_eqm64
         | |- eqm64 (GoInt.mul _ _) _ => apply mul_eqm64
         | |- eqm64 (GoInt.neg _) _ => apply neg_eqm64
         | |- eqm64 _ _ => apply eqm64_refl
         end.

Lemma wrap_range (x : Z) :
  -9223372036854775808 <= GoInt.wrap x <= 9223372036854775807.
Proof. unfold GoInt.wrap. lia. Qed.

Section Differences.

Context {T : Type} `{TimeInternal T}.

Lemma calcTimeDiff_split (t1 t2 : T) (sign : Z) :
  calcTimeDiff t1 t2 sign =
  let tmp := calcTimeDiff_tmp t1 t2 sign in
  let '(tmp, neg) :=
    if tmp <? 0 then (GoInt.neg tmp, true) else (tmp, false) in
  (tmp /i 1000000, tmp %i 1000000, neg).
Proof. unfold calcTimeDiff, calcTimeDiff_tmp. cbv zeta. reflexivity. Qed.

Lemma calcTimeDiff_tmp_eqm64 (t1 t2 : T) (sign : Z) :
  eqm64 (calcTimeDiff_tmp t1 t2 sign)
    (((calcDaynr (Year t1) (Month t1) (Day t1)
       - sign * calcDaynr (Year t2) (Month t2) (Day t2)) * 86400
      + Hour t1 * 3600 + Minute t1 * 60 + Second t1
      - sign * (Hour t2 * 3600 + Minute t2 * 60 + Second t2)) * 1000000
     + Microsecond t1 - sign * Microsecond t2).
Proof. unfold calcTimeDiff_tmp, SECONDS_IN_24H. eqm64_ops. Qed.

Lemma calcTimeDiff_tmp_swap (a b : T) :
  calcTimeDiff_tmp b a 1 = GoInt.neg (calcTimeDiff_tmp a b 1).
Proof.
  apply eqm64_in_int.
  - unfold calcTimeDiff_tmp, GoInt.sub at 1. apply wrap_in_int.
  - apply wrap_in_int.
  - eapply eqm64_trans; [apply calcTimeDiff_tmp_eqm64|].
    apply Zdiv.eqm_sym.
    eapply eqm64_trans;
      [apply neg_eqm64, calcTimeDiff_tmp_eqm64|].
    unfold eqm64, Zdiv.eqm. f_equal. ring.
Qed.

Lemma calcTimeDiff_tmp_range (a b : T) (sign : Z) :
  -9223372036854775808 <= calcTimeDiff_tmp a b sign <= 9223372036854775807.
Proof. unfold calcTimeDiff_tmp, GoInt.sub. apply wrap_range. Qed.

Lemma neg_small (x : Z) :
  -9223372036854775808 < x <= 9223372036854775807 -> GoInt.neg x = - x.
Proof.
  intros Hx. unfold GoInt.neg. apply wrap_small, in_int_bounds. lia.
Qed.

Lemma quot_rem_small (x : Z) :
  0 <= x <= 9223372036854775807 ->
  x /i 1000000 = Z.quot x 1000000 /\ x %i 1000000 = Z.rem x 1000000.
Proof.
  intros Hx. unfold GoInt.quot, GoInt.rem.
  split; apply wrap_small, in_int_bounds; lia.
Qed.

(** Swapping the arguments of [calcTimeDiff], in its three cases. *)
Lemma calcTimeDiff_swap_cases (a b : T) (s u : Z) (neg : bool) :
  calcTimeDiff a b 1 = (s, u, neg) ->
  calcTimeDiff b a 1
  = (s, u, if ((s =? 0) && (u =? 0)) || (s <? 0) then neg else negb neg)
  /\ (s = 0 /\ u = 0 -> neg = false).
Proof.
  rewrite !calcTimeDiff_split. cbv zeta.
  rewrite (calcTimeDiff_tmp_swap a b).
  pose proof (calcTimeDiff_tmp_range a b 1) as Hr.
  set (x := calcTimeDiff_tmp a b 1) in *. clearbody x.
  destruct (Z.eq_dec x (-9223372036854775808)) as [->|Hmin].
  { assert (GoInt.neg (-9223372036854775808) = -9223372036854775808) as ->
      by (vm_compute; reflexivity).
    change (-9223372036854775808 <? 0) with true. cbv iota.
    assert (-9223372036854775808 /i 1000000 = -9223372036854) as ->
      by (vm_compute; reflexivity).
    intros E. injection E as <- <- <-.
    split; [reflexivity | intros [E _]; discriminate E]. }
  rewrite (neg_small x) by lia.
  destruct (Z.ltb_spec x 0) as [Hneg|Hpos].
  - destruct (Z.ltb_spec (- x) 0) as [?|_]; [lia|].
    destruct (quot_rem_small (- x)) as [-> ->]; [lia|].
    intros E. injection E as <- <- <-.
    replace ((Z.quot (- x) 1000000 =? 0) && (Z.rem (- x) 1000000 =? 0))
      with false by lia.
    replace (Z.quot (- x) 1000000 <? 0) with false by lia.
    split; [reflexivity | lia].
  - destruct (Z.ltb_spec (- x) 0) as [Hlt|Hge].
    + rewrite (neg_small (- x)) by lia.
      rewrite Z.opp_involutive.
      destruct (quot_rem_small x) as [-> ->]; [lia|].
      intros E. injection E as <- <- <-.
      replace ((Z.quot x 1000000 =? 0) && (Z.rem x 1000000 =? 0))
        with false by lia.
      replace (Z.quot x 1000000 <? 0) with false by lia.
      split; reflexivity.
    + assert (x = 0) as -> by lia.
      change (- 0) with 0.
      assert (0 /i 1000000 = 0) as -> by reflexivity.
      assert (0 %i 1000000 = 0) as -> by reflexivity.
      intros E. injection E as <- <- <-. split; reflexivity.
Qed.

(** C6, as the program has it.  With [sign] = 1, swapping the arguments of
    [calcTimeDiff] keeps the magnitude (s, u).  The negative flag is flipped
    when the difference is not zero; when the two values denote the same
    instant both calls return (0, 0, false).  (A difference of -2^63
    microseconds, which no pair of [mysqlTime] values has, does not fit its
    own negation: there s is negative and both calls return the flag
    [true].) *)
Theorem calcTimeDiff_swap (a b : T) (s u : Z) (neg : bool) :
  calcTimeDiff a b 1 = (s, u, neg) ->
  calcTimeDiff b a 1
  = (s, u, if ((s =? 0) && (u =? 0)) || (s <? 0) then neg else negb neg)
  /\ (s = 0 /\ u = 0 -> neg = false).
Proof. apply calcTimeDiff_swap_cases. Qed.

End Differences.

Lemma calcTimeDiff_swap_witness :
  calcTimeDiff (newMysqlTime 2016 3 1 0 0 0 5)
               (newMysqlTime 2016 2 28 23 59 59 999999) 1
  = (86400, 6, false)
  /\ calcTimeDiff (newMysqlTime 2016 2 28 23 59 59 999999)
                  (newMysqlTime 2016 3 1 0 0 0 5) 1
     = (86400, 6, true).
Proof.
  split; [vm_compute; reflexivity|].
  apply (calcTimeDiff_swap (newMysqlTime 2016 3 1 0 0 0 5)
           (newMysqlTime 2016 2 28 23 59 59 999999) 86400 6 false).
  vm_compute; reflexivity.
Defined.

Lemma calcDaynr_bounds (y m d : Z) :
  0 <= y < 2 ^ 16 -> 0 <= m < 2 ^ 8 -> 0 <= d < 2 ^ 8 ->
  0 <= calcDaynr y m d <= 2 ^ 25.
Proof.
  intros Hy Hm Hd.
  rewrite calcDaynr_exact by lia.
  unfold DayNumber_closed_form.
  split_ifs; lia.
Qed.

(** Between two [mysqlTime] values the microsecond count is far from the
    ends of the 64-bit range. *)
Lemma calcTimeDiff_tmp_mysqlTime (a b : mysqlTime) :
  mysqlTime_wf a -> mysqlTime_wf b ->
  - 2 ^ 62 <= calcTimeDiff_tmp a b 1 <= 2 ^ 62.
Proof.
  intros (Hy1 & Hm1 & Hd1 & Hh1 & Hmi1 & Hs1 & Hu1)
         (Hy2 & Hm2 & Hd2 & Hh2 & Hmi2 & Hs2 & Hu2).
  unfold calcTimeDiff_tmp, SECONDS_IN_24H.
  cbn [Year Month Day Hour Minute Second Microsecond mysqlTime_TimeInternal].
  pose proof (calcDaynr_bounds _ _ _ Hy1 Hm1 Hd1) as B1.
  pose proof (calcDaynr_bounds _ _ _ Hy2 Hm2 Hd2) as B2.
  set (d1 := calcDaynr (year a) (month a) (day a)) in *.
  set (d2 := calcDaynr (year b) (month b) (day b)) in *.
  clearbody d1 d2.
  unwrap. lia.
Qed.

(** Between [mysqlTime] values the overflowing case of C6 does not occur:
    the magnitude is not negative, and the flag is flipped exactly when the
    difference is not zero. *)
Lemma calcTimeDiff_swap_mysqlTime (a b : mysqlTime) (s u : Z) (neg : bool) :
  mysqlTime_wf a -> mysqlTime_wf b ->
  calcTimeDiff a b 1 = (s, u, neg) ->
  0 <= s /\ 0 <= u < 1000000
  /\ calcTimeDiff b a 1
     = (s, u, if (s =? 0) && (u =? 0) then false else negb neg).
Proof.
  intros Ha Hb E.
  pose proof (calcTimeDiff_tmp_mysqlTime a b Ha Hb) as Hr.
  destruct (calcTimeDiff_swap_cases a b s u neg E) as [Hswap Hzero].
  rewrite calcTimeDiff_split in E. cbv zeta in E.
  set (x := calcTimeDiff_tmp a b 1) in *. clearbody x.
  assert (0 <= s /\ 0 <= u < 1000000) as [Hs Hu].
  { destruct (Z.ltb_spec x 0).
    - rewrite (neg_small x) in E by lia.
      destruct (quot_rem_small (- x)) as [E1 E2]; [lia|].
      rewrite E1, E2 in E. injection E as <- <- <-. lia.
    - destruct (quot_rem_small x) as [E1 E2]; [lia|].
      rewrite E1, E2 in E. injection E as <- <- <-. lia. }
  split; [exact Hs|]. split; [exact Hu|].
  rewrite Hswap.
  replace (s <? 0) with false by lia. rewrite orb_false_r.
  destruct ((s =? 0) && (u =? 0)) eqn:Ez; [|reflexivity].
  rewrite Hzero by lia. reflexivity.
Qed.

(** C6, as stated, fails when the two values are equal: the flag is [false]
    in both directions. *)
Lemma calcTimeDiff_flag_not_flipped :
  let a := newMysqlTime 2016 2 28 12 0 0 0 in
  calcTimeDiff a a 1 = (0, 0, false)
  /\ calcTimeDiff a a 1 <> (0, 0, negb false).
Proof. cbv zeta. split; [vm_compute; reflexivity|]. vm_compute. discriminate. Qed.

(** ** Week flags and weekdays *)

Lemma test_lor_Year (w : weekBehaviour) :
  test (Z.lor w weekBehaviourYear) weekBehaviourYear = true.
Proof.
  unfold test. apply negb_true_iff, Z.eqb_neq. intros E.
  apply (f_equal (fun z => Z.testbit z 1)) in E.
  rewrite Z.land_spec, Z.lor_spec in E.
  change (Z.testbit weekBehaviourYear 1) with true in E.
  rewrite orb_true_r in E. discriminate E.
Qed.

Lemma calcWeekday_exact (daynr : Z) (sundayFirst : bool) :
  0 <= daynr <= 2 ^ 40 ->
  calcWeekday daynr sundayFirst
  = Z.rem (daynr + 5 + (if sundayFirst then 1 else 0)) 7.
Proof.
  intros Hd. unfold calcWeekday.
  destruct sundayFirst; unwrap; f_equal; lia.
Qed.

(** * Further properties *)

(** ** Day numbers and the calendar *)

Lemma calcDaynr_leap_term (y m d : Z) :
  0 <= y <= 2 ^ 16 -> 1 <= m <= 12 -> 0 <= d <= 2 ^ 16 ->
  calcDaynr y m d =
  365 * y + 31 * (m - 1) + d
  - (if m <=? 2 then 0 else Z.quot (m * 4 + 23) 10)
  + leap_term (if m <=? 2 then y - 1 else y).
Proof. intros. rewrite calcDaynr_date by lia. reflexivity. Qed.

(** The correction grows by one exactly over a leap year. *)
Lemma leap_term_step (y : Z) :
  0 <= y < 2 ^ 16 ->
  leap_term y - leap_term (y - 1) = calcDaysInYear y - 365.
Proof.
  intros Hy.
  pose proof (calcDaynr_february y Hy) as H.
  pose proof (days_in_month_bounds y 2) as Hb.
  rewrite !calcDaynr_leap_term in H by lia.
  unfold days_in_month in *.
  change (2 =? 2) with true in *. change (3 <=? 2) with false in H.
  change (2 <=? 2) with true in H. cbv iota in *.
  change (Z.quot (3 * 4 + 23) 10) with 3 in H.
  generalize dependent (leap_term y). generalize dependent (leap_term (y - 1)).
  intros l1 l2 H.
  destruct (calcDaysInYear_cases y) as [E|E]; rewrite E in *;
    [change (365 =? 366) with false in * | change (366 =? 366) with true in *];
    cbv iota in *; lia.
Qed.

(** The correction never shrinks by more than a few days over any number of
    years. *)
Lemma leap_term_mono (c c' : Z) :
  -1 <= c <= c' -> c' <= 2 ^ 16 -> leap_term c - 3 <= leap_term c'.
Proof. intros H1 H2. unfold leap_term. lia. Qed.

(** The day number of a date, counted from the first of January of its
    year. *)
Lemma calcDaynr_day_of_year (y m d : Z) :
  0 <= y < 2 ^ 16 -> 1 <= m <= 12 -> 0 <= d <= 2 ^ 16 ->
  calcDaynr y m d =
  calcDaynr y 1 1 + (d - 1) + 31 * (m - 1)
  - (if m <=? 2 then 0 else Z.quot (m * 4 + 23) 10)
  + (if m <=? 2 then 0 else calcDaysInYear y - 365).
Proof.
  intros Hy Hm Hd.
  pose proof (leap_term_step y Hy) as Hs.
  rewrite !calcDaynr_leap_term by lia.
  change (1 <=? 2) with true. cbv iota.
  destruct (m <=? 2);
    generalize dependent (leap_term y);
    generalize dependent (leap_term (y - 1));
    intros; lia.
Qed.

Lemma calcDaynr_new_year (y : Z) :
  0 <= y < 2 ^ 16 ->
  calcDaynr (y + 1) 1 1 = calcDaynr y 1 1 + calcDaysInYear y.
Proof.
  intros Hy.
  pose proof (leap_term_step y Hy) as Hs.
  rewrite !calcDaynr_leap_term by lia.
  change (1 <=? 2) with true. cbv iota.
  replace (y + 1 - 1) with y by lia.
  generalize dependent (leap_term y). generalize dependent (leap_term (y - 1)).
  intros; lia.
Qed.

(** X1. [calcDaysInYear] is the length [calcDaynr] gives a year: the day
    numbers of two consecutive first days of January differ by it, from the
    year -1 (which [calcWeek] reaches from year 0) to the year 65535. *)
Theorem calcDaysInYear_is_year_length (y : Z) :
  -1 <= y < 2 ^ 16 ->
  calcDaynr (y + 1) 1 1 - calcDaynr y 1 1 = calcDaysInYear y.
Proof.
  intros Hy.
  destruct (Z.eq_dec y (-1)) as [->|Hne]; [reflexivity|].
  rewrite calcDaynr_new_year by lia. lia.
Qed.

Lemma calcDaysInYear_is_year_length_witness :
  calcDaynr (2000 + 1) 1 1 - calcDaynr 2000 1 1 = calcDaysInYear 2000
  /\ calcDaysInYear 2000 = 366 /\ calcDaysInYear 1900 = 365
  /\ calcDaynr (-1 + 1) 1 1 - calcDaynr (-1) 1 1 = calcDaysInYear (-1).
Proof.
  split; [apply (calcDaysInYear_is_year_length 2000); simpl; lia|].
  split; [reflexivity|]. split; [reflexivity|].
  apply (calcDaysInYear_is_year_length (-1)); simpl; lia.
Defined.

(** Evaluates the comparisons between numerals of the goal. *)
Ltac eval_tests :=
  repeat match goal with
         | |- context [Z.leb ?a ?b] =>
             let v := eval cbv in (Z.leb a b) in
             match v with true => idtac | false => idtac end;
             change (Z.leb a b) with v
         | |- context [Z.eqb ?a ?b] =>
             let v := eval cbv in (Z.eqb a b) in
             match v with true => idtac | false => idtac end;
             change (Z.eqb a b) with v
         end;
  cbn [orb andb negb]; cbv iota.

(** Within one year the day number orders the valid dates. *)
Lemma calcDaynr_same_year (y m1 d1 m2 d2 : Z) :
  valid_date y m1 d1 -> valid_date y m2 d2 ->
  m1 < m2 -> calcDaynr y m1 d1 < calcDaynr y m2 d2.
Proof.
  intros (Hy & Hm1 & Hd1) (_ & Hm2 & Hd2) Hlt.
  pose proof (days_in_month_bounds y m1) as Hb1.
  pose proof (days_in_month_bounds y m2) as Hb2.
  rewrite (calcDaynr_day_of_year y m1 d1), (calcDaynr_day_of_year y m2 d2)
    by lia.
  clear Hb2. destruct Hd2 as [Hd2 _].
  unfold days_in_month in Hd1.
  destruct (calcDaysInYear_cases y) as [E|E]; rewrite E in *;
    [change (365 =? 366) with false in * | change (366 =? 366) with true in *];
    cbv iota in *; clear E Hb1;
    generalize dependent (calcDaynr y 1 1); intros fd;
    assert (m1 = 1 \/ m1 = 2 \/ m1 = 3 \/ m1 = 4 \/ m1 = 5 \/ m1 = 6
            \/ m1 = 7 \/ m1 = 8 \/ m1 = 9 \/ m1 = 10 \/ m1 = 11) as Hc by lia;
    revert Hd1;
    repeat (destruct Hc as [->|Hc];
            [eval_tests; intros Hd1; destruct (Z.leb_spec m2 2); lia|]);
    subst m1; eval_tests; intros Hd1; destruct (Z.leb_spec m2 2); lia.
Qed.

Lemma calcDaynr_year_bounds (y m d : Z) :
  valid_date y m d ->
  calcDaynr y 1 1 <= calcDaynr y m d < calcDaynr (y + 1) 1 1.
Proof.
  intros (Hy & Hm & Hd).
  pose proof (days_in_month_bounds y m) as Hb.
  rewrite calcDaynr_new_year by lia.
  rewrite (calcDaynr_day_of_year y m d) by lia.
  unfold days_in_month in Hd.
  destruct (calcDaysInYear_cases y) as [E|E]; rewrite E in *;
    [change (365 =? 366) with false in * | change (366 =? 366) with true in *];
    cbv iota in *; clear E Hb;
    generalize dependent (calcDaynr y 1 1); intros fd;
    assert (m = 1 \/ m = 2 \/ m = 3 \/ m = 4 \/ m = 5 \/ m = 6
            \/ m = 7 \/ m = 8 \/ m = 9 \/ m = 10 \/ m = 11 \/ m = 12) as Hc by lia;
    revert Hd;
    repeat (destruct Hc as [->|Hc]; [eval_tests; intros Hd; lia|]);
    subst m; eval_tests; intros Hd; lia.
Qed.

Lemma calcDaynr_first_mono (y1 y2 : Z) :
  0 <= y1 <= y2 -> y2 <= 2 ^ 16 -> calcDaynr y1 1 1 <= calcDaynr y2 1 1.
Proof.
  intros H1 H2.
  rewrite !calcDaynr_leap_term by lia.
  change (1 <=? 2) with true. cbv iota.
  destruct (Z.eq_dec y1 y2) as [->|Hne]; [lia|].
  pose proof (leap_term_mono (y1 - 1) (y2 - 1)) as Hm.
  generalize dependent (leap_term (y1 - 1)).
  generalize dependent (leap_term (y2 - 1)).
  intros; lia.
Qed.

Lemma calcDaynr_lt_of_date_lt (y1 m1 d1 y2 m2 d2 : Z) :
  valid_date y1 m1 d1 -> valid_date y2 m2 d2 ->
  date_lt y1 m1 d1 y2 m2 d2 -> calcDaynr y1 m1 d1 < calcDaynr y2 m2 d2.
Proof.
  intros V1 V2 [Hy|[-> [Hm|[-> Hd]]]].
  - pose proof (calcDaynr_year_bounds _ _ _ V1) as B1.
    pose proof (calcDaynr_year_bounds _ _ _ V2) as B2.
    destruct V1 as (Hy1 & _), V2 as (Hy2 & _).
    pose proof (calcDaynr_first_mono (y1 + 1) y2) as Hmono.
    lia.
  - apply calcDaynr_same_year; assumption.
  - destruct V1 as (Hy1 & Hm1 & Hd1), V2 as (_ & _ & Hd2).
    pose proof (days_in_month_bounds y2 m2) as Hb.
    rewrite !calcDaynr_leap_term by lia. lia.
Qed.

Lemma date_trichotomy (y1 m1 d1 y2 m2 d2 : Z) :
  date_lt y1 m1 d1 y2 m2 d2 \/ (y1 = y2 /\ m1 = m2 /\ d1 = d2)
  \/ date_lt y2 m2 d2 y1 m1 d1.
Proof. unfold date_lt. lia. Qed.

Lemma calcDaynr_compare (y1 m1 d1 y2 m2 d2 : Z) :
  valid_date y1 m1 d1 -> valid_date y2 m2 d2 ->
  (calcDaynr y1 m1 d1 < calcDaynr y2 m2 d2 <-> date_lt y1 m1 d1 y2 m2 d2)
  /\ (calcDaynr y1 m1 d1 = calcDaynr y2 m2 d2
      <-> y1 = y2 /\ m1 = m2 /\ d1 = d2).
Proof.
  intros V1 V2.
  pose proof (calcDaynr_lt_of_date_lt _ _ _ _ _ _ V1 V2) as H12.
  pose proof (calcDaynr_lt_of_date_lt _ _ _ _ _ _ V2 V1) as H21.
  unfold date_lt in *.
  destruct (date_trichotomy y1 m1 d1 y2 m2 d2) as [L|[(-> & -> & ->)|G]];
    unfold date_lt in *.
  - specialize (H12 L). split; split; intros; lia.
  - split; split; intros; lia.
  - specialize (H21 G). split; split; intros; lia.
Qed.

(** X2. On valid dates [calcDaynr] is an order embedding: one date is
    earlier than another exactly when its day number is smaller, and two
    dates with the same day number are the same date. *)
Theorem calcDaynr_orders_dates (y1 m1 d1 y2 m2 d2 : Z) :
  valid_date y1 m1 d1 -> valid_date y2 m2 d2 ->
  (calcDaynr y1 m1 d1 < calcDaynr y2 m2 d2 <-> date_lt y1 m1 d1 y2 m2 d2)
  /\ (calcDaynr y1 m1 d1 = calcDaynr y2 m2 d2
      <-> y1 = y2 /\ m1 = m2 /\ d1 = d2).
Proof.
  intros V1 V2.
  destruct (calcDaynr_compare y1 m1 d1 y2 m2 d2 V1 V2) as [Hlt Heq].
  split; [exact Hlt | exact Heq].
Qed.

Lemma calcDaynr_orders_dates_witness :
  calcDaynr 1999 12 31 < calcDaynr 2000 1 1.
Proof.
  apply (calcDaynr_orders_dates 1999 12 31 2000 1 1).
  - unfold valid_date; vm_compute; intuition discriminate.
  - unfold valid_date; vm_compute; intuition discriminate.
  - left. lia.
Defined.

(** ** Weekdays *)

(** X3. For a day number that is not negative, [calcWeekday] is an index
    from 0 to 6 that advances by one, modulo 7, with each day and so repeats
    every 7 days; counting from Sunday shifts the index by one. *)
Theorem calcWeekday_cycle (daynr : Z) (sundayFirst : bool) :
  0 <= daynr <= 2 ^ 32 ->
  0 <= calcWeekday daynr sundayFirst <= 6
  /\ calcWeekday (daynr + 1) sundayFirst
     = (calcWeekday daynr sundayFirst + 1) mod 7
  /\ calcWeekday (daynr + 7) sundayFirst = calcWeekday daynr sundayFirst
  /\ calcWeekday daynr true = (calcWeekday daynr false + 1) mod 7.
Proof.
  intros Hd.
  rewrite !calcWeekday_exact by lia.
  destruct sundayFirst; lia.
Qed.

Lemma calcWeekday_cycle_witness :
  0 <= calcWeekday 730485 false <= 6
  /\ calcWeekday (730485 + 1) false = (calcWeekday 730485 false + 1) mod 7
  /\ calcWeekday (730485 + 7) false = calcWeekday 730485 false
  /\ calcWeekday 730485 true = (calcWeekday 730485 false + 1) mod 7.
Proof. apply (calcWeekday_cycle 730485 false). simpl. lia. Defined.

(** X4. For a day number below -6, [calcWeekday] is not an index: Go's
    remainder keeps the sign of the dividend, and the result lies between -6
    and 0. *)
Theorem calcWeekday_negative (daynr : Z) (sundayFirst : bool) :
  - 2 ^ 63 <= daynr <= -7 ->
  -6 <= calcWeekday daynr sundayFirst <= 0
  /\ (calcWeekday daynr sundayFirst = 0
      <-> (daynr + 5 + (if sundayFirst then 1 else 0)) mod 7 = 0).
Proof.
  intros Hd. unfold calcWeekday.
  destruct sundayFirst; unwrap; lia.
Qed.

Lemma calcWeekday_negative_witness :
  -6 <= calcWeekday (-7) false <= 0 /\ calcWeekday (-7) false = -2.
Proof.
  split; [|reflexivity].
  apply (calcWeekday_negative (-7) false). simpl. lia.
Defined.

(** ** Week modes *)

Lemma land_7_mod (mode : Z) : Z.land mode 7 = mode mod 8.
Proof. change 7 with (Z.ones 3). rewrite Z.land_ones by lia. reflexivity. Qed.

Lemma weekMode_mod (mode : Z) :
  weekMode mode =
  let w := mode mod 8 in
  if Z.land w weekBehaviourMondayFirst =? 0
  then Z.lxor w weekBehaviourFirstWeekday else w.
Proof.
  unfold weekMode, GoInt.land. rewrite land_7_mod.
  assert (0 <= mode mod 8 < 8) as Hr by lia.
  rewrite wrap_small by (apply in_int_bounds; lia).
  rewrite uwrap_small by (change (2 ^ 64) with 18446744073709551616; lia).
  reflexivity.
Qed.

Lemma mod8_cases (mode : Z) :
  let w := mode mod 8 in
  w = 0 \/ w = 1 \/ w = 2 \/ w = 3 \/ w = 4 \/ w = 5 \/ w = 6 \/ w = 7.
Proof. cbv zeta. lia. Qed.

Lemma testbit_mod8 (mode i : Z) :
  0 <= i < 3 -> Z.testbit (mode mod 8) i = Z.testbit mode i.
Proof.
  intros Hi. change 8 with (2 ^ 3).
  apply Z.mod_pow2_bits_low. lia.
Qed.

Lemma weekMode_flags (mode : Z) :
  test (weekMode mode) weekBehaviourMondayFirst = Z.testbit mode 0
  /\ test (weekMode mode) weekBehaviourYear = Z.testbit mode 1
  /\ test (weekMode mode) weekBehaviourFirstWeekday
     = xorb (Z.testbit mode 2) (negb (Z.testbit mode 0)).
Proof.
  rewrite weekMode_mod. cbv zeta.
  rewrite <- (testbit_mod8 mode 0), <- (testbit_mod8 mode 1),
    <- (testbit_mod8 mode 2) by lia.
  destruct (mod8_cases mode) as [E|[E|[E|[E|[E|[E|[E|E]]]]]]];
    cbv zeta in E; rewrite E; repeat split.
Qed.

(** X5. [weekMode] decodes the mode into the three flags: Monday-first is
    bit 0 of the mode, year-relative is bit 1, and first-weekday is bit 2
    inverted when bit 0 is unset.  The result lies between 0 and 7 and only
    depends on the mode modulo 8. *)
Theorem weekMode_decodes_flags (mode : Z) :
  test (weekMode mode) weekBehaviourMondayFirst = Z.testbit mode 0
  /\ test (weekMode mode) weekBehaviourYear = Z.testbit mode 1
  /\ test (weekMode mode) weekBehaviourFirstWeekday
     = xorb (Z.testbit mode 2) (negb (Z.testbit mode 0))
  /\ 0 <= weekMode mode <= 7
  /\ weekMode (mode + 8) = weekMode mode.
Proof.
  destruct (weekMode_flags mode) as (H0 & H1 & H2).
  repeat (split; [assumption|]).
  split.
  - rewrite weekMode_mod. cbv zeta.
    destruct (mod8_cases mode) as [E|[E|[E|[E|[E|[E|[E|E]]]]]]];
      cbv zeta in E; rewrite E; vm_compute; intuition discriminate.
  - rewrite !weekMode_mod. cbv zeta.
    replace ((mode + 8) mod 8) with (mode mod 8) by lia. reflexivity.
Qed.

(** X6. [weekMode] is its own inverse on the modes 0 to 7: applied twice
    it gives the mode modulo 8. *)
Theorem weekMode_involutive (mode : Z) :
  weekMode (weekMode mode) = mode mod 8.
Proof.
  rewrite (weekMode_mod mode). cbv zeta.
  destruct (mod8_cases mode) as [E|[E|[E|[E|[E|[E|[E|E]]]]]]];
    cbv zeta in E; rewrite E; reflexivity.
Qed.

Lemma lor_Year_weekMode (mode : Z) :
  Z.testbit mode 1 = true ->
  Z.lor (weekMode mode) weekBehaviourYear = weekMode mode.
Proof.
  rewrite <- (testbit_mod8 mode 1) by lia.
  rewrite weekMode_mod. cbv zeta.
  destruct (mod8_cases mode) as [E|[E|[E|[E|[E|[E|[E|E]]]]]]];
    cbv zeta in E; rewrite E; intros Hb;
    first [reflexivity | discriminate Hb].
Qed.

(** X7. For a mode with bit 1 set (2, 3, 6, 7 modulo 8), [Week] is the
    week component of [YearWeek], for every value. *)
Theorem Week_is_YearWeek_week (t : mysqlTime) (mode : Z) :
  Z.testbit mode 1 = true -> Week t mode = snd (YearWeek t mode).
Proof.
  intros Hb. unfold Week, YearWeek.
  rewrite (lor_Year_weekMode mode Hb).
  destruct ((month t =? 0) || (day t =? 0)); reflexivity.
Qed.

Lemma Week_is_YearWeek_week_witness :
  Week (newMysqlTime 2000 1 1 0 0 0 0) 2 = 52
  /\ snd (YearWeek (newMysqlTime 2000 1 1 0 0 0 0) 2) = 52.
Proof.
  rewrite <- (Week_is_YearWeek_week (newMysqlTime 2000 1 1 0 0 0 0) 2)
    by reflexivity.
  split; vm_compute; reflexivity.
Defined.

(** ** calcWeek on exact integers *)

Lemma calcWeek_exact (t : mysqlTime) (wb : weekBehaviour) :
  0 <= year t < 2 ^ 16 -> 1 <= month t < 2 ^ 8 -> 1 <= day t < 2 ^ 8 ->
  calcWeek t wb =
  calcWeek_steps (year t) (month t) (day t)
    (calcDaynr (year t) (month t) (day t)) (calcDaynr (year t) 1 1)
    (calcDaysInYear (year t - 1)) (calcDaysInYear (year t))
    (test wb weekBehaviourMondayFirst) (test wb weekBehaviourYear)
    (test wb weekBehaviourFirstWeekday).
Proof.
  intros Hy Hm1 Hd1.
  assert (0 <= month t < 2 ^ 8) as Hm by lia.
  assert (0 <= day t < 2 ^ 8) as Hd by lia.
  unfold calcWeek, calcWeek_steps.
  generalize (test wb weekBehaviourMondayFirst) as mondayFirst.
  generalize (test wb weekBehaviourFirstWeekday) as firstWeekday.
  generalize (test wb weekBehaviourYear) as weekYear.
  intros weekYear firstWeekday mondayFirst.
  cbv zeta.
  pose proof (calcDaynr_bounds (year t) (month t) (day t) Hy Hm Hd) as Hdn.
  assert (1 <= calcDaynr (year t) 1 1 <= 2 ^ 25) as Hfd.
  { rewrite calcDaynr_exact by lia. unfold DayNumber_closed_form.
    change (1 =? 0) with false. rewrite andb_false_r.
    change (1 <=? 2) with true. cbv iota. lia. }
  set (dn := calcDaynr (year t) (month t) (day t)) in *.
  set (fd := calcDaynr (year t) 1 1) in *.
  clearbody dn fd.
  rewrite calcWeekday_exact by lia.
  replace (if negb mondayFirst then 1 else 0)
    with (if mondayFirst then 0 else 1) by (destruct mondayFirst; reflexivity).
  set (wd := Z.rem (fd + 5 + (if mondayFirst then 0 else 1)) 7).
  assert (0 <= wd <= 6) as Hwd by (subst wd; destruct mondayFirst; lia).
  clearbody wd.
  assert (year t -i 1 = year t - 1) as -> by (unwrap; reflexivity).
  pose proof (calcDaysInYear_cases (year t - 1)) as Hdiy1.
  pose proof (calcDaysInYear_cases (year t)) as Hdiy.
  remember (calcDaysInYear (year t - 1)) as diy1 eqn:Ediy1.
  remember (calcDaysInYear (year t)) as diy eqn:Ediy.
  assert (7 -i wd = 7 - wd) as -> by (unwrap; reflexivity).
  change (53 * 7) with 371. change (52 * 7) with 364.
  assert ((wd +i 371 -i diy1) %i 7 = Z.rem (wd + 371 - diy1) 7) as ->
    by (unwrap; reflexivity).
  assert (fd -i diy1 = fd - diy1) as -> by (unwrap; reflexivity).
  set (wd' := Z.rem (wd + 371 - diy1) 7).
  assert (0 <= wd' <= 6) as Hwd' by (subst wd'; lia).
  clearbody wd'.
  destruct ((month t =? 1) && (day t <=? 7 - wd)).
  - destruct (negb weekYear &&
              (firstWeekday && negb (wd =? 0) || negb firstWeekday && (wd >=? 4)));
      [reflexivity|].
    cbv beta iota. rewrite <- Ediy1. clear Ediy1 Ediy.
    destruct (firstWeekday && negb (wd' =? 0) || negb firstWeekday && (wd' >=? 4)).
    + assert (dn -i (fd - diy1 +i 7 -i wd') = dn - (fd - diy1 + 7 - wd')) as ->
        by (unwrap; reflexivity).
      assert ((wd' +i diy1) %i 7 = Z.rem (wd' + diy1) 7) as ->
        by (unwrap; reflexivity).
      assert (year t - 1 +i 1 = year t - 1 + 1) as -> by (unwrap; reflexivity).
      assert ((dn - (fd - diy1 + 7 - wd')) /i 7 +i 1
              = Z.quot (dn - (fd - diy1 + 7 - wd')) 7 + 1) as ->
        by (unwrap; reflexivity).
      reflexivity.
    + assert (dn -i (fd - diy1 -i wd') = dn - (fd - diy1 - wd')) as ->
        by (unwrap; reflexivity).
      assert ((wd' +i diy1) %i 7 = Z.rem (wd' + diy1) 7) as ->
        by (unwrap; reflexivity).
      assert (year t - 1 +i 1 = year t - 1 + 1) as -> by (unwrap; reflexivity).
      assert ((dn - (fd - diy1 - wd')) /i 7 +i 1
              = Z.quot (dn - (fd - diy1 - wd')) 7 + 1) as ->
        by (unwrap; reflexivity).
      reflexivity.
  - cbv beta iota. rewrite <- Ediy. clear Ediy1 Ediy.
    destruct (firstWeekday && negb (wd =? 0) || negb firstWeekday && (wd >=? 4)).
    + assert (dn -i (fd +i 7 -i wd) = dn - (fd + 7 - wd)) as ->
        by (unwrap; reflexivity).
      assert ((wd +i diy) %i 7 = Z.rem (wd + diy) 7) as ->
        by (unwrap; reflexivity).
      assert (year t +i 1 = year t + 1) as -> by (unwrap; reflexivity).
      assert ((dn - (fd + 7 - wd)) /i 7 +i 1
              = Z.quot (dn - (fd + 7 - wd)) 7 + 1) as ->
        by (unwrap; reflexivity).
      reflexivity.
    + assert (dn -i (fd -i wd) = dn - (fd - wd)) as ->
        by (unwrap; reflexivity).
      assert ((wd +i diy) %i 7 = Z.rem (wd + diy) 7) as ->
        by (unwrap; reflexivity).
      assert (year t +i 1 = year t + 1) as -> by (unwrap; reflexivity).
      assert ((dn - (fd - wd)) /i 7 +i 1
              = Z.quot (dn - (fd - wd)) 7 + 1) as ->
        by (unwrap; reflexivity).
      reflexivity.
Qed.

(** Where a stored date lies from the first of January of its year. *)
Lemma calcDaynr_offset_stored (y m d : Z) :
  0 <= y < 2 ^ 16 -> 1 <= m < 2 ^ 8 -> 0 <= d < 2 ^ 8 ->
  (m = 1 -> calcDaynr y m d = calcDaynr y 1 1 + d - 1)
  /\ (2 <= m -> calcDaynr y 1 1 + 30 + d <= calcDaynr y m d).
Proof.
  intros Hy Hm Hd.
  rewrite !calcDaynr_exact by lia.
  unfold DayNumber_closed_form.
  replace (m =? 0) with false by lia.
  rewrite andb_false_r.
  change (1 =? 0) with false. rewrite andb_false_r.
  change (1 <=? 2) with true. cbv iota.
  destruct (Z.leb_spec m 2); lia.
Qed.

(** Case analysis on the tests of the conditionals of the goal, those
    inside other tests first. *)
Ltac split_ifs_inner :=
  repeat match goal with
         | |- context [if ?b then _ else _] =>
             lazymatch b with
             | context [if _ then _ else _] => fail
             | _ => destruct b eqn:?
             end
         end.

Ltac calcWeek_steps_cases :=
  match goal with
  | |- context [Z.rem (?fd + 5 + ?c) 7] =>
      let wd := fresh "wd" in
      let Hwd := fresh "Hwd" in
      set (wd := Z.rem (fd + 5 + c) 7);
      assert (0 <= wd <= 6) as Hwd
        by (subst wd;
            match goal with
            | |- context [if ?b then _ else _] => destruct b
            end; lia);
      clearbody wd
  end.

Lemma calcWeek_steps_basic
  (yr mo dy dn fd diy1 diy : Z) (mondayFirst weekYear firstWeekday : bool) :
  1 <= mo -> 1 <= dy -> 1 <= fd ->
  (mo = 1 -> dn = fd + dy - 1) -> (2 <= mo -> fd + 30 + dy <= dn) ->
  diy1 = 365 \/ diy1 = 366 -> diy = 365 \/ diy = 366 ->
  let r := calcWeek_steps yr mo dy dn fd diy1 diy
             mondayFirst weekYear firstWeekday in
  0 <= snd r
  /\ (snd r = 0 -> mo = 1 /\ dy <= 7 /\ weekYear = false)
  /\ (weekYear = false -> fst r = yr).
Proof.
  intros Hmo Hdy Hfd Hjan Hrest Hdiy1 Hdiy.
  unfold calcWeek_steps. cbv zeta.
  calcWeek_steps_cases.
  destruct (Z.eq_dec mo 1) as [Emo|Emo].
  - specialize (Hjan Emo). clear Hrest. subst mo dn.
    change (1 =? 1) with true. cbn [andb].
    set (wd' := Z.rem (wd + 371 - diy1) 7).
    assert (diy1 = 365 /\ (wd = 0 /\ wd' = 6 \/ 1 <= wd /\ wd' = wd - 1)
            \/ diy1 = 366 /\ (wd <= 1 /\ wd' = wd + 5
                               \/ 2 <= wd /\ wd' = wd - 2)) as Hwd'.
    { subst wd'. destruct Hdiy1 as [->| ->]; [left|right];
        (split; [reflexivity|]); lia. }
    clearbody wd'. clear Hdiy1.
    destruct weekYear, firstWeekday; cbn [negb andb orb];
      rewrite ?orb_false_r;
      (destruct (Z.leb_spec dy (7 - wd)); cbv iota beta);
      split_ifs_inner; cbn [fst snd]; cbv iota beta; cbn [fst snd];
      repeat split; intros; try discriminate; try reflexivity; lia.
  - assert (2 <= mo) as Hmo2 by lia. specialize (Hrest Hmo2). clear Hjan.
    replace (mo =? 1) with false by lia. cbn [andb]. cbv iota beta.
    clear Hdiy1.
    destruct weekYear, firstWeekday; cbn [negb andb orb];
      rewrite ?orb_false_r;
      split_ifs_inner; cbn [fst snd];
      repeat split; intros; try discriminate; try reflexivity; lia.
Qed.

(** Where a valid date lies in its year. *)
Lemma calcDaynr_offset_valid (y m d : Z) :
  valid_date y m d ->
  calcDaynr y m d <= calcDaynr y 1 1 + calcDaysInYear y - 1
  /\ (m <= 11 -> calcDaynr y m d <= calcDaynr y 1 1 + 334).
Proof.
  intros V.
  pose proof (calcDaynr_year_bounds y m d V) as Hb.
  destruct V as (Hy & Hm & Hd).
  rewrite calcDaynr_new_year in Hb by lia.
  split; [lia|]. intros Hm11.
  assert (valid_date y 12 1) as V12.
  { unfold valid_date, days_in_month. cbn. lia. }
  assert (valid_date y m d) as V by (unfold valid_date; lia).
  pose proof (calcDaynr_same_year y m d 12 1 V V12) as Hlt.
  rewrite (calcDaynr_day_of_year y 12 1) in Hlt by lia.
  change (12 <=? 2) with false in Hlt. cbv iota in Hlt.
  change (Z.quot (12 * 4 + 23) 10) with 7 in Hlt.
  destruct (calcDaysInYear_cases y) as [E|E]; rewrite E in *; lia.
Qed.

Lemma calcWeek_steps_valid
  (yr mo dy dn fd diy1 diy : Z) (mondayFirst weekYear firstWeekday : bool) :
  1 <= mo <= 12 -> 1 <= dy <= 31 -> 1 <= fd ->
  (mo = 1 -> dn = fd + dy - 1) -> (2 <= mo -> fd + 30 + dy <= dn) ->
  dn <= fd + diy - 1 -> (mo <= 11 -> dn <= fd + 334) ->
  diy1 = 365 \/ diy1 = 366 -> diy = 365 \/ diy = 366 ->
  let r := calcWeek_steps yr mo dy dn fd diy1 diy
             mondayFirst weekYear firstWeekday in
  snd r <= 53
  /\ yr - 1 <= fst r <= yr + 1
  /\ (fst r = yr - 1 -> mo = 1 /\ 52 <= snd r)
  /\ (fst r = yr + 1 -> mo = 12 /\ snd r = 1).
Proof.
  intros Hmo Hdy Hfd Hjan Hrest Hlast Hnov Hdiy1 Hdiy.
  unfold calcWeek_steps. cbv zeta.
  calcWeek_steps_cases.
  destruct (Z.eq_dec mo 1) as [Emo|Emo].
  - specialize (Hjan Emo). clear Hrest Hnov Hlast. subst mo dn.
    change (1 =? 1) with true. cbn [andb].
    set (wd' := Z.rem (wd + 371 - diy1) 7).
    assert (diy1 = 365 /\ (wd = 0 /\ wd' = 6 \/ 1 <= wd /\ wd' = wd - 1)
            \/ diy1 = 366 /\ (wd <= 1 /\ wd' = wd + 5
                               \/ 2 <= wd /\ wd' = wd - 2)) as Hwd'.
    { subst wd'. destruct Hdiy1 as [->| ->]; [left|right];
        (split; [reflexivity|]); lia. }
    clearbody wd'. clear Hdiy1.
    destruct weekYear, firstWeekday; cbn [negb andb orb];
      rewrite ?orb_false_r;
      (destruct (Z.leb_spec dy (7 - wd)); cbv iota beta);
      split_ifs_inner; cbn [fst snd]; cbv iota beta; cbn [fst snd];
      repeat split; intros; try discriminate; try reflexivity; lia.
  - assert (2 <= mo) as Hmo2 by lia. specialize (Hrest Hmo2). clear Hjan.
    replace (mo =? 1) with false by lia. cbn [andb]. cbv iota beta.
    clear Hdiy1.
    destruct weekYear, firstWeekday; cbn [negb andb orb];
      rewrite ?orb_false_r;
      split_ifs_inner; cbn [fst snd];
      repeat split; intros; try discriminate; try reflexivity; lia.
Qed.

Lemma calcDaynr_first_pos (y : Z) : 0 <= y < 2 ^ 16 -> 1 <= calcDaynr y 1 1.
Proof.
  intros Hy. rewrite calcDaynr_exact by lia. unfold DayNumber_closed_form.
  change (1 =? 0) with false. rewrite andb_false_r.
  change (1 <=? 2) with true. cbv iota. lia.
Qed.

(** What [calcWeek] gives for every stored date with month and day set. *)
Lemma calcWeek_basic (t : mysqlTime) (wb : weekBehaviour) :
  0 <= year t < 2 ^ 16 -> 1 <= month t < 2 ^ 8 -> 1 <= day t < 2 ^ 8 ->
  0 <= snd (calcWeek t wb)
  /\ (snd (calcWeek t wb) = 0 ->
      month t = 1 /\ day t <= 7 /\ test wb weekBehaviourYear = false)
  /\ (test wb weekBehaviourYear = false -> fst (calcWeek t wb) = year t).
Proof.
  intros Hy Hm Hd.
  rewrite calcWeek_exact by lia.
  destruct (calcDaynr_offset_stored (year t) (month t) (day t))
    as [Hjan Hrest]; try lia.
  apply calcWeek_steps_basic; try assumption; try lia.
  - apply calcDaynr_first_pos; assumption.
  - apply calcDaysInYear_cases.
  - apply calcDaysInYear_cases.
Qed.

(** What [calcWeek] gives for every valid date. *)
Lemma calcWeek_valid (t : mysqlTime) (wb : weekBehaviour) :
  valid_date (year t) (month t) (day t) ->
  snd (calcWeek t wb) <= 53
  /\ year t - 1 <= fst (calcWeek t wb) <= year t + 1
  /\ (fst (calcWeek t wb) = year t - 1 ->
      month t = 1 /\ 52 <= snd (calcWeek t wb))
  /\ (fst (calcWeek t wb) = year t + 1 ->
      month t = 12 /\ snd (calcWeek t wb) = 1).
Proof.
  intros V.
  destruct (calcDaynr_offset_valid _ _ _ V) as [Hlast Hnov].
  destruct V as (Hy & Hm & Hd).
  pose proof (days_in_month_bounds (year t) (month t)) as Hb.
  rewrite calcWeek_exact by lia.
  destruct (calcDaynr_offset_stored (year t) (month t) (day t))
    as [Hjan Hrest]; try lia.
  apply calcWeek_steps_valid; try assumption; try lia.
  - apply calcDaynr_first_pos; assumption.
  - apply calcDaysInYear_cases.
  - apply calcDaysInYear_cases.
Qed.

Lemma nonzero_date_test (t : mysqlTime) :
  1 <= month t -> 1 <= day t -> (month t =? 0) || (day t =? 0) = false.
Proof. intros Hm Hd. lia. Qed.

Lemma valid_date_stored (y m d : Z) :
  valid_date y m d -> 0 <= y < 2 ^ 16 /\ 1 <= m < 2 ^ 8 /\ 1 <= d < 2 ^ 8.
Proof.
  intros (Hy & Hm & Hd).
  pose proof (days_in_month_bounds y m) as Hb. lia.
Qed.

(** ** Year-relative week numbers *)

(** Setting the year-relative flag leaves the other two flags. *)
Lemma test_lor_Year_other (w : weekBehaviour) :
  test (Z.lor w weekBehaviourYear) weekBehaviourMondayFirst
  = test w weekBehaviourMondayFirst
  /\ test (Z.lor w weekBehaviourYear) weekBehaviourFirstWeekday
     = test w weekBehaviourFirstWeekday.
Proof.
  unfold test. rewrite !Z.land_lor_distr_l.
  change (Z.land weekBehaviourYear weekBehaviourMondayFirst) with 0.
  change (Z.land weekBehaviourYear weekBehaviourFirstWeekday) with 0.
  rewrite !Z.lor_0_r. split; reflexivity.
Qed.

(** The first days of January, up to the first start of a week. *)
Lemma calcWeek_steps_first_days
  (yr dy fd diy1 diy diy2 : Z) (mondayFirst weekYear firstWeekday : bool) :
  1 <= dy -> 1 <= fd -> diy1 = 365 \/ diy1 = 366 ->
  dy <= 7 - Z.rem (fd + 5 + (if mondayFirst then 0 else 1)) 7 ->
  let wd := Z.rem (fd + 5 + (if mondayFirst then 0 else 1)) 7 in
  let r := calcWeek_steps yr 1 dy (fd + dy - 1) fd diy1 diy
             mondayFirst weekYear firstWeekday in
  if (firstWeekday && negb (wd =? 0)) || (negb firstWeekday && (wd >=? 4))
  then if weekYear
       then fst r = yr - 1 /\ 52 <= snd r <= 53
            /\ (diy1 < fd ->
                r = calcWeek_steps (yr - 1) 12 31 (fd - 1) (fd - diy1)
                      diy2 diy1 mondayFirst true firstWeekday)
       else r = (yr, 0)
  else r = (yr, 1).
Proof.
  intros Hdy Hfd Hdiy1 Hfirst. cbv zeta.
  assert (diy1 < fd ->
          Z.rem (fd - diy1 + 5 + (if mondayFirst then 0 else 1)) 7
          = Z.rem (Z.rem (fd + 5 + (if mondayFirst then 0 else 1)) 7
                   + 371 - diy1) 7) as Hdec.
  { intros Hlt. destruct mondayFirst; lia. }
  unfold calcWeek_steps. cbv zeta.
  change (12 =? 1) with false. cbn [andb]. cbv iota beta.
  revert Hdec Hfirst.
  calcWeek_steps_cases.
  intros Hdec Hfirst.
  change (1 =? 1) with true. cbn [andb].
  replace (dy <=? 7 - wd) with true by lia.
  set (wd' := Z.rem (wd + 371 - diy1) 7) in *.
  assert (diy1 = 365 /\ (wd = 0 /\ wd' = 6 \/ 1 <= wd /\ wd' = wd - 1)
          \/ diy1 = 366 /\ (wd <= 1 /\ wd' = wd + 5
                             \/ 2 <= wd /\ wd' = wd - 2)) as Hwd'.
  { subst wd'. destruct Hdiy1 as [->| ->]; [left|right];
      (split; [reflexivity|]); lia. }
  clearbody wd'. clear Hdiy1.
  destruct (firstWeekday && negb (wd =? 0) || negb firstWeekday && (wd >=? 4))
    eqn:Ec.
  - destruct weekYear; cbn [negb andb]; [|reflexivity].
    cbv iota beta.
    assert (forall dn : Z, fd - 1 <= dn <= fd + 6 - wd ->
      let r :=
        (let days :=
           if firstWeekday && negb (wd' =? 0) || negb firstWeekday && (wd' >=? 4)
           then dn - (fd - diy1 + 7 - wd')
           else dn - (fd - diy1 - wd') in
         let week := Z.quot days 7 + 1 in
         if true && (days >=? 364)
         then
           let weekday := Z.rem (wd' + diy1) 7 in
           if negb firstWeekday && (weekday <? 4) || firstWeekday && (weekday =? 0)
           then (yr - 1 + 1, 1)
           else (yr - 1, week)
         else (yr - 1, week)) in
      fst r = yr - 1 /\ 52 <= snd r <= 53
      /\ snd r = Z.quot (fd - 1 - (fd - diy1 - wd')) 7
                 + (if firstWeekday && negb (wd' =? 0)
                       || negb firstWeekday && (wd' >=? 4) then 0 else 1))
      as Hboth.
    { intros dn Hdn. cbv zeta. cbn [andb].
      destruct firstWeekday; cbn [negb andb orb] in *;
        rewrite ?orb_false_r in *;
        split_ifs_inner; cbn [fst snd];
        repeat split; try reflexivity; lia. }
    pose proof (Hboth (fd + dy - 1) ltac:(lia)) as HJ.
    pose proof (Hboth (fd - 1) ltac:(lia)) as HD.
    cbv zeta in HJ, HD.
    destruct HJ as (HJ1 & HJ2 & HJ3).
    split; [exact HJ1|]. split; [exact HJ2|].
    intros Hlt. rewrite (Hdec Hlt).
    destruct HD as (HD1 & _ & HD3).
    apply injective_projections.
    + etransitivity; [exact HJ1 | symmetry; exact HD1].
    + etransitivity; [exact HJ3 | symmetry; exact HD3].
  - destruct weekYear; cbn [negb andb]; cbv iota beta;
      destruct firstWeekday; cbn [negb andb orb] in *;
        rewrite ?orb_false_r in *;
        split_ifs_inner; try reflexivity; try (f_equal; lia); lia.
Qed.

(** Every later day. *)
Lemma calcWeek_steps_later_days
  (yr mo dy dn fd diy1 diy : Z) (mondayFirst weekYear firstWeekday : bool) :
  1 <= mo -> 1 <= dy -> 1 <= fd ->
  (mo = 1 -> dn = fd + dy - 1) -> (2 <= mo -> fd + 30 + dy <= dn) ->
  mo <> 1 \/ 7 - Z.rem (fd + 5 + (if mondayFirst then 0 else 1)) 7 < dy ->
  let r := calcWeek_steps yr mo dy dn fd diy1 diy
             mondayFirst weekYear firstWeekday in
  yr <= fst r /\ 1 <= snd r.
Proof.
  intros Hmo Hdy Hfd Hjan Hrest Hlater.
  unfold calcWeek_steps. cbv zeta.
  revert Hlater.
  calcWeek_steps_cases.
  intros Hlater.
  replace ((mo =? 1) && (dy <=? 7 - wd)) with false by lia.
  cbv iota beta.
  assert (fd + 7 - wd <= dn) as Hdn by lia.
  clear Hjan Hrest Hlater.
  destruct weekYear, firstWeekday; cbn [negb andb orb];
    rewrite ?orb_false_r;
    split_ifs_inner; cbn [fst snd]; lia.
Qed.

(** The test on exact integers. *)
Lemma before_first_week_exact (t : mysqlTime) (wb : weekBehaviour) :
  0 <= year t < 2 ^ 16 ->
  before_first_week t wb =
  let wd := Z.rem (calcDaynr (year t) 1 1 + 5
                   + (if test wb weekBehaviourMondayFirst then 0 else 1)) 7 in
  (month t =? 1) && (day t <=? 7 - wd)
  && ((test wb weekBehaviourFirstWeekday && negb (wd =? 0))
      || (negb (test wb weekBehaviourFirstWeekday) && (wd >=? 4))).
Proof.
  intros Hy. unfold before_first_week. cbv zeta.
  pose proof (calcDaynr_first_pos (year t) Hy) as Hp.
  pose proof (calcDaynr_bounds (year t) 1 1 Hy) as Hb.
  rewrite calcWeekday_exact by (simpl in *; lia).
  replace (if negb (test wb weekBehaviourMondayFirst) then 1 else 0)
    with (if test wb weekBehaviourMondayFirst then 0 else 1)
    by (destruct (test wb weekBehaviourMondayFirst); reflexivity).
  set (wd := Z.rem _ 7).
  assert (0 <= wd <= 6) as Hwd
    by (subst wd; destruct (test wb weekBehaviourMondayFirst); lia).
  clearbody wd.
  assert (7 -i wd = 7 - wd) as -> by (unwrap; reflexivity).
  reflexivity.
Qed.

(** What [calcWeek] returns in and after the first partial week. *)
Lemma calcWeek_first_week (t : mysqlTime) (wb : weekBehaviour) :
  0 <= year t < 2 ^ 16 -> 1 <= month t < 2 ^ 8 -> 1 <= day t < 2 ^ 8 ->
  if before_first_week t wb
  then if test wb weekBehaviourYear
       then fst (calcWeek t wb) = year t - 1
            /\ 52 <= snd (calcWeek t wb) <= 53
            /\ (forall t' : mysqlTime,
                  0 <= year t' -> year t' = year t - 1 ->
                  month t' = 12 -> day t' = 31 ->
                  calcWeek t wb = calcWeek t' wb)
       else calcWeek t wb = (year t, 0)
  else year t <= fst (calcWeek t wb) /\ 1 <= snd (calcWeek t wb).
Proof.
  intros Hy Hm Hd.
  rewrite before_first_week_exact by assumption. cbv zeta.
  rewrite (calcWeek_exact t wb) by assumption.
  destruct (calcDaynr_offset_stored (year t) (month t) (day t))
    as [Hjan Hrest]; try lia.
  pose proof (calcDaynr_first_pos (year t) Hy) as Hfd.
  pose proof (calcDaysInYear_cases (year t - 1)) as Hdiy1.
  set (mondayFirst := test wb weekBehaviourMondayFirst).
  set (firstWeekday := test wb weekBehaviourFirstWeekday).
  set (weekYear := test wb weekBehaviourYear).
  destruct ((month t =? 1)
            && (day t <=? 7 - Z.rem (calcDaynr (year t) 1 1 + 5
                                     + (if mondayFirst then 0 else 1)) 7))
    eqn:Eb.
  - apply andb_true_iff in Eb as [E1 E2].
    apply Z.eqb_eq in E1. apply Z.leb_le in E2.
    rewrite (Hjan E1). rewrite E1.
    cbn [andb].
    pose proof (fun diy2 =>
      calcWeek_steps_first_days (year t) (day t) (calcDaynr (year t) 1 1)
        (calcDaysInYear (year t - 1)) (calcDaysInYear (year t)) diy2
        mondayFirst weekYear firstWeekday ltac:(lia) Hfd Hdiy1 E2) as Hs.
    cbv zeta in Hs.
    destruct (firstWeekday
              && negb (Z.rem (calcDaynr (year t) 1 1 + 5
                              + (if mondayFirst then 0 else 1)) 7 =? 0)
              || negb firstWeekday
                 && (Z.rem (calcDaynr (year t) 1 1 + 5
                            + (if mondayFirst then 0 else 1)) 7 >=? 4)).
    + destruct weekYear eqn:Ewy.
      * destruct (Hs 0) as (H1 & H2 & _).
        split; [exact H1|]. split; [exact H2|].
        intros t' Hy0 Hy' Hm' Hd'.
        assert (0 <= year t - 1 < 2 ^ 16) as Hyp by lia.
        rewrite (calcWeek_exact t' wb) by (rewrite ?Hy', ?Hm', ?Hd'; simpl; lia).
        rewrite Hy', Hm', Hd'.
        fold mondayFirst firstWeekday weekYear. rewrite Ewy.
        pose proof (calcDaynr_new_year (year t - 1) Hyp) as Hny.
        replace (year t - 1 + 1) with (year t) in Hny by lia.
        pose proof (calcDaynr_first_pos (year t - 1) Hyp) as Hfp.
        pose proof (calcDaynr_day_of_year (year t - 1) 12 31 Hyp
                      ltac:(lia) ltac:(simpl; lia)) as Hdec.
        change (12 <=? 2) with false in Hdec. cbv iota in Hdec.
        change (Z.quot (12 * 4 + 23) 10) with 7 in Hdec.
        assert (calcDaynr (year t - 1) 12 31 = calcDaynr (year t) 1 1 - 1)
          as -> by lia.
        assert (calcDaynr (year t - 1) 1 1
                = calcDaynr (year t) 1 1 - calcDaysInYear (year t - 1))
          as -> by lia.
        destruct (Hs (calcDaysInYear (year t - 1 - 1))) as (_ & _ & H3).
        apply H3. lia.
      * exact (Hs 0).
    + rewrite (Hs 0). cbn [fst snd]. lia.
  - rewrite andb_false_l.
    apply calcWeek_steps_later_days; try assumption; lia.
Qed.

(** C10. For a stored value with month >= 1 and day >= 1 and for every
    mode, [YearWeek] returns a week number of at least 1.  It calls
    [calcWeek] with the year-relative flag set, while [calcWeek] returns week
    0 only with that flag unset, under the test [before_first_week] of its
    early return.  [Week] returns 0 exactly under that test when the mode
    leaves the flag unset; [YearWeek] then - and only then - returns the
    previous year, with week 52 or 53: the week it gives the 31st of
    December of that year. *)
Theorem YearWeek_rolls_week_zero_back (t : mysqlTime) (mode : Z) :
  mysqlTime_wf t -> 1 <= month t -> 1 <= day t ->
  1 <= snd (YearWeek t mode)
  /\ test (Z.lor (weekMode mode) weekBehaviourYear) weekBehaviourYear = true
  /\ (forall wb : weekBehaviour,
        snd (calcWeek t wb) = 0 ->
        test wb weekBehaviourYear = false /\ before_first_week t wb = true)
  /\ (Week t mode = 0 <->
      before_first_week t (weekMode mode) = true /\ Z.testbit mode 1 = false)
  /\ (fst (YearWeek t mode) = year t - 1 <->
      before_first_week t (weekMode mode) = true)
  /\ (before_first_week t (weekMode mode) = true ->
      52 <= snd (YearWeek t mode) <= 53
      /\ forall t' : mysqlTime,
           mysqlTime_wf t' -> year t' = year t - 1 ->
           month t' = 12 -> day t' = 31 ->
           YearWeek t mode = YearWeek t' mode).
Proof.
  intros (Hy & Hm & Hd & _) Hm1 Hd1.
  unfold YearWeek, Week.
  rewrite nonzero_date_test by assumption.
  set (wb := Z.lor (weekMode mode) weekBehaviourYear).
  assert (before_first_week t wb = before_first_week t (weekMode mode)) as Eb.
  { unfold before_first_week, wb.
    destruct (test_lor_Year_other (weekMode mode)) as [-> ->]. reflexivity. }
  pose proof (calcWeek_first_week t wb Hy ltac:(lia) ltac:(lia)) as HY.
  pose proof (calcWeek_first_week t (weekMode mode) Hy ltac:(lia) ltac:(lia))
    as HW.
  rewrite Eb in HY. unfold wb in HY at 1. rewrite test_lor_Year in HY.
  destruct (weekMode_flags mode) as (_ & Hflag & _).
  rewrite Hflag in HW.
  assert (forall wb' : weekBehaviour,
            snd (calcWeek t wb') = 0 ->
            test wb' weekBehaviourYear = false
            /\ before_first_week t wb' = true) as Hzero.
  { intros wb' E.
    pose proof (calcWeek_first_week t wb' Hy ltac:(lia) ltac:(lia)) as H0.
    destruct (before_first_week t wb').
    - destruct (test wb' weekBehaviourYear); [lia|split; reflexivity].
    - lia. }
  destruct (before_first_week t (weekMode mode)).
  - destruct HY as (H1 & H2 & H3).
    split; [lia|]. split; [apply test_lor_Year|]. split; [exact Hzero|].
    split; [|split; [tauto|]].
    + destruct (Z.testbit mode 1).
      * destruct HW as (_ & HW & _). split; [lia|intros [_ F]; discriminate F].
      * rewrite HW. cbn [snd]. tauto.
    + intros _. split; [exact H2|].
      intros t' (Hy' & _) Ey Em Ed.
      rewrite nonzero_date_test by lia.
      apply H3; try assumption. lia.
  - destruct HY as (H1 & H2).
    split; [exact H2|]. split; [apply test_lor_Year|]. split; [exact Hzero|].
    split; [|split].
    + split; [|intros [F _]; discriminate F].
      destruct HW as (_ & HW). lia.
    + split; [lia|discriminate].
    + discriminate.
Qed.

Lemma YearWeek_rolls_week_zero_back_witness :
  YearWeek (newMysqlTime 2000 1 1 0 0 0 0) 0 = (1999, 52)
  /\ YearWeek (newMysqlTime 1999 12 31 0 0 0 0) 0 = (1999, 52)
  /\ Week (newMysqlTime 2000 1 1 0 0 0 0) 0 = 0.
Proof.
  pose (t := newMysqlTime 2000 1 1 0 0 0 0).
  pose (t' := newMysqlTime 1999 12 31 0 0 0 0).
  assert (1 <= month t) as Hm by (vm_compute; discriminate).
  assert (1 <= day t) as Hd by (vm_compute; discriminate).
  destruct (YearWeek_rolls_week_zero_back t 0
              (newMysqlTime_wf _ _ _ _ _ _ _) Hm Hd)
    as (_ & _ & _ & Hweek & _ & Hroll).
  assert (before_first_week t (weekMode 0) = true) as Hb
    by (vm_compute; reflexivity).
  destruct (Hroll Hb) as (_ & Hlast).
  assert (YearWeek t' 0 = (1999, 52)) as E by (vm_compute; reflexivity).
  split; [|split].
  - rewrite <- E.
    apply (Hlast t' (newMysqlTime_wf _ _ _ _ _ _ _));
      vm_compute; reflexivity.
  - exact E.
  - apply (proj2 Hweek). split; [exact Hb | reflexivity].
Defined.

(** ** Ranges of the week numbers *)

(** X8. For a stored date with month and day set, [Week] is never
    negative, and it is 0 only in the first seven days of January under a
    mode without bit 1. *)
Theorem Week_zero_only_first_week (t : mysqlTime) (mode : Z) :
  mysqlTime_wf t -> 1 <= month t -> 1 <= day t ->
  0 <= Week t mode
  /\ (Week t mode = 0 ->
      month t = 1 /\ day t <= 7 /\ Z.testbit mode 1 = false).
Proof.
  intros (Hy & Hm & Hd & _) Hm1 Hd1. unfold Week.
  rewrite nonzero_date_test by assumption.
  destruct (calcWeek_basic t (weekMode mode)) as (Hpos & Hz & _); try lia.
  destruct (weekMode_flags mode) as (_ & Hflag & _).
  rewrite Hflag in Hz. split; assumption.
Qed.

Lemma Week_zero_only_first_week_witness :
  Week (newMysqlTime 2000 1 1 0 0 0 0) 0 = 0
  /\ month (newMysqlTime 2000 1 1 0 0 0 0) = 1
  /\ day (newMysqlTime 2000 1 1 0 0 0 0) <= 7
  /\ Z.testbit 0 1 = false.
Proof.
  assert (Week (newMysqlTime 2000 1 1 0 0 0 0) 0 = 0) as E
    by (vm_compute; reflexivity).
  split; [exact E|].
  apply (Week_zero_only_first_week (newMysqlTime 2000 1 1 0 0 0 0) 0).
  - apply newMysqlTime_wf.
  - vm_compute; discriminate.
  - vm_compute; discriminate.
  - exact E.
Defined.

(** X9. For a valid date [Week] lies between 0 and 53, and between 1 and
    53 under a mode with bit 1 set. *)
Theorem Week_range (t : mysqlTime) (mode : Z) :
  valid_date (year t) (month t) (day t) ->
  0 <= Week t mode <= 53
  /\ (Z.testbit mode 1 = true -> 1 <= Week t mode).
Proof.
  intros V. unfold Week.
  destruct (valid_date_stored _ _ _ V) as (Hy & Hm & Hd).
  rewrite nonzero_date_test by lia.
  destruct (calcWeek_valid t (weekMode mode) V) as (Hle & _).
  destruct (calcWeek_basic t (weekMode mode) Hy Hm Hd) as (Hpos & Hz & _).
  destruct (weekMode_flags mode) as (_ & Hflag & _).
  rewrite Hflag in Hz.
  split; [lia|]. intros Hbit.
  destruct (Z.eq_dec (snd (calcWeek t (weekMode mode))) 0) as [E|E]; [|lia].
  destruct (Hz E) as (_ & _ & Hf). congruence.
Qed.

Lemma Week_range_witness :
  0 <= Week (newMysqlTime 2020 12 31 0 0 0 0) 0 <= 53
  /\ Week (newMysqlTime 2020 12 31 0 0 0 0) 0 = 52.
Proof.
  split; [|vm_compute; reflexivity].
  apply (Week_range (newMysqlTime 2020 12 31 0 0 0 0) 0).
  unfold valid_date; vm_compute; intuition discriminate.
Defined.

(** X10. For a valid date [YearWeek] returns a week between 1 and 53 and
    a year within one of the date's year: the previous year only for a date
    in January, then with week 52 or 53, and the next year only for a date
    in December, then with week 1. *)
Theorem YearWeek_range (t : mysqlTime) (mode : Z) :
  valid_date (year t) (month t) (day t) ->
  1 <= snd (YearWeek t mode) <= 53
  /\ year t - 1 <= fst (YearWeek t mode) <= year t + 1
  /\ (fst (YearWeek t mode) = year t - 1 ->
      month t = 1 /\ 52 <= snd (YearWeek t mode))
  /\ (fst (YearWeek t mode) = year t + 1 ->
      month t = 12 /\ snd (YearWeek t mode) = 1).
Proof.
  intros V. unfold YearWeek.
  destruct (valid_date_stored _ _ _ V) as (Hy & Hm & Hd).
  rewrite nonzero_date_test by lia.
  set (wb := Z.lor (weekMode mode) weekBehaviourYear).
  destruct (calcWeek_valid t wb V) as (Hle & Hyr & Hprev & Hnext).
  destruct (calcWeek_basic t wb Hy Hm Hd) as (Hpos & Hz & _).
  assert (snd (calcWeek t wb) <> 0) as Hnz.
  { intros E. destruct (Hz E) as (_ & _ & Hf).
    subst wb. rewrite test_lor_Year in Hf. discriminate Hf. }
  split; [lia|]. split; [exact Hyr|]. split; assumption.
Qed.

Lemma YearWeek_range_witness :
  YearWeek (newMysqlTime 2018 12 31 0 0 0 0) 3 = (2019, 1)
  /\ month (newMysqlTime 2018 12 31 0 0 0 0) = 12.
Proof.
  assert (YearWeek (newMysqlTime 2018 12 31 0 0 0 0) 3 = (2019, 1)) as E
    by (vm_compute; reflexivity).
  split; [exact E|].
  apply (YearWeek_range (newMysqlTime 2018 12 31 0 0 0 0) 3).
  - unfold valid_date; vm_compute; intuition discriminate.
  - rewrite E. reflexivity.
Defined.

(** X11. Under a mode without bit 1, the year [calcWeek] computes for a
    stored date with month and day set is the date's own year: the week
    number [Week] returns is relative to that year. *)
Theorem calcWeek_year_without_flag (t : mysqlTime) (mode : Z) :
  mysqlTime_wf t -> 1 <= month t -> 1 <= day t ->
  Z.testbit mode 1 = false ->
  fst (calcWeek t (weekMode mode)) = year t.
Proof.
  intros (Hy & Hm & Hd & _) Hm1 Hd1 Hbit.
  destruct (calcWeek_basic t (weekMode mode)) as (_ & _ & Hyr); try lia.
  apply Hyr.
  destruct (weekMode_flags mode) as (_ & Hflag & _).
  rewrite Hflag. exact Hbit.
Qed.

Lemma calcWeek_year_without_flag_witness :
  fst (calcWeek (newMysqlTime 2018 12 31 0 0 0 0) (weekMode 1)) = 2018.
Proof.
  apply (calcWeek_year_without_flag (newMysqlTime 2018 12 31 0 0 0 0) 1).
  - apply newMysqlTime_wf.
  - vm_compute; discriminate.
  - vm_compute; discriminate.
  - reflexivity.
Defined.

(** ** Times of day from seconds *)

Lemma calcTimeFromSec_fields (to : mysqlTime) (seconds microseconds : Z) :
  - 2 ^ 63 <= seconds < 2 ^ 63 ->
  let r := calcTimeFromSec to seconds microseconds in
  hour r = Z.quot seconds 3600 mod 256
  /\ minute r = Z.quot (Z.rem seconds 3600) 60 mod 256
  /\ second r = Z.rem (Z.rem seconds 3600) 60 mod 256
  /\ microsecond r = microseconds mod 2 ^ 32
  /\ year r = year to /\ month r = month to /\ day r = day to.
Proof.
  intros Hs. cbv zeta. unfold calcTimeFromSec, GoInt.uwrap.
  cbn [year month day hour minute second microsecond].
  change (2 ^ 8) with 256.
  unwrap. repeat split.
Qed.

(** X12. For seconds that are not negative, [calcTimeFromSec] splits them
    into hours, minutes below 60 and seconds below 60; the hour is stored in
    8 bits, so the three fields add up to the seconds modulo 256 hours
    (921600 seconds).  The microseconds are reduced to 32 bits and the date
    fields are left as they were. *)
Theorem calcTimeFromSec_splits_seconds (to : mysqlTime)
  (seconds microseconds : Z) :
  0 <= seconds <= 2 ^ 40 ->
  let r := calcTimeFromSec to seconds microseconds in
  hour r * 3600 + minute r * 60 + second r = seconds mod 921600
  /\ 0 <= hour r <= 255 /\ 0 <= minute r <= 59 /\ 0 <= second r <= 59
  /\ microsecond r = microseconds mod 2 ^ 32
  /\ (year r, month r, day r) = (year to, month to, day to).
Proof.
  intros Hs. cbv zeta.
  destruct (calcTimeFromSec_fields to seconds microseconds)
    as (Hh & Hm & Hsec & Hus & Hy & Hmo & Hd); [lia|].
  rewrite Hh, Hm, Hsec, Hus, Hy, Hmo, Hd.
  repeat split; lia.
Qed.

Lemma calcTimeFromSec_splits_seconds_witness :
  let r := calcTimeFromSec (newMysqlTime 2016 2 29 0 0 0 0) 86399 123456 in
  hour r * 3600 + minute r * 60 + second r = 86399
  /\ (hour r, minute r, second r, microsecond r) = (23, 59, 59, 123456).
Proof.
  cbv zeta.
  destruct (calcTimeFromSec_splits_seconds (newMysqlTime 2016 2 29 0 0 0 0)
              86399 123456) as (H & _); [simpl; lia|].
  split; [exact H | vm_compute; reflexivity].
Defined.

(** X13. For negative seconds [calcTimeFromSec] does not give a time of
    day: the truncating remainder is negative and its 8-bit conversion puts
    the second (or, for whole minutes, the minute) between 197 and 255. *)
Theorem calcTimeFromSec_negative_seconds (to : mysqlTime)
  (seconds microseconds : Z) :
  - 2 ^ 63 <= seconds < 0 ->
  let r := calcTimeFromSec to seconds microseconds in
  (Z.rem seconds 60 <> 0 -> 197 <= second r <= 255)
  /\ (Z.rem seconds 60 = 0 -> Z.rem seconds 3600 <> 0 ->
      second r = 0 /\ 197 <= minute r <= 255).
Proof.
  intros Hs. cbv zeta.
  destruct (calcTimeFromSec_fields to seconds microseconds)
    as (Hh & Hm & Hsec & _); [lia|].
  rewrite Hm, Hsec. split; intros; lia.
Qed.

Lemma calcTimeFromSec_negative_seconds_witness :
  second (calcTimeFromSec (newMysqlTime 0 0 0 0 0 0 0) (-1) 0) = 255.
Proof.
  destruct (calcTimeFromSec_negative_seconds (newMysqlTime 0 0 0 0 0 0 0)
              (-1) 0) as (H & _); [simpl; lia|].
  assert (197 <= second (calcTimeFromSec (newMysqlTime 0 0 0 0 0 0 0) (-1) 0)
          <= 255) as Hr by (apply H; vm_compute; discriminate).
  vm_compute. reflexivity.
Defined.

Lemma calcTimeFromSec_wf (to : mysqlTime) (seconds microseconds : Z) :
  mysqlTime_wf to -> mysqlTime_wf (calcTimeFromSec to seconds microseconds).
Proof.
  intros (Hy & Hm & Hd & _).
  unfold mysqlTime_wf, calcTimeFromSec, GoInt.uwrap.
  cbn [year month day hour minute second microsecond].
  repeat split; try lia; apply Z.mod_pos_bound; reflexivity.
Qed.

(** ** The value of a difference *)

Lemma instant_us_bounds (t : mysqlTime) :
  mysqlTime_wf t -> 0 <= instant_us t <= 2 ^ 62 - 2 ^ 33.
Proof.
  intros (Hy & Hm & Hd & Hh & Hmi & Hs & Hu).
  unfold instant_us.
  cbn [Year Month Day Hour Minute Second Microsecond mysqlTime_TimeInternal].
  pose proof (calcDaynr_bounds _ _ _ Hy Hm Hd) as B.
  generalize dependent (calcDaynr (year t) (month t) (day t)).
  intros; lia.
Qed.

Lemma calcTimeDiff_tmp_exact (a b : mysqlTime) (sign : Z) :
  mysqlTime_wf a -> mysqlTime_wf b -> sign = 1 \/ sign = -1 ->
  calcTimeDiff_tmp a b sign = instant_us a - sign * instant_us b.
Proof.
  intros Ha Hb Hsign.
  pose proof (instant_us_bounds a Ha) as Ba.
  pose proof (instant_us_bounds b Hb) as Bb.
  destruct Ha as (Hy1 & Hm1 & Hd1 & Hh1 & Hmi1 & Hs1 & Hu1).
  destruct Hb as (Hy2 & Hm2 & Hd2 & Hh2 & Hmi2 & Hs2 & Hu2).
  unfold calcTimeDiff_tmp, instant_us, SECONDS_IN_24H in *.
  cbn [Year Month Day Hour Minute Second Microsecond mysqlTime_TimeInternal]
    in *.
  pose proof (calcDaynr_bounds _ _ _ Hy1 Hm1 Hd1) as B1.
  pose proof (calcDaynr_bounds _ _ _ Hy2 Hm2 Hd2) as B2.
  generalize dependent (calcDaynr (year a) (month a) (day a)).
  generalize dependent (calcDaynr (year b) (month b) (day b)).
  intros d2 B2 Bb d1 Ba B1.
  destruct Hsign as [-> | ->]; unwrap; lia.
Qed.

Lemma calcTimeDiff_of_tmp {T : Type} `{TimeInternal T} (a b : T) (sign x : Z) :
  calcTimeDiff_tmp a b sign = x ->
  - 2 ^ 63 < x < 2 ^ 63 ->
  calcTimeDiff a b sign
  = (Z.abs x / 1000000, Z.abs x mod 1000000, x <? 0).
Proof.
  intros E Hx. rewrite calcTimeDiff_split. cbv zeta. rewrite E.
  destruct (Z.ltb_spec x 0).
  - rewrite neg_small by lia.
    destruct (quot_rem_small (- x)) as [-> ->]; [lia|].
    rewrite Z.abs_neq by lia.
    rewrite Z.quot_div_nonneg, Z.rem_mod_nonneg by lia. reflexivity.
  - destruct (quot_rem_small x) as [-> ->]; [lia|].
    rewrite Z.abs_eq by lia.
    rewrite Z.quot_div_nonneg, Z.rem_mod_nonneg by lia. reflexivity.
Qed.

(** X14. Between two stored values [calcTimeDiff] is exact: with [sign] = 1
    it returns the absolute difference of the two microsecond counts, split
    at 10^6, with the flag set exactly when the first value is the smaller;
    with [sign] = -1 it returns their sum with the flag unset.  Nothing
    wraps around. *)
Theorem calcTimeDiff_value (a b : mysqlTime) :
  mysqlTime_wf a -> mysqlTime_wf b ->
  let diff := instant_us a - instant_us b in
  let sum := instant_us a + instant_us b in
  calcTimeDiff a b 1
  = (Z.abs diff / 1000000, Z.abs diff mod 1000000, diff <? 0)
  /\ calcTimeDiff a b (-1) = (sum / 1000000, sum mod 1000000, false).
Proof.
  intros Ha Hb. cbv zeta.
  pose proof (instant_us_bounds a Ha) as Ba.
  pose proof (instant_us_bounds b Hb) as Bb.
  split.
  - apply calcTimeDiff_of_tmp.
    + rewrite calcTimeDiff_tmp_exact by auto. lia.
    + lia.
  - rewrite (calcTimeDiff_of_tmp a b (-1) (instant_us a + instant_us b)).
    + rewrite Z.abs_eq by lia.
      replace (instant_us a + instant_us b <? 0) with false by lia.
      reflexivity.
    + rewrite calcTimeDiff_tmp_exact by auto. lia.
    + lia.
Qed.

Lemma calcTimeDiff_value_witness :
  calcTimeDiff (newMysqlTime 2016 2 28 23 59 59 999999)
               (newMysqlTime 2016 3 1 0 0 0 5) 1 = (86400, 6, true)
  /\ instant_us (newMysqlTime 2016 2 28 23 59 59 999999)
     - instant_us (newMysqlTime 2016 3 1 0 0 0 5) = - 86400000006.
Proof.
  destruct (calcTimeDiff_value (newMysqlTime 2016 2 28 23 59 59 999999)
              (newMysqlTime 2016 3 1 0 0 0 5)) as (H & _);
    try apply newMysqlTime_wf.
  split; [|vm_compute; reflexivity].
  rewrite H. vm_compute. reflexivity.
Defined.

(** ** Comparing timestamps *)

Lemma in_calendar_wf (t : mysqlTime) : in_calendar t -> mysqlTime_wf t.
Proof.
  intros (V & Hh & Hm & Hs & Hu).
  destruct (valid_date_stored _ _ _ V) as (Hy & Hmo & Hd).
  unfold mysqlTime_wf. change (2 ^ 8) with 256. change (2 ^ 32) with 4294967296.
  lia.
Qed.

Lemma in_calendar_declared (t : mysqlTime) :
  in_calendar t -> 0 <= year t < 2 ^ 16 /\ 1 <= month t <= 12
  /\ 1 <= day t <= 31.
Proof.
  intros ((Hy & Hmo & Hd) & _).
  pose proof (days_in_month_bounds (year t) (month t)). lia.
Qed.

Lemma datetimeToUint64_stored (t : mysqlTime) :
  mysqlTime_wf t ->
  datetimeToUint64 t =
  (year t * 10000 + month t * 100 + day t) * 1000000
  + (hour t * 10000 + minute t * 100 + second t).
Proof.
  intros (Hy & Hm & Hd & Hh & Hmi & Hs & _).
  unfold datetimeToUint64, GoInt.uadd, GoInt.umul.
  cbn [Year Month Day Hour Minute Second mysqlTime_TimeInternal].
  unwrap.
  repeat match goal with
         | |- context [GoInt.uwrap 64 ?x] =>
             lazymatch x with
             | context [GoInt.uwrap _ _] => fail
             | _ => rewrite (uwrap_small 64 x)
                 by (change (2 ^ 64) with 18446744073709551616; lia)
             end
         end.
  reflexivity.
Qed.

(** Between two moments of the calendar of [valid_date], [calcTimeDiff]
    with [sign] = 1 returns (0, 0, false) only when the two values are equal
    in every field. *)
Lemma calcTimeDiff_zero_in_calendar (a b : mysqlTime) :
  in_calendar a -> in_calendar b ->
  (calcTimeDiff a b 1 = (0, 0, false) <-> a = b).
Proof.
  intros Ca Cb.
  pose proof (in_calendar_wf a Ca) as Wa.
  pose proof (in_calendar_wf b Cb) as Wb.
  pose proof (instant_us_bounds a Wa) as Ba.
  pose proof (instant_us_bounds b Wb) as Bb.
  rewrite (calcTimeDiff_of_tmp a b 1 (instant_us a - instant_us b))
    by (try rewrite calcTimeDiff_tmp_exact by auto; lia).
  split.
  - intros E. injection E as E1 E2 E3.
    assert (instant_us a = instant_us b) as Ei by lia.
    clear E1 E2 E3 Ba Bb Wa Wb.
    destruct Ca as (Va & Ha & Mia & Sa & Ua), Cb as (Vb & Hb & Mib & Sb & Ub).
    destruct (calcDaynr_compare _ _ _ _ _ _ Va Vb) as (_ & Heq).
    unfold instant_us in Ei.
    cbn [Year Month Day Hour Minute Second Microsecond mysqlTime_TimeInternal]
      in Ei.
    destruct a as [y1 m1 d1 h1 mi1 s1 u1], b as [y2 m2 d2 h2 mi2 s2 u2].
    cbn [year month day hour minute second microsecond] in *.
    set (dn1 := calcDaynr y1 m1 d1) in *.
    set (dn2 := calcDaynr y2 m2 d2) in *.
    clearbody dn1 dn2.
    assert (dn1 = dn2) as Edn by lia.
    destruct (proj1 Heq Edn) as (-> & -> & ->).
    f_equal; lia.
  - intros ->. rewrite Z.sub_diag. reflexivity.
Qed.

(** Between two moments of the calendar of [valid_date], the negative flag
    of [calcTimeDiff] with [sign] = 1 is the order of the encodings. *)
Lemma calcTimeDiff_flag_in_calendar (a b : mysqlTime) :
  in_calendar a -> in_calendar b ->
  (snd (calcTimeDiff a b 1) = true
   <-> datetimeToUint64 a < datetimeToUint64 b
       \/ (datetimeToUint64 a = datetimeToUint64 b
           /\ microsecond a < microsecond b)).
Proof.
  intros Ca Cb.
  pose proof (in_calendar_wf a Ca) as Wa.
  pose proof (in_calendar_wf b Cb) as Wb.
  pose proof (instant_us_bounds a Wa) as Ba.
  pose proof (instant_us_bounds b Wb) as Bb.
  rewrite (calcTimeDiff_of_tmp a b 1 (instant_us a - instant_us b))
    by (try rewrite calcTimeDiff_tmp_exact by auto; lia).
  cbn [snd].
  rewrite !datetimeToUint64_stored by assumption.
  rewrite Z.ltb_lt.
  clear Ba Bb Wa Wb.
  pose proof (in_calendar_declared a Ca) as (Ya & Moa & Da).
  pose proof (in_calendar_declared b Cb) as (Yb & Mob & Db).
  destruct Ca as (Va & Ha & Mia & Sa & Ua), Cb as (Vb & Hb & Mib & Sb & Ub).
  destruct (calcDaynr_compare _ _ _ _ _ _ Va Vb) as (Hlt & Heq).
  unfold date_lt in Hlt. clear Va Vb.
  unfold instant_us.
  cbn [Year Month Day Hour Minute Second Microsecond mysqlTime_TimeInternal].
  destruct a as [y1 m1 d1 h1 mi1 s1 u1], b as [y2 m2 d2 h2 mi2 s2 u2].
  cbn [year month day hour minute second microsecond] in *.
  set (dn1 := calcDaynr y1 m1 d1) in *.
  set (dn2 := calcDaynr y2 m2 d2) in *.
  clearbody dn1 dn2.
  destruct (Z.lt_trichotomy dn1 dn2) as [L|[E|G]].
  - pose proof (proj1 Hlt L) as Hd. split; intros; lia.
  - pose proof (proj1 Heq E) as (-> & -> & ->). clear Hlt Heq.
    split; intros; lia.
  - assert (~ dn1 < dn2) as N1 by lia. assert (dn1 <> dn2) as N2 by lia.
    rewrite Hlt in N1. rewrite Heq in N2. clear Hlt Heq.
    split; intros; lia.
Qed.

(** ** Comparing timestamps of the Gregorian calendar *)

Lemma on_leap_day_of_year_zero_iff (t : mysqlTime) :
  on_leap_day_of_year_zero t = true
  <-> year t = 0 /\ month t = 2 /\ day t = 29.
Proof. unfold on_leap_day_of_year_zero. lia. Qed.

Lemma in_gregorian_calendar_wf (t : mysqlTime) :
  in_gregorian_calendar t -> mysqlTime_wf t.
Proof.
  intros (G & Hh & Hm & Hs & Hu).
  apply gregorian_date_cases in G as [V|(Ey & Em & Ed)].
  - apply in_calendar_wf. unfold in_calendar. auto.
  - unfold mysqlTime_wf. rewrite Ey, Em, Ed.
    change (2 ^ 8) with 256. change (2 ^ 32) with 4294967296.
    change (2 ^ 16) with 65536. lia.
Qed.

Lemma leap_day_moved_in_calendar (t : mysqlTime) :
  in_gregorian_calendar t -> in_calendar (leap_day_of_year_zero_moved t).
Proof.
  intros (G & Hh & Hm & Hs & Hu).
  unfold leap_day_of_year_zero_moved.
  destruct (on_leap_day_of_year_zero t) eqn:E.
  - unfold in_calendar, valid_date.
    cbn [year month day hour minute second microsecond].
    change (days_in_month 0 3) with 31. change (2 ^ 16) with 65536. lia.
  - apply gregorian_date_cases in G as [V|L].
    + unfold in_calendar. auto.
    + apply on_leap_day_of_year_zero_iff in L. congruence.
Qed.

Lemma leap_day_moved_instant (t : mysqlTime) :
  instant_us (leap_day_of_year_zero_moved t) = instant_us t.
Proof.
  unfold leap_day_of_year_zero_moved.
  destruct (on_leap_day_of_year_zero t) eqn:E; [|reflexivity].
  apply on_leap_day_of_year_zero_iff in E as (Ey & Em & Ed).
  unfold instant_us.
  cbn [Year Month Day Hour Minute Second Microsecond mysqlTime_TimeInternal
       year month day hour minute second microsecond].
  rewrite Ey, Em, Ed. reflexivity.
Qed.

(** [calcTimeDiff] does not tell the 29th of February of year 0 from the
    1st of March. *)
Lemma calcTimeDiff_leap_day_moved (a b : mysqlTime) :
  in_gregorian_calendar a -> in_gregorian_calendar b ->
  calcTimeDiff a b 1
  = calcTimeDiff (leap_day_of_year_zero_moved a)
                 (leap_day_of_year_zero_moved b) 1.
Proof.
  intros Ga Gb.
  pose proof (in_gregorian_calendar_wf a Ga) as Wa.
  pose proof (in_gregorian_calendar_wf b Gb) as Wb.
  pose proof (in_calendar_wf _ (leap_day_moved_in_calendar a Ga)) as Wa'.
  pose proof (in_calendar_wf _ (leap_day_moved_in_calendar b Gb)) as Wb'.
  pose proof (instant_us_bounds a Wa) as Ba.
  pose proof (instant_us_bounds b Wb) as Bb.
  rewrite (calcTimeDiff_of_tmp a b 1 (instant_us a - instant_us b))
    by (try rewrite calcTimeDiff_tmp_exact by auto; lia).
  rewrite (calcTimeDiff_of_tmp _ _ 1 (instant_us a - instant_us b)).
  - reflexivity.
  - rewrite calcTimeDiff_tmp_exact by auto.
    rewrite !leap_day_moved_instant. lia.
  - lia.
Qed.

Lemma leap_day_not_moved (t : mysqlTime) :
  (year t, month t, day t) <> (0, 2, 29) -> leap_day_of_year_zero_moved t = t.
Proof.
  intros Hne. unfold leap_day_of_year_zero_moved.
  destruct (on_leap_day_of_year_zero t) eqn:E; [|reflexivity].
  apply on_leap_day_of_year_zero_iff in E as (Ey & Em & Ed).
  congruence.
Qed.

(** X15. Between two moments of the proleptic Gregorian calendar
    [calcTimeDiff] with [sign] = 1 returns (0, 0, false) exactly when the two
    values are equal in every field once a 29th of February of year 0 is
    read as the 1st of March, whose day number [calcDaynr] gives it: for
    values of any other date, exactly when they are equal. *)
Theorem calcTimeDiff_zero_iff_equal (a b : mysqlTime) :
  in_gregorian_calendar a -> in_gregorian_calendar b ->
  (calcTimeDiff a b 1 = (0, 0, false)
   <-> leap_day_of_year_zero_moved a = leap_day_of_year_zero_moved b)
  /\ ((year a, month a, day a) <> (0, 2, 29) ->
      (year b, month b, day b) <> (0, 2, 29) ->
      (calcTimeDiff a b 1 = (0, 0, false) <-> a = b)).
Proof.
  intros Ga Gb.
  assert (calcTimeDiff a b 1 = (0, 0, false)
          <-> leap_day_of_year_zero_moved a = leap_day_of_year_zero_moved b)
    as Hiff.
  { rewrite (calcTimeDiff_leap_day_moved a b Ga Gb).
    apply calcTimeDiff_zero_in_calendar; apply leap_day_moved_in_calendar;
      assumption. }
  split; [exact Hiff|].
  intros Ha Hb. rewrite Hiff.
  rewrite (leap_day_not_moved a Ha), (leap_day_not_moved b Hb). reflexivity.
Qed.

Lemma calcTimeDiff_zero_iff_equal_witness :
  calcTimeDiff (newMysqlTime 0 2 29 12 0 0 0)
               (newMysqlTime 0 3 1 12 0 0 0) 1 = (0, 0, false)
  /\ newMysqlTime 0 2 29 12 0 0 0 <> newMysqlTime 0 3 1 12 0 0 0
  /\ calcTimeDiff (newMysqlTime 2016 2 29 12 0 0 0)
                  (newMysqlTime 2016 2 29 12 0 0 0) 1 = (0, 0, false).
Proof.
  assert (in_gregorian_calendar (newMysqlTime 0 2 29 12 0 0 0)) as Ga
    by (unfold in_gregorian_calendar, gregorian_date; vm_compute;
        intuition discriminate).
  assert (in_gregorian_calendar (newMysqlTime 0 3 1 12 0 0 0)) as Gb
    by (unfold in_gregorian_calendar, gregorian_date; vm_compute;
        intuition discriminate).
  assert (in_gregorian_calendar (newMysqlTime 2016 2 29 12 0 0 0)) as Gc
    by (unfold in_gregorian_calendar, gregorian_date; vm_compute;
        intuition discriminate).
  split; [|split].
  - apply (proj2 (proj1 (calcTimeDiff_zero_iff_equal _ _ Ga Gb))).
    vm_compute. reflexivity.
  - vm_compute. discriminate.
  - apply (proj2 (proj1 (calcTimeDiff_zero_iff_equal _ _ Gc Gc))).
    reflexivity.
Defined.

(** X16. Between two moments of the proleptic Gregorian calendar, the
    negative flag of [calcTimeDiff] with [sign] = 1 is the order of the
    encodings, a 29th of February of year 0 being read as the 1st of March:
    it is set exactly when [datetimeToUint64] of the first value is smaller,
    or equal with a smaller microsecond.  For values of any other date these
    are the encodings of the values themselves. *)
Theorem calcTimeDiff_sign_is_encoding_order (a b : mysqlTime) :
  in_gregorian_calendar a -> in_gregorian_calendar b ->
  let a' := leap_day_of_year_zero_moved a in
  let b' := leap_day_of_year_zero_moved b in
  (snd (calcTimeDiff a b 1) = true
   <-> datetimeToUint64 a' < datetimeToUint64 b'
       \/ (datetimeToUint64 a' = datetimeToUint64 b'
           /\ microsecond a' < microsecond b'))
  /\ ((year a, month a, day a) <> (0, 2, 29) ->
      (year b, month b, day b) <> (0, 2, 29) ->
      (snd (calcTimeDiff a b 1) = true
       <-> datetimeToUint64 a < datetimeToUint64 b
           \/ (datetimeToUint64 a = datetimeToUint64 b
               /\ microsecond a < microsecond b))).
Proof.
  intros Ga Gb. cbv zeta.
  assert (snd (calcTimeDiff a b 1) = true
   <-> datetimeToUint64 (leap_day_of_year_zero_moved a)
       < datetimeToUint64 (leap_day_of_year_zero_moved b)
       \/ (datetimeToUint64 (leap_day_of_year_zero_moved a)
           = datetimeToUint64 (leap_day_of_year_zero_moved b)
           /\ microsecond (leap_day_of_year_zero_moved a)
              < microsecond (leap_day_of_year_zero_moved b))) as Hiff.
  { rewrite (calcTimeDiff_leap_day_moved a b Ga Gb).
    apply calcTimeDiff_flag_in_calendar; apply leap_day_moved_in_calendar;
      assumption. }
  split; [exact Hiff|].
  intros Ha Hb. rewrite Hiff.
  rewrite (leap_day_not_moved a Ha), (leap_day_not_moved b Hb). reflexivity.
Qed.

Lemma calcTimeDiff_sign_is_encoding_order_witness :
  snd (calcTimeDiff (newMysqlTime 2016 2 29 23 59 59 5)
                    (newMysqlTime 2016 3 1 0 0 0 0) 1) = true
  /\ snd (calcTimeDiff (newMysqlTime 0 2 29 23 59 59 5)
                       (newMysqlTime 0 3 1 0 0 0 0) 1) = false
  /\ datetimeToUint64 (newMysqlTime 0 2 29 23 59 59 5)
     < datetimeToUint64 (newMysqlTime 0 3 1 0 0 0 0).
Proof.
  assert (in_gregorian_calendar (newMysqlTime 2016 2 29 23 59 59 5)) as Ga
    by (unfold in_gregorian_calendar, gregorian_date; vm_compute;
        intuition discriminate).
  assert (in_gregorian_calendar (newMysqlTime 2016 3 1 0 0 0 0)) as Gb
    by (unfold in_gregorian_calendar, gregorian_date; vm_compute;
        intuition discriminate).
  assert (in_gregorian_calendar (newMysqlTime 0 2 29 23 59 59 5)) as Gc
    by (unfold in_gregorian_calendar, gregorian_date; vm_compute;
        intuition discriminate).
  assert (in_gregorian_calendar (newMysqlTime 0 3 1 0 0 0 0)) as Gd
    by (unfold in_gregorian_calendar, gregorian_date; vm_compute;
        intuition discriminate).
  split; [|split].
  - apply (proj2 (proj1 (calcTimeDiff_sign_is_encoding_order _ _ Ga Gb))).
    left. vm_compute. reflexivity.
  - apply not_true_is_false. intros F.
    apply (proj1 (proj1 (calcTimeDiff_sign_is_encoding_order _ _ Gc Gd))) in F.
    vm_compute in F. destruct F as [F|[_ F]]; discriminate F.
  - vm_compute. reflexivity.
Defined.

(** ** Date and time encodings *)

Ltac unwrap_unsigned :=
  repeat match goal with
         | |- context [GoInt.uwrap 64 ?x] =>
             lazymatch x with
             | context [GoInt.uwrap _ _] => fail
             | _ => rewrite (uwrap_small 64 x)
                 by (change (2 ^ 64) with 18446744073709551616; lia)
             end
         end.

Section MoreEncodings.

Context {T : Type} `{TimeInternal T}.

Lemma dateToUint64_exact (t : T) :
  0 <= Year t < 2 ^ 40 -> 0 <= Month t < 2 ^ 40 -> 0 <= Day t < 2 ^ 40 ->
  dateToUint64 t = Year t * 10000 + Month t * 100 + Day t.
Proof.
  intros Hy Hm Hd.
  unfold dateToUint64, GoInt.uadd, GoInt.umul.
  unwrap_unsigned. reflexivity.
Qed.

Lemma timeToUint64_exact (t : T) :
  0 <= Hour t < 2 ^ 40 -> 0 <= Minute t < 2 ^ 40 -> 0 <= Second t < 2 ^ 40 ->
  timeToUint64 t = Hour t * 10000 + Minute t * 100 + Second t.
Proof.
  intros Hy Hm Hd.
  unfold timeToUint64, GoInt.uadd, GoInt.umul.
  unwrap_unsigned. reflexivity.
Qed.

(** X17. Within the declared ranges, [dateToUint64] and [timeToUint64]
    decode by place value into year, month, day and hour, minute, second,
    and [datetimeToUint64] is the date encoding times 10^6 plus the time
    encoding. *)
Theorem date_and_time_encodings (t : T) :
  in_declared_ranges t ->
  let date := dateToUint64 t in
  let time := timeToUint64 t in
  (date / 10000, (date / 100) mod 100, date mod 100)
  = (Year t, Month t, Day t)
  /\ (time / 10000, (time / 100) mod 100, time mod 100)
     = (Hour t, Minute t, Second t)
  /\ datetimeToUint64 t = date * 1000000 + time
  /\ 0 <= date <= 99991231 /\ 0 <= time <= 235959.
Proof.
  intros Hr. cbv zeta.
  rewrite (datetimeToUint64_exact t Hr).
  destruct Hr as (Hy & Hm & Hd & Hh & Hmi & Hs).
  rewrite dateToUint64_exact, timeToUint64_exact by lia.
  split; [repeat f_equal; lia|].
  split; [repeat f_equal; lia|].
  split; [reflexivity | lia].
Qed.

(** X18. Within the declared ranges, [datetimeToUint64] orders values as
    their fields do, the year first, and equal encodings have equal
    fields. *)
Theorem datetimeToUint64_orders_fields (a b : T) :
  in_declared_ranges a -> in_declared_ranges b ->
  (datetimeToUint64 a < datetimeToUint64 b <-> datetime_fields_lt a b)
  /\ (datetimeToUint64 a = datetimeToUint64 b ->
      Year a = Year b /\ Month a = Month b /\ Day a = Day b
      /\ Hour a = Hour b /\ Minute a = Minute b /\ Second a = Second b).
Proof.
  intros Ha Hb.
  rewrite (datetimeToUint64_exact a Ha), (datetimeToUint64_exact b Hb).
  destruct Ha as (Hy1 & Hm1 & Hd1 & Hh1 & Hmi1 & Hs1).
  destruct Hb as (Hy2 & Hm2 & Hd2 & Hh2 & Hmi2 & Hs2).
  unfold datetime_fields_lt.
  split; [split; intros; lia | intros; lia].
Qed.

End MoreEncodings.

Lemma date_and_time_encodings_witness :
  dateToUint64 (newMysqlTime 2016 2 29 13 14 15 0) = 20160229
  /\ timeToUint64 (newMysqlTime 2016 2 29 13 14 15 0) = 131415
  /\ datetimeToUint64 (newMysqlTime 2016 2 29 13 14 15 0)
     = 20160229 * 1000000 + 131415.
Proof.
  destruct (date_and_time_encodings (newMysqlTime 2016 2 29 13 14 15 0))
    as (_ & _ & Hc & _).
  - unfold in_declared_ranges. vm_compute. intuition discriminate.
  - split; [vm_compute; reflexivity|]. split; [vm_compute; reflexivity|].
    rewrite Hc. vm_compute. reflexivity.
Defined.

Lemma datetimeToUint64_orders_fields_witness :
  datetimeToUint64 (newMysqlTime 2016 2 29 23 59 59 0)
  < datetimeToUint64 (newMysqlTime 2016 3 1 0 0 0 0).
Proof.
  assert (in_declared_ranges (newMysqlTime 2016 2 29 23 59 59 0)) as Ra
    by (unfold in_declared_ranges; vm_compute; intuition discriminate).
  assert (in_declared_ranges (newMysqlTime 2016 3 1 0 0 0 0)) as Rb
    by (unfold in_declared_ranges; vm_compute; intuition discriminate).
  apply (proj2 (proj1 (datetimeToUint64_orders_fields _ _ Ra Rb))).
  right. split; [reflexivity|]. left. vm_compute. reflexivity.
Defined.

(** X19. For every stored value, also outside the declared ranges, the
    three encodings are the exact sums of their fields times the powers of
    ten: neither the [int] nor the [uint64] arithmetic wraps around. *)
Theorem encodings_never_wrap (t : mysqlTime) :
  mysqlTime_wf t ->
  dateToUint64 t = year t * 10000 + month t * 100 + day t
  /\ timeToUint64 t = hour t * 10000 + minute t * 100 + second t
  /\ datetimeToUint64 t
     = (year t * 10000 + month t * 100 + day t) * 1000000
       + (hour t * 10000 + minute t * 100 + second t)
  /\ datetimeToUint64 t < 2 ^ 50.
Proof.
  intros Hwf.
  rewrite (datetimeToUint64_stored t Hwf).
  destruct Hwf as (Hy & Hm & Hd & Hh & Hmi & Hs & _).
  rewrite dateToUint64_exact, timeToUint64_exact
    by (cbn [Year Month Day Hour Minute Second mysqlTime_TimeInternal]; lia).
  cbn [Year Month Day Hour Minute Second mysqlTime_TimeInternal].
  repeat split; lia.
Qed.

Lemma encodings_never_wrap_witness :
  datetimeToUint64 (newMysqlTime 65535 255 255 255 255 255 0)
  = 655375755000000 + 2575755.
Proof.
  destruct (encodings_never_wrap (newMysqlTime 65535 255 255 255 255 255 0))
    as (_ & _ & H & _); [apply newMysqlTime_wf|].
  rewrite H. vm_compute. reflexivity.
Defined.

(** ** Construction from the accessors *)

(** X20. Constructing a value again from the accessors of a stored value
    gives that value back. *)
Theorem newMysqlTime_of_accessors (t : mysqlTime) :
  mysqlTime_wf t ->
  newMysqlTime (Year t) (Month t) (Day t) (Hour t) (Minute t) (Second t)
               (Microsecond t) = t.
Proof.
  intros (Hy & Hm & Hd & Hh & Hmi & Hs & Hu).
  destruct t as [y m d h mi s u].
  cbn [Year Month Day Hour Minute Second Microsecond mysqlTime_TimeInternal
       year month day hour minute second microsecond] in *.
  unfold newMysqlTime. rewrite !uwrap_small by assumption. reflexivity.
Qed.

Lemma newMysqlTime_of_accessors_witness :
  let t := newMysqlTime 75535 13 256 (-1) 59 300 4294967297 in
  newMysqlTime (Year t) (Month t) (Day t) (Hour t) (Minute t) (Second t)
               (Microsecond t) = t.
Proof.
  cbv zeta. apply newMysqlTime_of_accessors. apply newMysqlTime_wf.
Defined.

(** ** The bridge, further *)

Section MoreBridgeFacts.

Context {host : HostCalendar} {laws : HostCalendarLaws host}.
Variable Time_ISOWeek : Time -> Z * Z.

Lemma GoTime_nil_real_date (t : mysqlTime) :
  snd (GoTime t) = None -> Host.real_date (Year t, Month t, Day t).
Proof.
  intros E. apply GoTime_nil_iff in E. destruct E as (Hd & _).
  rewrite <- Hd. apply Time_Date_real.
Qed.

(** X21. For every host whose times are real dates, [GoTime] succeeds only
    on a real date of the host's calendar: on any other month or day it
    returns [ErrInvalidTimeFormat], and [Weekday], [YearDay] and [ISOWeek]
    return their zero results. *)
Theorem GoTime_accepts_only_real_dates (t : mysqlTime) :
  (snd (GoTime t) = None ->
   1 <= month t <= 12 /\ 1 <= day t <= Host.daysIn (month t) (year t))
  /\ (~ (1 <= month t <= 12 /\ 1 <= day t <= Host.daysIn (month t) (year t))
      -> snd (GoTime t) = Some ErrInvalidTimeFormat
         /\ Weekday t = 0 /\ YearDay t = 0
         /\ ISOWeek Time_ISOWeek t = (0, 0)).
Proof.
  assert (snd (GoTime t) = None ->
          1 <= month t <= 12
          /\ 1 <= day t <= Host.daysIn (month t) (year t)) as Hreal.
  { intros E. apply (GoTime_nil_real_date t E). }
  split; [exact Hreal|].
  intros Hn.
  assert (snd (GoTime t) = Some ErrInvalidTimeFormat) as He.
  { destruct (GoTime_error_cases t) as [E|E]; [|exact E].
    exfalso. apply Hn, Hreal, E. }
  unfold Weekday, YearDay, ISOWeek.
  destruct (GoTime t) as [tm err]. cbn [snd] in He. subst err.
  repeat split.
Qed.

End MoreBridgeFacts.

Lemma GoTime_accepts_only_real_dates_witness :
  snd (GoTime (host := HostUTC.host) (newMysqlTime 2015 2 29 0 0 0 0))
  = Some ErrInvalidTimeFormat
  /\ Weekday (host := HostUTC.host) (newMysqlTime 2015 2 29 0 0 0 0) = 0.
Proof.
  destruct (GoTime_accepts_only_real_dates (host := HostUTC.host)
              (laws := HostUTCFacts.laws) (fun _ => (0, 0))
              (newMysqlTime 2015 2 29 0 0 0 0)) as (_ & H).
  destruct H as (He & Hw & _).
  - vm_compute. intros (_ & _ & Hle). apply Hle. reflexivity.
  - split; assumption.
Defined.

(** ** The bridge on the host model *)

Module HostUTCRoundTrip.

Import HostUTC.

Lemma norm_id (hi lo base : Z) :
  0 <= lo < base -> norm hi lo base = (hi, lo).
Proof.
  intros H. unfold norm.
  replace (lo <? 0) with false by lia.
  replace (lo >=? base) with false by lia. reflexivity.
Qed.

Lemma norm_range (hi lo base : Z) :
  0 < base -> 0 <= snd (norm hi lo base) < base.
Proof.
  intros Hb. unfold norm.
  destruct (Z.ltb_spec lo 0).
  - assert (0 <= lo + (Z.quot (- lo - 1) base + 1) * base < base) as Hr.
    { rewrite Z.quot_div_nonneg by lia.
      pose proof (Z.div_mod (- lo - 1) base ltac:(lia)) as E.
      pose proof (Z.mod_pos_bound (- lo - 1) base Hb) as B.
      nia. }
    replace (lo + (Z.quot (- lo - 1) base + 1) * base >=? base) with false
      by lia.
    exact Hr.
  - destruct (Z.geb_spec lo base); cbn [snd]; [|lia].
    rewrite Z.quot_div_nonneg by lia.
    pose proof (Z.div_mod lo base ltac:(lia)) as E.
    pose proof (Z.mod_pos_bound lo base Hb) as B.
    nia.
Qed.

(** The parts of a year in its 400-year cycle, counted from the absolute
    zero year. *)
Lemma year_parts (y : Z) :
  exists n400 c n4 e : Z,
    0 <= c <= 3 /\ 0 <= n4 <= 24 /\ 0 <= e <= 3
    /\ y = 400 * n400 + 100 * c + 4 * n4 + e + -292277022399
    /\ daysSinceEpoch y = 146097 * n400 + 36524 * c + 1461 * n4 + 365 * e.
Proof.
  unfold daysSinceEpoch, absoluteZeroYear, daysPer400Years, daysPer100Years,
    daysPer4Years.
  change (365 * 400 + 97) with 146097.
  change (365 * 100 + 24) with 36524.
  change (365 * 4 + 1) with 1461.
  set (Y := y - -292277022399).
  assert (y = Y + -292277022399) as Ey by (subst Y; lia).
  clearbody Y. subst y.
  set (n400 := Y / 400).
  set (Y1 := Y - 400 * n400).
  assert (0 <= Y1 < 400) as HY1 by (subst Y1 n400; lia).
  assert (Y = 400 * n400 + Y1) as EY by (subst Y1; lia).
  clearbody Y1 n400. subst Y.
  set (c := Y1 / 100).
  set (Y2 := Y1 - 100 * c).
  assert (0 <= Y2 < 100 /\ 0 <= c <= 3) as [HY2 Hc] by (subst Y2 c; lia).
  assert (Y1 = 100 * c + Y2) as EY1 by (subst Y2; lia).
  clearbody Y2 c. subst Y1.
  set (n4 := Y2 / 4).
  set (e := Y2 - 4 * n4).
  assert (0 <= e <= 3 /\ 0 <= n4 <= 24) as [He Hn4] by (subst e n4; lia).
  assert (Y2 = 4 * n4 + e) as EY2 by (subst e; lia).
  clearbody e n4. subst Y2.
  exists n400, c, n4, e.
  repeat split; lia.
Qed.

(** A quotient capped at 3, as [absDate] caps the centuries of a 400-year
    cycle and the years of a 4-year cycle. *)
Lemma capped_quotient (r c b : Z) :
  0 < b -> 0 <= c <= 3 -> 0 <= r <= b -> (r = b -> c = 3) ->
  (r + c * b) / b - (r + c * b) / b / 4 = c.
Proof.
  intros Hb Hc Hr Hcap.
  rewrite Z.div_add by lia.
  destruct (Z.eq_dec r b) as [->|Hne].
  - rewrite (Hcap eq_refl), Z.div_same by lia. reflexivity.
  - rewrite Z.div_small by lia.
    assert (c = 0 \/ c = 1 \/ c = 2 \/ c = 3) as [->|[->|[->| ->]]] by lia;
      reflexivity.
Qed.

Lemma absYear_of_parts (n400 c n4 e k : Z) :
  0 <= c <= 3 -> 0 <= n4 <= 24 -> 0 <= e <= 3 ->
  0 <= k <= 364 \/ (k = 365 /\ e = 3 /\ (n4 <> 24 \/ c = 3)) ->
  absYear (146097 * n400 + 36524 * c + 1461 * n4 + 365 * e + k)
  = (400 * n400 + 100 * c + 4 * n4 + e + -292277022399, k).
Proof.
  intros Hc Hn4 He Hk.
  unfold absYear, daysPer400Years, daysPer100Years, daysPer4Years,
    absoluteZeroYear.
  change (365 * 400 + 97) with 146097.
  change (365 * 100 + 24) with 36524.
  change (365 * 4 + 1) with 1461.
  rewrite !Z.shiftr_div_pow2 by lia. change (2 ^ 2) with 4.
  (* the 400-year cycles *)
  replace (146097 * n400 + 36524 * c + 1461 * n4 + 365 * e + k)
    with (36524 * c + 1461 * n4 + 365 * e + k + n400 * 146097) by lia.
  rewrite Z.div_add by lia.
  rewrite (Z.div_small (36524 * c + 1461 * n4 + 365 * e + k) 146097) by lia.
  replace (36524 * c + 1461 * n4 + 365 * e + k + n400 * 146097
           - 146097 * (0 + n400))
    with (1461 * n4 + 365 * e + k + c * 36524) by lia.
  (* the centuries *)
  rewrite (capped_quotient (1461 * n4 + 365 * e + k) c 36524) by lia.
  replace (1461 * n4 + 365 * e + k + c * 36524 - 36524 * c)
    with (365 * e + k + n4 * 1461) by lia.
  (* the 4-year cycles *)
  rewrite Z.div_add by lia.
  rewrite (Z.div_small (365 * e + k) 1461) by lia.
  replace (365 * e + k + n4 * 1461 - 1461 * (0 + n4))
    with (k + e * 365) by lia.
  (* the years *)
  rewrite (capped_quotient k e 365) by lia.
  f_equal; lia.
Qed.

Lemma isLeap_parts (n400 c n4 e : Z) :
  0 <= c <= 3 -> 0 <= n4 <= 24 -> 0 <= e <= 3 ->
  Host.isLeap (400 * n400 + 100 * c + 4 * n4 + e + -292277022399) = true
  <-> e = 3 /\ (n4 <> 24 \/ c = 3).
Proof.
  intros Hc Hn4 He.
  destruct (HostUTCFacts.leap_of_offsets n400 c n4 e) as (H4 & H100 & H400);
    [lia|].
  cbv zeta in H4, H100, H400.
  unfold Host.isLeap.
  set (yr := 400 * n400 + 100 * c + 4 * n4 + e + -292277022399) in *.
  clearbody yr.
  destruct (Z.eqb_spec (Z.rem yr 4) 0) as [E4|E4];
    destruct (Z.eqb_spec (Z.rem yr 100) 0) as [E100|E100];
    destruct (Z.eqb_spec (Z.rem yr 400) 0) as [E400|E400];
    cbn [andb orb negb];
    rewrite H4 in E4; rewrite H100 in E100; rewrite H400 in E400;
    clear H4 H100 H400; clear yr;
    split; intros; try discriminate; try reflexivity; lia.
Qed.

Lemma absYear_daysSinceEpoch (y k : Z) :
  0 <= k < host_year_length y ->
  absYear (daysSinceEpoch y + k) = (y, k).
Proof.
  intros Hk.
  destruct (year_parts y) as (n400 & c & n4 & e & Hc & Hn4 & He & Ey & Ed).
  rewrite Ed.
  pose proof (isLeap_parts n400 c n4 e Hc Hn4 He) as Hl.
  rewrite <- Ey in Hl. unfold host_year_length in Hk.
  rewrite absYear_of_parts; try assumption.
  - f_equal. lia.
  - destruct (Host.isLeap y).
    + destruct (proj1 Hl eq_refl) as (He3 & Hrest). lia.
    + lia.
Qed.

Lemma daysSinceEpoch_next (y : Z) :
  daysSinceEpoch (y + 1) = daysSinceEpoch y + host_year_length y.
Proof.
  destruct (year_parts y) as (n400 & c & n4 & e & Hc & Hn4 & He & Ey & Ed).
  destruct (year_parts (y + 1))
    as (n400' & c' & n4' & e' & Hc' & Hn4' & He' & Ey' & Ed').
  rewrite Ed, Ed'.
  pose proof (isLeap_parts n400 c n4 e Hc Hn4 He) as Hl.
  rewrite <- Ey in Hl. unfold host_year_length.
  assert (400 * n400' + 100 * c' + 4 * n4' + e'
          = 400 * n400 + 100 * c + 4 * n4 + e + 1) as Enext by lia.
  clear Ey Ey' Ed Ed'.
  destruct (Host.isLeap y).
  - destruct (proj1 Hl eq_refl) as (He3 & Hrest). clear Hl. lia.
  - assert (~ (e = 3 /\ (n4 <> 24 \/ c = 3))) as Hn
      by (intros Hx; apply Hl in Hx; discriminate Hx).
    clear Hl. lia.
Qed.

Lemma monthDay_inverse_all (leap : bool) :
  forallb (fun m =>
    forallb (fun d => monthDay_inverse_ok leap (Z.of_nat m) (Z.of_nat d))
            (seq 1 31))
    (seq 1 12) = true.
Proof. destruct leap; vm_compute; reflexivity. Qed.

Lemma monthDay_host_doy (leap : bool) (m d : Z) :
  1 <= m <= 12 ->
  1 <= d <= (if (m =? 2) && leap then 29
             else Host.daysBefore_at m - Host.daysBefore_at (m - 1)) ->
  monthDay leap (host_doy leap m d) = (m, d)
  /\ 0 <= host_doy leap m d < (if leap then 366 else 365).
Proof.
  intros Hm Hd.
  assert (d <= 31) as Hd31.
  { assert (forallb (fun n =>
              (if (Z.of_nat n =? 2) && leap then 29
               else Host.daysBefore_at (Z.of_nat n)
                    - Host.daysBefore_at (Z.of_nat n - 1)) <=? 31)
              (seq 1 12) = true) as Hlen
      by (destruct leap; vm_compute; reflexivity).
    rewrite forallb_forall in Hlen.
    specialize (Hlen (Z.to_nat m) ltac:(apply in_seq; lia)).
    rewrite Z2Nat.id in Hlen by lia. lia. }
  pose proof (monthDay_inverse_all leap) as Hall.
  rewrite forallb_forall in Hall.
  specialize (Hall (Z.to_nat m) ltac:(apply in_seq; lia)).
  rewrite forallb_forall in Hall.
  specialize (Hall (Z.to_nat d) ltac:(apply in_seq; lia)).
  rewrite !Z2Nat.id in Hall by lia.
  unfold monthDay_inverse_ok in Hall.
  replace (d <=? (if (m =? 2) && leap then 29
                  else Host.daysBefore_at m - Host.daysBefore_at (m - 1)))
    with true in Hall by lia.
  cbn [negb orb] in Hall.
  destruct (monthDay leap (host_doy leap m d)) as [m' d'].
  repeat (apply andb_true_iff in Hall as [Hall ?]).
  split; [f_equal; lia | lia].
Qed.

Lemma Date_in_range (y m d h mi s ns : Z) :
  1 <= m <= 12 -> 0 <= h <= 23 -> 0 <= mi <= 59 -> 0 <= s <= 59 ->
  0 <= ns < 1000000000 ->
  Date y m d h mi s ns
  = ((daysSinceEpoch y + host_doy (Host.isLeap y) m d) * 86400
     + (h * 3600 + mi * 60 + s), ns).
Proof.
  intros Hm Hh Hmi Hs Hns.
  unfold Date, host_doy, secondsPerDay.
  rewrite (norm_id y (m - 1) 12) by lia.
  rewrite (norm_id s ns 1000000000) by lia.
  rewrite (norm_id mi s 60) by lia.
  rewrite (norm_id h mi 60) by lia.
  rewrite (norm_id d h 24) by lia.
  replace (m - 1 + 1) with m by lia.
  destruct (Host.isLeap y && (m >=? 3)); f_equal; lia.
Qed.

Lemma split_instant (D tod : Z) :
  0 <= tod < 86400 ->
  (D * 86400 + tod) / 86400 = D /\ (D * 86400 + tod) mod 86400 = tod.
Proof. intros H. lia. Qed.

(** What the host's queries return for a real date and time of day. *)
Lemma host_queries (y m d h mi s ns : Z) :
  Host.real_date (y, m, d) ->
  0 <= h <= 23 -> 0 <= mi <= 59 -> 0 <= s <= 59 -> 0 <= ns < 1000000000 ->
  let tm := Date y m d h mi s ns in
  let doy := host_doy (Host.isLeap y) m d in
  Time_Date tm = (y, m, d) /\ Time_Clock tm = (h, mi, s)
  /\ Time_Nanosecond tm = ns
  /\ Time_Weekday tm = (daysSinceEpoch y + doy + 1) mod 7
  /\ Time_YearDay tm = doy + 1
  /\ 0 <= doy < host_year_length y.
Proof.
  intros (Hm & Hd) Hh Hmi Hs Hns. cbv zeta.
  rewrite Date_in_range by assumption.
  unfold Host.daysIn in Hd.
  destruct (monthDay_host_doy (Host.isLeap y) m d Hm Hd) as [Hmd Hdoy].
  set (doy := host_doy (Host.isLeap y) m d) in *. clearbody doy.
  set (tod := h * 3600 + mi * 60 + s).
  assert (0 <= tod < 86400) as Htod by (subst tod; lia).
  destruct (split_instant (daysSinceEpoch y + doy) tod Htod) as [Ediv Emod].
  unfold Time_Date, Time_Clock, Time_Nanosecond, Time_Weekday, Time_YearDay,
    secondsPerDay.
  cbn [fst snd]. rewrite Ediv, Emod.
  rewrite absYear_daysSinceEpoch by (unfold host_year_length; exact Hdoy).
  cbn [fst snd]. rewrite Hmd.
  repeat split; try reflexivity.
  - subst tod. repeat f_equal; lia.
  - set (D := daysSinceEpoch y + doy) in *. clearbody D. clear Ediv Emod.
    change (1 * 86400) with 86400. change (7 * 86400) with 604800. lia.
  - lia.
  - unfold host_year_length. lia.
Qed.

Lemma Time_Clock_range (tm : Time) :
  let '(h, mi, s) := Time_Clock tm in
  0 <= h <= 23 /\ 0 <= mi <= 59 /\ 0 <= s <= 59.
Proof.
  unfold Time_Clock, secondsPerDay.
  set (sec := fst tm mod 86400).
  assert (0 <= sec < 86400) as Hsec by (subst sec; lia).
  clearbody sec. lia.
Qed.

Lemma Date_nanosecond_range (y m d h mi s ns : Z) :
  0 <= Time_Nanosecond (Date y m d h mi s ns) < 1000000000.
Proof.
  unfold Date, Time_Nanosecond.
  destruct (norm y (m - 1) 12) as [y' m'].
  pose proof (norm_range s ns 1000000000 ltac:(lia)) as Hr.
  destruct (norm s ns 1000000000) as [s' ns']. cbn [snd] in Hr.
  destruct (norm mi s' 60) as [mi' s''].
  destruct (norm h mi' 60) as [h' mi''].
  destruct (norm d h' 24) as [d' h''].
  cbn [snd]. exact Hr.
Qed.

End HostUTCRoundTrip.

Lemma GoTime_utc_fields (t : mysqlTime) :
  mysqlTime_wf t -> utc_acceptable t ->
  let tm := GoTime_normalized (host := HostUTC.host) t in
  let doy := host_doy (Host.isLeap (year t)) (month t) (day t)
  in
  GoTime_fields_match (host := HostUTC.host) t
  /\ HostUTC.Time_Weekday tm
     = (HostUTC.daysSinceEpoch (year t) + doy + 1) mod 7
  /\ HostUTC.Time_YearDay tm = doy + 1
  /\ 0 <= doy < host_year_length (year t).
Proof.
  intros (Hy & Hm & Hd & Hh & Hmi & Hs & Hu) (Hreal & Hh' & Hmi' & Hs' & Hu').
  cbv zeta. unfold GoTime_fields_match, GoTime_normalized.
  cbn [Year Month Day Hour Minute Second Microsecond mysqlTime_TimeInternal
       Time Date Time_Date Time_Clock Time_Nanosecond HostUTC.host].
  assert (microsecond t *i 1000 = microsecond t * 1000) as ->
    by (unwrap; reflexivity).
  destruct (HostUTCRoundTrip.host_queries (year t) (month t) (day t)
              (hour t) (minute t) (second t) (microsecond t * 1000))
    as (Ed & Ec & En & Ew & Eyd & Hdoy); try assumption; try lia.
  cbv zeta in *.
  rewrite Ed, Ec, En.
  repeat split; try assumption; try lia.
  unwrap. lia.
Qed.

Lemma GoTime_utc_succeeds_iff_aux (t : mysqlTime) :
  mysqlTime_wf t ->
  (snd (GoTime (host := HostUTC.host) t) = None <-> utc_acceptable t).
Proof.
  intros Hwf. rewrite GoTime_nil_iff. split.
  - intros (Ed & Ec & En).
    pose proof (HostUTCFacts.Time_Date_real
                  (GoTime_normalized (host := HostUTC.host) t)) as Hreal.
    pose proof (HostUTCRoundTrip.Time_Clock_range
                  (GoTime_normalized (host := HostUTC.host) t)) as Hclock.
    cbn [Time Date Time_Date Time_Clock Time_Nanosecond HostUTC.host]
      in Ed, Ec, En.
    rewrite Ed in Hreal. rewrite Ec in Hclock.
    cbn [Year Month Day Hour Minute Second mysqlTime_TimeInternal]
      in Hreal, Hclock.
    unfold utc_acceptable. split; [exact Hreal|].
    split; [lia|]. split; [lia|]. split; [lia|].
    unfold GoTime_normalized in En.
    cbn [Date HostUTC.host] in En.
    pose proof (HostUTCRoundTrip.Date_nanosecond_range
                  (Year t) (Month t) (Day t) (Hour t) (Minute t) (Second t)
                  (Microsecond t *i 1000)) as Hns.
    set (ns := HostUTC.Time_Nanosecond _) in *. clearbody ns.
    cbn [Microsecond mysqlTime_TimeInternal] in En.
    rewrite <- En. unwrap. lia.
  - intros Hacc. apply (GoTime_utc_fields t Hwf Hacc).
Qed.

(** X22. On the model of the host for a zone without offset, [GoTime]
    succeeds on a stored value exactly when its month and day are a real
    date of the host's calendar, its hour is at most 23, its minute and
    second at most 59 and its microsecond at most 999999; otherwise it
    returns [ErrInvalidTimeFormat]. *)
Theorem GoTime_utc_succeeds_iff (t : mysqlTime) :
  mysqlTime_wf t ->
  (snd (GoTime (host := HostUTC.host) t) = None <-> utc_acceptable t)
  /\ (snd (GoTime (host := HostUTC.host) t) = Some ErrInvalidTimeFormat
      <-> ~ utc_acceptable t).
Proof.
  intros Hwf.
  pose proof (GoTime_utc_succeeds_iff_aux t Hwf) as Hiff.
  split; [exact Hiff|].
  destruct (GoTime_error_cases (host := HostUTC.host) t) as [E|E];
    rewrite E in *; split; intros H.
  - discriminate H.
  - exfalso. apply H, Hiff. reflexivity.
  - intros Hacc. apply Hiff in Hacc. discriminate Hacc.
  - reflexivity.
Qed.

Lemma GoTime_utc_succeeds_iff_witness :
  snd (GoTime (host := HostUTC.host) (newMysqlTime 2016 2 29 23 59 59 999999))
  = None.
Proof.
  apply (proj2 (proj1 (GoTime_utc_succeeds_iff
                         (newMysqlTime 2016 2 29 23 59 59 999999)
                         (newMysqlTime_wf _ _ _ _ _ _ _)))).
  unfold utc_acceptable. vm_compute. intuition discriminate.
Defined.

Module DayNumberVsHost.

Import HostUTC HostUTCRoundTrip.

(** From year 1 on, the first of January has the host's day count, moved by
    a constant that is a multiple of 7 less 366. *)
Lemma calcDaynr_first_host (y : Z) :
  1 <= y < 2 ^ 16 ->
  calcDaynr y 1 1 = daysSinceEpoch y - 146097 * 730692556 + 366.
Proof.
  intros Hy.
  destruct (year_parts y) as (n400 & c & n4 & e & Hc & Hn4 & He & Ey & Ed).
  rewrite Ed. clear Ed.
  rewrite calcDaynr_leap_term by lia.
  change (1 <=? 2) with true. cbv iota.
  set (N := n400 - 730692556).
  assert (y - 1 = 400 * N + 100 * c + 4 * n4 + e) as Ey1 by (subst N; lia).
  assert (0 <= N) as HN by lia.
  assert (n400 = N + 730692556) as En by (subst N; lia).
  clearbody N. clear Ey. subst n400.
  assert (leap_term (y - 1) = 97 * N + 24 * c + n4) as ->.
  { unfold leap_term. rewrite Ey1.
    rewrite !Z.quot_div_nonneg by lia.
    assert ((400 * N + 100 * c + 4 * n4 + e) / 4 = 100 * N + 25 * c + n4)
      as -> by lia.
    assert ((400 * N + 100 * c + 4 * n4 + e) / 100 = 4 * N + c) as -> by lia.
    assert (((4 * N + c + 1) * 3) / 4 = 3 * N + c) as -> by lia.
    lia. }
  lia.
Qed.

Lemma month_offset_all (leap : bool) :
  forallb (fun n => month_offset_ok leap (Z.of_nat n)) (seq 1 12) = true.
Proof. destruct leap; vm_compute; reflexivity. Qed.

Lemma calcDaynr_host_doy (y m d : Z) :
  1 <= y < 2 ^ 16 -> 1 <= m <= 12 -> 0 <= d <= 2 ^ 16 ->
  calcDaynr y m d = calcDaynr y 1 1 + host_doy (Host.isLeap y) m d.
Proof.
  intros Hy Hm Hd.
  rewrite (calcDaynr_day_of_year y m d) by lia.
  pose proof (calcDaysInYear_gregorian y Hy) as Hg.
  pose proof (month_offset_all (Host.isLeap y)) as Hall.
  rewrite forallb_forall in Hall.
  specialize (Hall (Z.to_nat m) ltac:(apply in_seq; lia)).
  rewrite Z2Nat.id in Hall by lia.
  unfold month_offset_ok in Hall. apply Z.eqb_eq in Hall.
  assert (host_doy (Host.isLeap y) m d = host_doy (Host.isLeap y) m 1 + d - 1)
    as -> by (unfold host_doy; lia).
  rewrite <- Hall.
  destruct (calcDaysInYear_cases y) as [E|E]; rewrite E in *;
    destruct (Host.isLeap y); try discriminate Hg;
    destruct (m <=? 2); lia.
Qed.

Lemma valid_date_real (y m d : Z) :
  valid_date y m d -> 1 <= y -> Host.real_date (y, m, d).
Proof.
  intros (Hy & Hm & Hd) Hy1.
  pose proof (calcDaysInYear_gregorian y ltac:(lia)) as Hg.
  unfold Host.real_date, Host.daysIn. split; [exact Hm|].
  unfold days_in_month in Hd. rewrite Hg in Hd.
  assert (forallb (fun n =>
            let m := Z.of_nat n in
            (if m =? 2 then (if Host.isLeap y then 29 else 28)
             else if (m =? 4) || (m =? 6) || (m =? 9) || (m =? 11) then 30
                  else 31)
            =? (if (m =? 2) && Host.isLeap y then 29
                else Host.daysBefore_at m - Host.daysBefore_at (m - 1)))
            (seq 1 12) = true) as Hall
    by (destruct (Host.isLeap y); vm_compute; reflexivity).
  rewrite forallb_forall in Hall.
  specialize (Hall (Z.to_nat m) ltac:(apply in_seq; lia)).
  cbv zeta in Hall. rewrite Z2Nat.id in Hall by lia.
  apply Z.eqb_eq in Hall. rewrite <- Hall. exact Hd.
Qed.

End DayNumberVsHost.

Lemma in_calendar_acceptable (t : mysqlTime) :
  in_calendar t -> 1 <= year t -> utc_acceptable t.
Proof.
  intros (V & Hh & Hm & Hs & Hu) Hy.
  unfold utc_acceptable.
  split; [apply DayNumberVsHost.valid_date_real; assumption | lia].
Qed.

(** X23. On the model of the host, for a moment of the calendar from year 1
    on, [Weekday] is the Sunday-based [calcWeekday] of the day number, and
    [YearDay] is the day number counted from the first of January: the
    host's calendar and [calcDaynr] agree. *)
Theorem Weekday_utc_is_calcWeekday (t : mysqlTime) :
  in_calendar t -> 1 <= year t ->
  Weekday (host := HostUTC.host) t
  = calcWeekday (calcDaynr (year t) (month t) (day t)) true
  /\ YearDay (host := HostUTC.host) t
     = calcDaynr (year t) (month t) (day t) - calcDaynr (year t) 1 1 + 1.
Proof.
  intros Hc Hy1.
  pose proof (in_calendar_wf t Hc) as Hwf.
  pose proof (in_calendar_acceptable t Hc Hy1) as Hacc.
  destruct (GoTime_utc_fields t Hwf Hacc) as (Hmatch & Hw & Hyd & Hdoy).
  cbv zeta in *.
  unfold Weekday, YearDay.
  pose proof (GoTime_value (host := HostUTC.host) t) as Hv.
  apply (GoTime_nil_iff (host := HostUTC.host)) in Hmatch.
  destruct (GoTime (host := HostUTC.host) t) as [tm err].
  cbn [fst snd] in Hv, Hmatch. subst err tm.
  cbn [Time_Weekday Time_YearDay HostUTC.host].
  rewrite Hw, Hyd.
  destruct Hc as ((Hy & Hm & Hd) & _).
  pose proof (days_in_month_bounds (year t) (month t)) as Hb.
  rewrite (DayNumberVsHost.calcDaynr_host_doy (year t) (month t) (day t))
    by lia.
  rewrite (DayNumberVsHost.calcDaynr_first_host (year t)) by lia.
  set (doy := host_doy _ _ _) in *. clearbody doy.
  assert (146097 * 730692556 - 366 <= HostUTC.daysSinceEpoch (year t)
          <= 146097 * 730692556 + 2 ^ 25) as Hbig.
  { pose proof (calcDaynr_bounds (year t) 1 1) as Hp.
    rewrite (DayNumberVsHost.calcDaynr_first_host (year t)) in Hp by lia.
    change (2 ^ 8) with 256 in Hp. lia. }
  set (D := HostUTC.daysSinceEpoch (year t)) in *. clearbody D.
  assert (0 <= doy <= 366) as Hdoy'
    by (unfold host_year_length in Hdoy;
        destruct (Host.isLeap (year t)); lia).
  clear Hdoy Hw Hyd Hwf Hacc Hb.
  split; [|lia].
  rewrite calcWeekday_exact by lia.
  rewrite Z.rem_mod_nonneg by lia. lia.
Qed.

Lemma Weekday_utc_is_calcWeekday_witness :
  Weekday (host := HostUTC.host) (newMysqlTime 2000 1 1 0 0 0 0)
  = calcWeekday (calcDaynr 2000 1 1) true
  /\ calcWeekday (calcDaynr 2000 1 1) true = 6.
Proof.
  split; [|vm_compute; reflexivity].
  apply (Weekday_utc_is_calcWeekday (newMysqlTime 2000 1 1 0 0 0 0)).
  - unfold in_calendar, valid_date. vm_compute. intuition discriminate.
  - vm_compute. discriminate.
Defined.

(** X24. On the model of the host, [YearDay] of a stored value is 0 exactly
    when [GoTime] fails, a successful [YearDay] being between 1 and 366;
    [Weekday] is between 0 and 6 and so does not tell a failure from a
    Sunday. *)
Theorem YearDay_utc_zero_iff_error (t : mysqlTime) :
  mysqlTime_wf t ->
  (YearDay (host := HostUTC.host) t = 0
   <-> snd (GoTime (host := HostUTC.host) t) = Some ErrInvalidTimeFormat)
  /\ 0 <= YearDay (host := HostUTC.host) t <= 366
  /\ 0 <= Weekday (host := HostUTC.host) t <= 6.
Proof.
  intros Hwf.
  pose proof (GoTime_utc_succeeds_iff_aux t Hwf) as Hiff.
  pose proof (GoTime_value (host := HostUTC.host) t) as Hv.
  unfold YearDay, Weekday.
  destruct (GoTime_error_cases (host := HostUTC.host) t) as [E|E].
  - pose proof (proj1 Hiff E) as Hacc.
    destruct (GoTime_utc_fields t Hwf Hacc) as (_ & Hw & Hyd & Hdoy).
    cbv zeta in *.
    destruct (GoTime (host := HostUTC.host) t) as [tm err].
    cbn [fst snd] in *. subst err tm.
    cbn [Time_Weekday Time_YearDay HostUTC.host].
    rewrite Hw, Hyd.
    unfold host_year_length in Hdoy.
    destruct (Host.isLeap (year t));
      (split; [split; [lia | discriminate]|]); lia.
  - destruct (GoTime (host := HostUTC.host) t) as [tm err].
    cbn [fst snd] in *. subst err.
    split; [split; reflexivity | lia].
Qed.

Lemma YearDay_utc_zero_iff_error_witness :
  YearDay (host := HostUTC.host) (newMysqlTime 2016 2 30 0 0 0 0) = 0
  /\ YearDay (host := HostUTC.host) (newMysqlTime 2016 12 31 0 0 0 0) = 366.
Proof.
  split; [|vm_compute; reflexivity].
  apply (proj1 (YearDay_utc_zero_iff_error (newMysqlTime 2016 2 30 0 0 0 0)
                  (newMysqlTime_wf _ _ _ _ _ _ _))).
  vm_compute. reflexivity.
Defined.
